(** * The asset browser panel (AssetBrowser.cpp): a shallow embedding

    The browser is UI glue over a widget toolkit and an asset system.  The
    embedding keeps the logic that lives in AssetBrowser.cpp itself: the
    folder-before-asset comparison of the sort proxy, the confirmation
    dialogs in front of rename and delete, the import entry point, layout
    persistence, the recursive view/search switch, the navigation history and
    the batched refresh of visible thumbnails.

    Collaborators whose code is not part of this file (the toolkit, the
    asset manager, the folders view, the filter panel) appear as interfaces
    (type classes) or as explicit reaction arguments of the operations that
    call them. *)

From Stdlib Require Import ZArith Lia Ascii.
From stdpp Require Import base option list gmap strings pretty sorting.

#[local] Set Warnings "-register-all".
#[local] Open Scope Z_scope.

(** ** Machine integers *)

Definition INT_MAX : Z := 2147483647.
Definition INT_MIN : Z := -2147483648.

(** Two's-complement reduction of a mathematical integer to a 32-bit [int]. *)
Definition wrap_int (z : Z) : Z := (z + 2147483648) `mod` 4294967296 - 2147483648.

(** Reduction to a 32-bit [unsigned int]. *)
Definition wrap_uint (z : Z) : Z := z `mod` 4294967296.

(** ** The toolkit fragment the browser touches *)

Module Qt.

Definition QString := string.
Definition QStringList := list string.
Definition QByteArray := string.

(** QVariant, restricted to the payload kinds this file stores or reads:
    flags, enumerators, pointers passed as integers, opaque blobs and nested
    state maps. *)
Inductive QVariant :=
| QVInvalid
| QVBool (b : bool)
| QVInt (i : Z)
| QVUInt (u : Z)
| QVLongLong (p : Z)
| QVByteArray (a : string)
| QVMap (m : gmap string QVariant).

Abbreviation QVariantMap := (gmap string QVariant).

(** Toolkit routines whose bodies are outside this file. *)
Class Conversions := {
  QByteArray_toLongLong : string -> option Z;
  QByteArray_toBool : string -> bool;
  toBase64 : string -> string;
  fromBase64 : string -> string;
  (** QVariant::operator== *)
  QVariant_equals : QVariant -> QVariant -> bool
}.

Definition isValid (v : QVariant) : bool :=
  match v with QVInvalid => false | _ => true end.

Definition Z_of_bool (b : bool) : Z := if b then 1 else 0.

(** The numeric content of a variant and whether a conversion exists. *)
Definition toNumber `{Conversions} (v : QVariant) : Z * bool :=
  match v with
  | QVBool b => (Z_of_bool b, true)
  | QVInt i => (i, true)
  | QVUInt u => (u, true)
  | QVLongLong p => (p, true)
  | QVByteArray a =>
      match QByteArray_toLongLong a with
      | Some z => (z, true)
      | None => (0, false)
      end
  | QVInvalid | QVMap _ => (0, false)
  end.

(** QVariant::toUInt(bool* ok): an unsigned payload is returned as stored,
    any other number is converted to [unsigned int]. *)
Definition toUInt `{Conversions} (v : QVariant) : Z * bool :=
  match v with
  | QVUInt u => (u, true)
  | _ => let '(z, ok) := toNumber v in (wrap_uint z, ok)
  end.

(** QVariant::toInt(): an [int] payload is returned as stored, any other
    number is converted to [int]. *)
Definition toInt `{Conversions} (v : QVariant) : Z :=
  match v with
  | QVInt i => i
  | _ => wrap_int (toNumber v).1
  end.

(** QVariant::value<intptr_t>() *)
Definition value_intptr `{Conversions} (v : QVariant) : Z :=
  (toNumber v).1.

(** QVariant::toBool() *)
Definition toBool `{Conversions} (v : QVariant) : bool :=
  match v with
  | QVBool b => b
  | QVInt i | QVUInt i | QVLongLong i => negb (i =? 0)
  | QVByteArray a => QByteArray_toBool a
  | QVInvalid | QVMap _ => false
  end.

(** QVariant::toByteArray() for the payloads above: only a byte array
    converts, everything else yields the empty array. *)
Definition toByteArray (v : QVariant) : QByteArray :=
  match v with
  | QVByteArray a => a
  | _ => ""
  end.

(** [type() == QVariant::Map] together with [value<QVariantMap>()]. *)
Definition asMap (v : QVariant) : option QVariantMap :=
  match v with
  | QVMap m => Some m
  | _ => None
  end.

(** QMap::value(key): a default-constructed (invalid) variant when absent. *)
Definition value (state : QVariantMap) (key : string) : QVariant :=
  default QVInvalid (state !! key).

(** Item data roles read in this file. *)
Inductive Role :=
| TypeCheckRole
| InternalPointerRole
| FolderPathRole
| DisplayRole
| UserRole (n : Z).

Record QModelIndex := {
  index_isValid : bool;
  index_row : Z;
  index_column : Z;
  index_data : Role -> QVariant
}.

(** QModelIndex::data(role): an invalid index has no data. *)
Definition data (index : QModelIndex) (role : Role) : QVariant :=
  if index_isValid index then index_data index role else QVInvalid.

Inductive StandardButton := Yes | No | Cancel.

#[global] Instance StandardButton_eq_dec : EqDecision StandardButton.
Proof. solve_decision. Defined.

End Qt.

Import Qt.

(** ** Private_AssetBrowser: helpers, views and the sort proxy *)

Module Private_AssetBrowser.

(** EAssetModelRowType is declared in AssetModel.h; only the two enumerators
    used here are needed and their numeric values stay abstract. *)
Class EAssetModelRowType := {
  eAssetModelRow_Asset : Z;
  eAssetModelRow_Folder : Z
}.

(** What SortFilterProxyModel inherits from QAttributeFilterProxyModel. *)
Class QAttributeFilterProxyModel := {
  sortRole : Role;
  QAttributeFilterProxyModel_lessThan : QModelIndex -> QModelIndex -> bool
}.

Section Helpers.
Context `{Conversions} `{EAssetModelRowType}.

Definition GetType (index : QModelIndex) : Z :=
  (toUInt (data index TypeCheckRole)).1.

Definition IsAsset (index : QModelIndex) : bool :=
  let '(v, ok) := toUInt (data index TypeCheckRole) in
  (v =? eAssetModelRow_Asset) && ok.

Definition IsFolder (index : QModelIndex) : bool :=
  let '(v, ok) := toUInt (data index TypeCheckRole) in
  (v =? eAssetModelRow_Folder) && ok.

(** The asset behind a row, as the pointer value stored in the model;
    0 is the null pointer. *)
Definition ToAsset (index : QModelIndex) : Z :=
  value_intptr (data index InternalPointerRole).

(** SortFilterProxyModel::lessThan *)
Definition lessThan `{QAttributeFilterProxyModel} (left right : QModelIndex) : bool :=
  let leftType := (toUInt (data left TypeCheckRole)).1 in
  let rightType := (toUInt (data right TypeCheckRole)).1 in
  if leftType =? rightType then
    if QVariant_equals (data left sortRole) (data right sortRole) then
      value_intptr (data left InternalPointerRole) <? value_intptr (data right InternalPointerRole)
    else
      QAttributeFilterProxyModel_lessThan left right
  else
    leftType =? eAssetModelRow_Folder.

End Helpers.

End Private_AssetBrowser.

(** ** Calls into collaborators

    Dialogs, the asset manager, the file dialog and the thread-pool helper are
    not part of this file.  Code that talks to them runs in a small monad: it
    reads the collaborators' answers from a [World] and appends every call it
    makes to a log, so that the order of calls can be stated. *)

Module UI.

Inductive ViewKind := DetailsView | ThumbnailsView.

(** CAssetDropHandler::SImportParams, as far as OnImport fills it. *)
Record SImportParams := { outputDirectory : string }.

(** CExtensionFilter: a description and its extensions. *)
Record CExtensionFilter := {
  filter_description : string;
  filter_extensions : list string
}.

(** CSystemFileDialog::RunParams *)
Record RunParams := {
  extensionFilters : list CExtensionFilter;
  (** [None]: left as RunParams constructs it *)
  initialDir : option string
}.

(** The work handed to ThreadingUtils::AsyncFinalize by this file: the
    captured lambda and the finalizer, by name. *)
Inductive BackgroundTask :=
| Task_Import (filePaths : list string) (importParams : SImportParams).

Inductive Finalizer :=
| Finalize_MergeAssets.

Inductive Call :=
| CQuestionDialog_SWarning (title what : string)
| CQuestionDialog_SQuestion (title question : string)
| CAssetReverseDependenciesDialog_Execute
    (assets : list Z) (assetsGroupTitle dependentAssetsGroupTitle dependentAssetsInfoText question windowTitle : string)
| CAssetManager_DeleteAssetsWithFiles (assets : list Z)
| CAssetManager_MergeAssets (assets : list Z)
| CAssetDropHandler_Import (filePaths : list string) (importParams : SImportParams)
| CSystemFileDialog_RunImportMultipleFiles (runParams : RunParams)
| SetProjectProperty (name value : string)
| ThreadingUtils_AsyncFinalize (task : BackgroundTask) (finalize : Finalizer)
| CryWarning (message : string)
| QEvent_accept
| Base_edit (view : ViewKind) (index : QModelIndex) (trigger : Z) (pEvent : bool).

#[global] Instance SImportParams_eq_dec : EqDecision SImportParams.
Proof. solve_decision. Defined.

(** What the collaborators answer. *)
Record World := {
  (** CAssetManager::HasAnyReverseDependencies *)
  HasAnyReverseDependencies : list Z -> bool;
  (** the result of running the modal reverse-dependencies dialog *)
  ReverseDependenciesDialog_result : list Z -> bool;
  (** the button the user presses in CQuestionDialog::SQuestion *)
  SQuestion_result : string -> string -> StandardButton;
  (** CAsset::GetName *)
  GetName : Z -> string;
  (** the file extensions of each registered importer *)
  GetAssetImporters : list (list string);
  GetProjectProperty : string -> string;
  (** the files the user picks in the import dialog *)
  RunImportMultipleFiles_result : RunParams -> list string;
  (** CAssetDropHandler::CanImportAny *)
  CanImportAny : list string -> bool;
  (** CAssetDropHandler::Import, when it eventually runs *)
  Import_result : list string -> SImportParams -> list Z;
  (** CAssetFoldersView::GetSelectedFolders *)
  GetSelectedFolders : QStringList;
  (** QAbstractItemView::editTriggers *)
  editTriggers : ViewKind -> Z;
  (** the inherited QAdvancedTreeView::edit / QListView::edit *)
  Base_edit_result : ViewKind -> QModelIndex -> Z -> bool -> bool;
  PathUtil_GetPathWithoutFilename : string -> string;
  ShortenStringWithEllipsis : string -> string
}.

Definition M (A : Type) : Type := World -> list Call -> A * list Call.

#[global] Instance M_ret : MRet M := fun A x _ log => (x, log).
#[global] Instance M_bind : MBind M := fun A B f m w log =>
  let '(x, log') := m w log in f x w log'.

(** Read an answer. *)
Definition ask {A} (f : World -> A) : M A := fun w log => (f w, log).

(** Make a call and read its answer. *)
Definition call {A} (c : Call) (answer : World -> A) : M A :=
  fun w log => (answer w, log ++ [c]).

(** Make a call that returns nothing. *)
Definition call_ (c : Call) : M unit := call c (fun _ => tt).

Definition when (b : bool) (m : M unit) : M unit := if b then m else mret tt.

(** Run from an empty log. *)
Definition run {A} (m : M A) (w : World) : A * list Call := m w [].

Definition calls {A} (m : M A) (w : World) : list Call := (run m w).2.
Definition result {A} (m : M A) (w : World) : A := (run m w).1.

End UI.

Import UI.

Definition nl : string := String (Ascii.ascii_of_nat 10) "".

Module Dialogs.

(** The dialog through which a rename or delete is confirmed. *)
Definition is_confirmation (c : Call) : bool :=
  match c with
  | CQuestionDialog_SQuestion _ _ => true
  | CAssetReverseDependenciesDialog_Execute _ _ _ _ _ _ => true
  | _ => false
  end.

(** Whether the user's answer to the dialog [c] lets the operation go on:
    the reverse-dependencies dialog was executed with a positive result, or
    the question was answered with Yes. *)
Definition confirms (w : World) (c : Call) : bool :=
  match c with
  | CAssetReverseDependenciesDialog_Execute assets _ _ _ _ _ => ReverseDependenciesDialog_result w assets
  | CQuestionDialog_SQuestion title question => bool_decide (SQuestion_result w title question = Yes)
  | _ => false
  end.

Definition is_reverse_dependencies_dialog (c : Call) : bool :=
  match c with
  | CAssetReverseDependenciesDialog_Execute _ _ _ _ _ _ => true
  | _ => false
  end.

Definition is_question (c : Call) : bool :=
  match c with
  | CQuestionDialog_SQuestion _ _ => true
  | _ => false
  end.

Definition is_delete (c : Call) : bool :=
  match c with
  | CAssetManager_DeleteAssetsWithFiles _ => true
  | _ => false
  end.

Definition is_base_edit (c : Call) : bool :=
  match c with
  | Base_edit _ _ _ _ => true
  | _ => false
  end.

(** Any call by which assets get imported: the import itself, the merge of
    its results, or the hand-over of both to the thread-pool helper. *)
Definition is_import_activity (c : Call) : bool :=
  match c with
  | CAssetDropHandler_Import _ _ => true
  | ThreadingUtils_AsyncFinalize _ _ => true
  | CAssetManager_MergeAssets _ => true
  | _ => false
  end.

(** The import or the merge, made by the caller itself. *)
Definition is_synchronous_import (c : Call) : bool :=
  match c with
  | CAssetDropHandler_Import _ _ => true
  | CAssetManager_MergeAssets _ => true
  | _ => false
  end.

Definition is_file_dialog (c : Call) : bool :=
  match c with
  | CSystemFileDialog_RunImportMultipleFiles _ => true
  | _ => false
  end.

End Dialogs.

Module Private_AssetBrowser_Views.
Import Private_AssetBrowser.

Section Views.
Context `{Conversions} `{EAssetModelRowType}.

(** UserConfirmsRenaming(CAsset& asset, QWidget* pParent) *)
Definition UserConfirmsRenaming (asset : Z) : M bool :=
  name ← ask (fun w => GetName w asset);
  let question :=
    "There is a possibility that " +:+ name +:+
    " has undetected dependencies which can be violated after the operation." +:+ nl +:+ nl +:+
    "Do you really want to rename the asset?" in
  let title := "Rename Asset" in
  hasDependencies ← ask (fun w => HasAnyReverseDependencies w [asset]);
  if hasDependencies : bool then
    executed ← call (CAssetReverseDependenciesDialog_Execute [asset]
                       "Asset to be renamed" "Dependent Assets"
                       "The following assets probably will not behave correctly after performing the operation."
                       question title)
                    (fun w => ReverseDependenciesDialog_result w [asset]);
    if executed : bool then mret true else mret false
  else
    button ← call (CQuestionDialog_SQuestion title question)
                  (fun w => SQuestion_result w title question);
    if decide (button ≠ Yes) then mret false else mret true.

(** The [edit] override shared, line for line, by QAssetDetailsView and
    CThumbnailsInternalView; [pEvent] tells whether an event was passed. *)
Definition edit (view : ViewKind) (index : QModelIndex) (trigger : Z) (pEvent : bool) : M bool :=
  triggers ← ask (fun w => editTriggers w view);
  declined ←
    (if negb (Z.land triggers trigger =? 0) && index_isValid index && IsAsset index then
       let pAsset := ToAsset index in
       if negb (pAsset =? 0) then
         confirmed ← UserConfirmsRenaming pAsset;
         mret (negb confirmed)
       else mret false
     else mret false);
  if declined : bool then
    when pEvent (call_ QEvent_accept);;
    mret true
  else
    call (Base_edit view index trigger pEvent) (fun w => Base_edit_result w view index trigger pEvent).

Definition QAssetDetailsView_edit := edit DetailsView.
Definition CThumbnailsInternalView_edit := edit ThumbnailsView.

End Views.

End Private_AssetBrowser_Views.

Module Private_AssetBrowser_Thumbnails.

(** QRect, as far as the visibility test reads it. *)
Record QRect := { rect_y : Z; rect_width : Z; rect_height : Z }.

(** What CThumbnailsInternalView reads while refreshing: its model (if any),
    the asset behind each row of the thumbnail column, and the geometry. *)
Record CThumbnailsInternalView := {
  hasModel : bool;
  rowCount : Z;
  (** model()->index(i, eAssetColumns_Thumbnail).isValid() *)
  rowIndexValid : Z -> bool;
  (** the asset pointer stored under InternalPointerRole; 0 is null *)
  rowAsset : Z -> Z;
  (** pAsset->GetType()->HasThumbnail() *)
  HasThumbnail : Z -> bool;
  visualRect : Z -> QRect;
  (** rect().height() *)
  viewHeight : Z
}.

(** One call of TouchVisibleAssetsBatched: the rows the loop visited, in
    loop order, the assets handed to CAssetThumbnailsLoader::TouchAsset, and the
    start row of the continuation posted with QTimer::singleShot(0, ...). *)
Record Batch := {
  batch_first : Z;
  examined : list Z;
  touched : list Z;
  scheduled : option Z
}.

Definition batchSize : Z := Z.shiftl 1 3.

(** The rows visited by [for (int i = last; i >= first; --i)]. *)
Definition rows_downto (last first : Z) : list Z :=
  reverse (seqZ first (last - first + 1)).

(** The body of the loop for row [i]: the asset to touch, if any. *)
Definition touch_row (view : CThumbnailsInternalView) (i : Z) : option Z :=
  if rowIndexValid view i then
    let pAsset := rowAsset view i in
    if negb (pAsset =? 0) && HasThumbnail view pAsset then
      let r := visualRect view i in
      if (0 <? rect_y r) && (rect_y r <? viewHeight view)
         && (1 <? wrap_int (rect_width r * rect_height r))
      then Some pAsset else None
    else None
  else None.

(** CThumbnailsInternalView::TouchVisibleAssetsBatched(int firstBatchRow).
    [int] arithmetic is reduced with [wrap_int]. *)
Definition TouchVisibleAssetsBatched (view : CThumbnailsInternalView) (firstBatchRow : Z) : Batch :=
  if negb (hasModel view) || (rowCount view =? 0) then
    {| batch_first := firstBatchRow; examined := []; touched := []; scheduled := None |}
  else
    let lastRow := wrap_int (rowCount view - 1) in
    let lastBatchRow := Z.min lastRow (wrap_int (firstBatchRow + batchSize)) in
    let rows := rows_downto lastBatchRow firstBatchRow in
    {| batch_first := firstBatchRow;
       examined := rows;
       touched := omap (touch_row view) rows;
       scheduled := if lastBatchRow <? lastRow then Some (wrap_int (lastBatchRow + 1)) else None |}.

(** The event loop delivering the zero-delay timers one after the other, for
    a view that stays alive and whose model keeps its rows: the batches run
    so far and whether the last one left no timer behind.  [fuel] bounds the
    number of timer callbacks delivered. *)
Fixpoint deliverTimers (view : CThumbnailsInternalView) (fuel : nat) (firstBatchRow : Z) : list Batch * bool :=
  match fuel with
  | O => ([], false)
  | S fuel' =>
      let batch := TouchVisibleAssetsBatched view firstBatchRow in
      match scheduled batch with
      | None => ([batch], true)
      | Some next =>
          let '(batches, finished) := deliverTimers view fuel' next in
          (batch :: batches, finished)
      end
  end.

(** A chain of batches: the first starts at [start], each schedules the start
    of the next, and the last schedules nothing. *)
Fixpoint chained (start : Z) (batches : list Batch) : Prop :=
  match batches with
  | [] => False
  | batch :: rest =>
      batch_first batch = start ∧
      match rest with
      | [] => scheduled batch = None
      | _ => ∃ next, scheduled batch = Some next ∧ chained next rest
      end
  end.

(** CThumbnailsInternalView::TouchVisibleAssets and the chain it starts. *)
Definition TouchVisibleAssets (view : CThumbnailsInternalView) (fuel : nat) : list Batch * bool :=
  deliverTimers view fuel 0.

End Private_AssetBrowser_Thumbnails.

(** ** CAssetBrowser: actions that only talk to collaborators *)

Module CAssetBrowser_Actions.

(** stl::binary_insert_unique on a sorted vector of strings. *)
Fixpoint binary_insert_unique (exts : list string) (ext : string) : list string :=
  match exts with
  | [] => [ext]
  | e :: rest =>
      if String.ltb e ext then e :: binary_insert_unique rest ext
      else if String.eqb e ext then exts
      else ext :: exts
  end.

Definition join (sep : string) (l : list string) : string :=
  match l with
  | [] => ""
  | x :: rest => foldl (fun acc y => acc +:+ sep +:+ y) x rest
  end.

(** Private_AssetBrowser::GetExtensionFilter *)
Definition GetExtensionFilter (importers : list (list string)) (shorten : string -> string) : list CExtensionFilter :=
  let exts := foldl (fun exts importer => foldl binary_insert_unique exts importer) [] importers in
  let perExt := (fun ext => {| filter_description := "." +:+ ext +:+ " files"; filter_extensions := [ext] |}) <$> exts in
  let allExts := exts in
  let allExtsShort := shorten (join ", " allExts) in
  {| filter_description := "All importable files (" +:+ allExtsShort +:+ ")"; filter_extensions := allExts |}
    :: perExt ++ [ {| filter_description := "All Files (*.*)"; filter_extensions := ["*"] |} ].

Definition szRecentImportPathProperty : string := "RecentImportPath".

(** The parameters OnImport runs the file dialog with. *)
Definition import_runParams (w : World) : RunParams :=
  let recentImportPath := GetProjectProperty w szRecentImportPathProperty in
  {| extensionFilters := GetExtensionFilter (GetAssetImporters w) (ShortenStringWithEllipsis w);
     initialDir := if String.eqb recentImportPath "" then None else Some recentImportPath |}.

(** CAssetBrowser::OnImport *)
Definition OnImport : M unit :=
  importers ← ask GetAssetImporters;
  if (Z.of_nat (length importers) =? 0) then
    let what :=
      "No importers available. This might be because you are missing editor plugins. " +:+
      "If you build Sandbox locally, check if all plugins have been built successfully. " +:+
      "If not, make sure that all required dependencies and SDKs are available." in
    call_ (CQuestionDialog_SWarning "No importers registered" what)
  else
    runParams ← ask import_runParams;
    filePaths ← call (CSystemFileDialog_RunImportMultipleFiles runParams)
                     (fun w => RunImportMultipleFiles_result w runParams);
    match filePaths with
    | [] => mret tt
    | front :: _ =>
        directory ← ask (fun w => PathUtil_GetPathWithoutFilename w front);
        call_ (SetProjectProperty szRecentImportPathProperty directory);;
        canImportAny ← ask (fun w => CanImportAny w filePaths);
        if canImportAny : bool then
          folderSelection ← ask GetSelectedFolders;
          let importParams :=
            {| outputDirectory := match folderSelection with [folder] => folder | _ => "" end |} in
          call_ (ThreadingUtils_AsyncFinalize (Task_Import filePaths importParams) Finalize_MergeAssets)
        else if (1 <? Z.of_nat (length filePaths)) then
          call_ (CryWarning "Cannot import files.")
        else
          call_ (CryWarning ("Cannot import file '" +:+ front +:+ "'."))
    end.

(** The first lambda given to AsyncFinalize in OnImport, when it runs. *)
Definition run_task (task : BackgroundTask) : M (list Z) :=
  match task with
  | Task_Import filePaths importParams =>
      call (CAssetDropHandler_Import filePaths importParams)
           (fun w => Import_result w filePaths importParams)
  end.

(** The second lambda given to AsyncFinalize in OnImport, when it runs. *)
Definition run_finalizer (finalize : Finalizer) (assets : list Z) : M unit :=
  match finalize with
  | Finalize_MergeAssets => call_ (CAssetManager_MergeAssets assets)
  end.

(** CAssetBrowser::OnDelete(const std::vector<CAsset*>& assets).  The
    CRY_ASSERT on null entries is a debug-only check and leaves no trace. *)
Definition OnDelete (assets : list Z) : M unit :=
  let assetsToDelete := assets in
  let question :=
    "There is a possibility of undetected dependencies which can be violated after performing the operation." +:+
    nl +:+ nl +:+ "Do you really want to delete " +:+ pretty (length assets) +:+ " asset(s)?" in
  hasDependencies ← ask (fun w => HasAnyReverseDependencies w assetsToDelete);
  confirmed ←
    (if hasDependencies : bool then
       call (CAssetReverseDependenciesDialog_Execute assets
               "Assets to be deleted" "Dependent Assets"
               "The following assets depend on the asset(s) to be deleted. Therefore they probably will not behave correctly after performing the delete operation."
               question "Delete Assets")
            (fun w => ReverseDependenciesDialog_result w assets)
     else
       button ← call (CQuestionDialog_SQuestion "Delete Assets" question)
                     (fun w => SQuestion_result w "Delete Assets" question);
       mret (bool_decide (button = Yes)));
  if confirmed : bool then
    call_ (CAssetManager_DeleteAssetsWithFiles assetsToDelete)
  else
    mret tt.

(** CAssetBrowser::OnDelete(), on the current selection. *)
Definition OnDelete_selection (selectedAssets : list Z) : M bool :=
  match selectedAssets with
  | [] => mret true
  | _ => OnDelete selectedAssets;; mret true
  end.

End CAssetBrowser_Actions.

(** ** CAssetBrowser: the panel's own state *)

Module CAssetBrowser.

(** CAssetBrowser::ViewMode is declared in AssetBrowser.h; the numeric values
    of its enumerators stay abstract. *)
Class ViewMode := {
  Details : Z;
  Thumbnails : Z;
  HSplit : Z;
  VSplit : Z;
  Max : Z
}.

Inductive Orientation := Horizontal | Vertical.

Record QSplitter := {
  saveState : QByteArray;
  orientation : Orientation
}.

(** CAssetFolderFilterModel is outside this file; the browser only sets three
    of its properties and reads one of them back. *)
Record CAssetFolderFilterModel := {
  IsRecursive : bool;
  showFolders : bool;
  acceptedFolders : QStringList
}.

Record QFilteringPanel := {
  (** GetSearchBox()->IsEmpty() *)
  searchBox_IsEmpty : bool;
  HasActiveFilters : bool;
  (** GetState() *)
  filters_state : QVariantMap
}.

(** The requests OnNavBack and OnNavForward send to the folders view. *)
Inductive FoldersViewRequest :=
| ClearSelection
| SelectFolders (folders : QStringList).

Record CAssetFoldersView := {
  folders_visible : bool;
  (** GetState() *)
  folders_state : QVariantMap;
  (** the selection requests received so far, oldest first *)
  folders_requests : list FoldersViewRequest
}.

(** The details view and the thumbnail view, as the browser drives them.
    [view_root] is the root folder of CDraggingIntoRootOf; [None] is the null
    string. *)
Record AssetsView := {
  view_visible : bool;
  view_state : QVariantMap;
  view_root : option QString
}.

Record CBreadcrumbsBar := {
  breadcrumbs_visible : bool;
  (** text and data of each breadcrumb *)
  breadcrumbs : list (QString * QString)
}.

(** Widget routines whose bodies are outside this file. *)
Class Widgets := {
  CDockableEditor_SetLayout : QVariantMap -> QVariantMap -> QVariantMap;
  QSplitter_restoreState : QByteArray -> QSplitter -> QSplitter;
  QFilteringPanel_SetState : QVariantMap -> QFilteringPanel -> QFilteringPanel;
  QAdvancedTreeView_SetState : QVariantMap -> QVariantMap -> QVariantMap;
  QThumbnailsView_SetState : QVariantMap -> QVariantMap -> QVariantMap;
  CAssetFoldersView_SetState : QVariantMap -> QVariantMap -> QVariantMap;
  CAssetFoldersModel_GetPrettyPath : QString -> QString
}.

Record CAssetBrowser := mkCAssetBrowser {
  (** what CDockableEditor::GetLayout returns for the base class *)
  base_layout : QVariantMap;
  m_mainViewSplitter : QSplitter;
  m_foldersSplitter : QSplitter;
  m_viewMode : Z;
  m_recursiveView : bool;
  m_recursiveSearch : bool;
  m_navigationHistory : list QStringList;
  m_navigationIndex : Z;
  m_dontPushNavHistory : bool;
  (** isEnabled() of the two navigation buttons *)
  m_backButton : bool;
  m_forwardButton : bool;
  m_pFolderFilterModel : CAssetFolderFilterModel;
  m_filterPanel : QFilteringPanel;
  m_foldersView : CAssetFoldersView;
  m_detailsView : AssetsView;
  m_thumbnailView : AssetsView;
  m_breadcrumbs : CBreadcrumbsBar;
  (** visibility of the label shown for a multiple selection *)
  m_multipleFoldersLabel : bool;
  (** the view-mode buttons in the order they were added: id and isChecked() *)
  m_viewModeButtons : list (Z * bool);
  (** whether a CRY_ASSERT has failed so far *)
  assertion_failed : bool
}.

(** Field updates. *)
Definition set_base_layout (v : QVariantMap) (b : CAssetBrowser) : CAssetBrowser :=
  mkCAssetBrowser v (m_mainViewSplitter b) (m_foldersSplitter b) (m_viewMode b)
    (m_recursiveView b) (m_recursiveSearch b) (m_navigationHistory b) (m_navigationIndex b)
    (m_dontPushNavHistory b) (m_backButton b) (m_forwardButton b) (m_pFolderFilterModel b)
    (m_filterPanel b) (m_foldersView b) (m_detailsView b) (m_thumbnailView b) (m_breadcrumbs b)
    (m_multipleFoldersLabel b) (m_viewModeButtons b) (assertion_failed b).
Definition set_mainViewSplitter (v : QSplitter) (b : CAssetBrowser) : CAssetBrowser :=
  mkCAssetBrowser (base_layout b) v (m_foldersSplitter b) (m_viewMode b) (m_recursiveView b)
    (m_recursiveSearch b) (m_navigationHistory b) (m_navigationIndex b) (m_dontPushNavHistory b)
    (m_backButton b) (m_forwardButton b) (m_pFolderFilterModel b) (m_filterPanel b)
    (m_foldersView b) (m_detailsView b) (m_thumbnailView b) (m_breadcrumbs b)
    (m_multipleFoldersLabel b) (m_viewModeButtons b) (assertion_failed b).
Definition set_foldersSplitter (v : QSplitter) (b : CAssetBrowser) : CAssetBrowser :=
  mkCAssetBrowser (base_layout b) (m_mainViewSplitter b) v (m_viewMode b) (m_recursiveView b)
    (m_recursiveSearch b) (m_navigationHistory b) (m_navigationIndex b) (m_dontPushNavHistory b)
    (m_backButton b) (m_forwardButton b) (m_pFolderFilterModel b) (m_filterPanel b)
    (m_foldersView b) (m_detailsView b) (m_thumbnailView b) (m_breadcrumbs b)
    (m_multipleFoldersLabel b) (m_viewModeButtons b) (assertion_failed b).
Definition set_viewMode (v : Z) (b : CAssetBrowser) : CAssetBrowser :=
  mkCAssetBrowser (base_layout b) (m_mainViewSplitter b) (m_foldersSplitter b) v
    (m_recursiveView b) (m_recursiveSearch b) (m_navigationHistory b) (m_navigationIndex b)
    (m_dontPushNavHistory b) (m_backButton b) (m_forwardButton b) (m_pFolderFilterModel b)
    (m_filterPanel b) (m_foldersView b) (m_detailsView b) (m_thumbnailView b) (m_breadcrumbs b)
    (m_multipleFoldersLabel b) (m_viewModeButtons b) (assertion_failed b).
Definition set_recursiveView (v : bool) (b : CAssetBrowser) : CAssetBrowser :=
  mkCAssetBrowser (base_layout b) (m_mainViewSplitter b) (m_foldersSplitter b) (m_viewMode b) v
    (m_recursiveSearch b) (m_navigationHistory b) (m_navigationIndex b) (m_dontPushNavHistory b)
    (m_backButton b) (m_forwardButton b) (m_pFolderFilterModel b) (m_filterPanel b)
    (m_foldersView b) (m_detailsView b) (m_thumbnailView b) (m_breadcrumbs b)
    (m_multipleFoldersLabel b) (m_viewModeButtons b) (assertion_failed b).
Definition set_recursiveSearch (v : bool) (b : CAssetBrowser) : CAssetBrowser :=
  mkCAssetBrowser (base_layout b) (m_mainViewSplitter b) (m_foldersSplitter b) (m_viewMode b)
    (m_recursiveView b) v (m_navigationHistory b) (m_navigationIndex b) (m_dontPushNavHistory b)
    (m_backButton b) (m_forwardButton b) (m_pFolderFilterModel b) (m_filterPanel b)
    (m_foldersView b) (m_detailsView b) (m_thumbnailView b) (m_breadcrumbs b)
    (m_multipleFoldersLabel b) (m_viewModeButtons b) (assertion_failed b).
Definition set_navigationHistory (v : list QStringList) (b : CAssetBrowser) : CAssetBrowser :=
  mkCAssetBrowser (base_layout b) (m_mainViewSplitter b) (m_foldersSplitter b) (m_viewMode b)
    (m_recursiveView b) (m_recursiveSearch b) v (m_navigationIndex b) (m_dontPushNavHistory b)
    (m_backButton b) (m_forwardButton b) (m_pFolderFilterModel b) (m_filterPanel b)
    (m_foldersView b) (m_detailsView b) (m_thumbnailView b) (m_breadcrumbs b)
    (m_multipleFoldersLabel b) (m_viewModeButtons b) (assertion_failed b).
Definition set_navigationIndex (v : Z) (b : CAssetBrowser) : CAssetBrowser :=
  mkCAssetBrowser (base_layout b) (m_mainViewSplitter b) (m_foldersSplitter b) (m_viewMode b)
    (m_recursiveView b) (m_recursiveSearch b) (m_navigationHistory b) v (m_dontPushNavHistory b)
    (m_backButton b) (m_forwardButton b) (m_pFolderFilterModel b) (m_filterPanel b)
    (m_foldersView b) (m_detailsView b) (m_thumbnailView b) (m_breadcrumbs b)
    (m_multipleFoldersLabel b) (m_viewModeButtons b) (assertion_failed b).
Definition set_dontPushNavHistory (v : bool) (b : CAssetBrowser) : CAssetBrowser :=
  mkCAssetBrowser (base_layout b) (m_mainViewSplitter b) (m_foldersSplitter b) (m_viewMode b)
    (m_recursiveView b) (m_recursiveSearch b) (m_navigationHistory b) (m_navigationIndex b) v
    (m_backButton b) (m_forwardButton b) (m_pFolderFilterModel b) (m_filterPanel b)
    (m_foldersView b) (m_detailsView b) (m_thumbnailView b) (m_breadcrumbs b)
    (m_multipleFoldersLabel b) (m_viewModeButtons b) (assertion_failed b).
Definition set_backButton (v : bool) (b : CAssetBrowser) : CAssetBrowser :=
  mkCAssetBrowser (base_layout b) (m_mainViewSplitter b) (m_foldersSplitter b) (m_viewMode b)
    (m_recursiveView b) (m_recursiveSearch b) (m_navigationHistory b) (m_navigationIndex b)
    (m_dontPushNavHistory b) v (m_forwardButton b) (m_pFolderFilterModel b) (m_filterPanel b)
    (m_foldersView b) (m_detailsView b) (m_thumbnailView b) (m_breadcrumbs b)
    (m_multipleFoldersLabel b) (m_viewModeButtons b) (assertion_failed b).
Definition set_forwardButton (v : bool) (b : CAssetBrowser) : CAssetBrowser :=
  mkCAssetBrowser (base_layout b) (m_mainViewSplitter b) (m_foldersSplitter b) (m_viewMode b)
    (m_recursiveView b) (m_recursiveSearch b) (m_navigationHistory b) (m_navigationIndex b)
    (m_dontPushNavHistory b) (m_backButton b) v (m_pFolderFilterModel b) (m_filterPanel b)
    (m_foldersView b) (m_detailsView b) (m_thumbnailView b) (m_breadcrumbs b)
    (m_multipleFoldersLabel b) (m_viewModeButtons b) (assertion_failed b).
Definition set_folderFilterModel (v : CAssetFolderFilterModel) (b : CAssetBrowser) : CAssetBrowser :=
  mkCAssetBrowser (base_layout b) (m_mainViewSplitter b) (m_foldersSplitter b) (m_viewMode b)
    (m_recursiveView b) (m_recursiveSearch b) (m_navigationHistory b) (m_navigationIndex b)
    (m_dontPushNavHistory b) (m_backButton b) (m_forwardButton b) v (m_filterPanel b)
    (m_foldersView b) (m_detailsView b) (m_thumbnailView b) (m_breadcrumbs b)
    (m_multipleFoldersLabel b) (m_viewModeButtons b) (assertion_failed b).
Definition set_filterPanel (v : QFilteringPanel) (b : CAssetBrowser) : CAssetBrowser :=
  mkCAssetBrowser (base_layout b) (m_mainViewSplitter b) (m_foldersSplitter b) (m_viewMode b)
    (m_recursiveView b) (m_recursiveSearch b) (m_navigationHistory b) (m_navigationIndex b)
    (m_dontPushNavHistory b) (m_backButton b) (m_forwardButton b) (m_pFolderFilterModel b) v
    (m_foldersView b) (m_detailsView b) (m_thumbnailView b) (m_breadcrumbs b)
    (m_multipleFoldersLabel b) (m_viewModeButtons b) (assertion_failed b).
Definition set_foldersView (v : CAssetFoldersView) (b : CAssetBrowser) : CAssetBrowser :=
  mkCAssetBrowser (base_layout b) (m_mainViewSplitter b) (m_foldersSplitter b) (m_viewMode b)
    (m_recursiveView b) (m_recursiveSearch b) (m_navigationHistory b) (m_navigationIndex b)
    (m_dontPushNavHistory b) (m_backButton b) (m_forwardButton b) (m_pFolderFilterModel b)
    (m_filterPanel b) v (m_detailsView b) (m_thumbnailView b) (m_breadcrumbs b)
    (m_multipleFoldersLabel b) (m_viewModeButtons b) (assertion_failed b).
Definition set_detailsView (v : AssetsView) (b : CAssetBrowser) : CAssetBrowser :=
  mkCAssetBrowser (base_layout b) (m_mainViewSplitter b) (m_foldersSplitter b) (m_viewMode b)
    (m_recursiveView b) (m_recursiveSearch b) (m_navigationHistory b) (m_navigationIndex b)
    (m_dontPushNavHistory b) (m_backButton b) (m_forwardButton b) (m_pFolderFilterModel b)
    (m_filterPanel b) (m_foldersView b) v (m_thumbnailView b) (m_breadcrumbs b)
    (m_multipleFoldersLabel b) (m_viewModeButtons b) (assertion_failed b).
Definition set_thumbnailView (v : AssetsView) (b : CAssetBrowser) : CAssetBrowser :=
  mkCAssetBrowser (base_layout b) (m_mainViewSplitter b) (m_foldersSplitter b) (m_viewMode b)
    (m_recursiveView b) (m_recursiveSearch b) (m_navigationHistory b) (m_navigationIndex b)
    (m_dontPushNavHistory b) (m_backButton b) (m_forwardButton b) (m_pFolderFilterModel b)
    (m_filterPanel b) (m_foldersView b) (m_detailsView b) v (m_breadcrumbs b)
    (m_multipleFoldersLabel b) (m_viewModeButtons b) (assertion_failed b).
Definition set_breadcrumbs (v : CBreadcrumbsBar) (b : CAssetBrowser) : CAssetBrowser :=
  mkCAssetBrowser (base_layout b) (m_mainViewSplitter b) (m_foldersSplitter b) (m_viewMode b)
    (m_recursiveView b) (m_recursiveSearch b) (m_navigationHistory b) (m_navigationIndex b)
    (m_dontPushNavHistory b) (m_backButton b) (m_forwardButton b) (m_pFolderFilterModel b)
    (m_filterPanel b) (m_foldersView b) (m_detailsView b) (m_thumbnailView b) v
    (m_multipleFoldersLabel b) (m_viewModeButtons b) (assertion_failed b).
Definition set_multipleFoldersLabel (v : bool) (b : CAssetBrowser) : CAssetBrowser :=
  mkCAssetBrowser (base_layout b) (m_mainViewSplitter b) (m_foldersSplitter b) (m_viewMode b)
    (m_recursiveView b) (m_recursiveSearch b) (m_navigationHistory b) (m_navigationIndex b)
    (m_dontPushNavHistory b) (m_backButton b) (m_forwardButton b) (m_pFolderFilterModel b)
    (m_filterPanel b) (m_foldersView b) (m_detailsView b) (m_thumbnailView b) (m_breadcrumbs b)
    v (m_viewModeButtons b) (assertion_failed b).
Definition set_viewModeButtons (v : list (Z * bool)) (b : CAssetBrowser) : CAssetBrowser :=
  mkCAssetBrowser (base_layout b) (m_mainViewSplitter b) (m_foldersSplitter b) (m_viewMode b)
    (m_recursiveView b) (m_recursiveSearch b) (m_navigationHistory b) (m_navigationIndex b)
    (m_dontPushNavHistory b) (m_backButton b) (m_forwardButton b) (m_pFolderFilterModel b)
    (m_filterPanel b) (m_foldersView b) (m_detailsView b) (m_thumbnailView b) (m_breadcrumbs b)
    (m_multipleFoldersLabel b) v (assertion_failed b).
Definition set_assertion_failed (v : bool) (b : CAssetBrowser) : CAssetBrowser :=
  mkCAssetBrowser (base_layout b) (m_mainViewSplitter b) (m_foldersSplitter b) (m_viewMode b)
    (m_recursiveView b) (m_recursiveSearch b) (m_navigationHistory b) (m_navigationIndex b)
    (m_dontPushNavHistory b) (m_backButton b) (m_forwardButton b) (m_pFolderFilterModel b)
    (m_filterPanel b) (m_foldersView b) (m_detailsView b) (m_thumbnailView b) (m_breadcrumbs b)
    (m_multipleFoldersLabel b) (m_viewModeButtons b) v.

Definition setVisible (v : bool) (view : AssetsView) : AssetsView :=
  {| view_visible := v; view_state := view_state view; view_root := view_root view |}.

Definition SetRootFolder (folder : option QString) (view : AssetsView) : AssetsView :=
  {| view_visible := view_visible view; view_state := view_state view; view_root := folder |}.

Definition SetState (state : QVariantMap) (view : AssetsView) : AssetsView :=
  {| view_visible := view_visible view; view_state := state; view_root := view_root view |}.

Definition setOrientation (o : Orientation) (s : QSplitter) : QSplitter :=
  {| saveState := saveState s; orientation := o |}.

(** CRY_ASSERT(condition): execution continues either way. *)
Definition CRY_ASSERT (condition : bool) (b : CAssetBrowser) : CAssetBrowser :=
  if condition then b else set_assertion_failed true b.

(** Element accesses the toolkit leaves undefined. *)
Inductive Fault :=
| QList_first_on_empty
| QVector_index_out_of_range (i size : Z)
| QVector_resize_negative (size : Z).

Abbreviation Outcome := (sum Fault).

#[global] Instance Outcome_ret : MRet Outcome := fun A x => inr x.
#[global] Instance Outcome_bind : MBind Outcome := fun A B f m =>
  match m with
  | inl e => inl e
  | inr x => f x
  end.

(** QList::first() *)
Definition QList_first (l : QStringList) : Outcome QString :=
  match l with
  | [] => inl QList_first_on_empty
  | x :: _ => inr x
  end.

(** QVector::operator[](int) *)
Definition QVector_at {A} (v : list A) (i : Z) : Outcome A :=
  if (0 <=? i) && (i <? Z.of_nat (length v)) then
    match v !! Z.to_nat i with
    | Some x => inr x
    | None => inl (QVector_index_out_of_range i (Z.of_nat (length v)))
    end
  else inl (QVector_index_out_of_range i (Z.of_nat (length v))).

(** QVector::resize(int), used here only to shrink. *)
Definition QVector_resize {A} (size : Z) (v : list A) : Outcome (list A) :=
  if size <? 0 then inl (QVector_resize_negative size)
  else inr (take (Z.to_nat size) v).

(** QVector::count() *)
Definition count {A} (v : list A) : Z := Z.of_nat (length v).

(** The breadcrumbs of [path]: one per '/'-separated component, each with the
    part of the path in front of the slash that ends it (the whole path for
    the last one).  [before] and [crumb] accumulate the characters read. *)
Fixpoint crumbs_of (path before crumb rest : string) : list (QString * QString) :=
  match rest with
  | EmptyString => [(crumb, path)]
  | String c rest' =>
      if Ascii.eqb c "/"%char then
        (crumb, before) :: crumbs_of path (before +:+ "/") "" rest'
      else
        crumbs_of path (before +:+ String c "") (crumb +:+ String c "") rest'
  end.

(** The view-mode buttons sit in a QButtonGroup, which is exclusive unless
    told otherwise: the group holds the button that is checked, if any, and at
    most one button is. *)

(** QAbstractButton::isChecked of the button with this id. *)
Definition isChecked (id : Z) (buttons : list (Z * bool)) : bool :=
  existsb (fun '(i, c) => (i =? id) && c) buttons.

(** QButtonGroup::checkedButton: the id of the checked button. *)
Definition checkedButton (buttons : list (Z * bool)) : option Z :=
  fst <$> head (filter (fun button => button.2 = true) buttons).

(** QButtonGroup::button(id)->setChecked(checked) in the exclusive group.
    Nothing happens when the button already is in that state, and the button
    the group holds as checked cannot be unchecked; checking a button makes
    the group hold it and unchecks the one held before.  For an id without a
    button, button(id) is null; the call on it is left out and the buttons
    stay as they are. *)
Definition setChecked (id : Z) (checked : bool) (buttons : list (Z * bool)) : list (Z * bool) :=
  if negb (bool_decide (id ∈ buttons.*1)) then buttons
  else if eqb (isChecked id buttons) checked then buttons
  else if negb checked && bool_decide (checkedButton buttons = Some id) then buttons
  else
    let previous := checkedButton buttons in
    (fun '(i, c) =>
       if i =? id then (i, checked)
       else if checked && bool_decide (previous = Some i) then (i, false)
       else (i, c)) <$> buttons.


Section Operations.
Context `{Conversions} `{ViewMode} `{Widgets}.

(** CAssetBrowser::UpdateBreadcrumbsBar *)
Definition UpdateBreadcrumbsBar (path : QString) (b : CAssetBrowser) : CAssetBrowser :=
  set_breadcrumbs
    {| breadcrumbs_visible := breadcrumbs_visible (m_breadcrumbs b);
       breadcrumbs := crumbs_of path "" "" path |} b.

(** CAssetBrowser::UpdateNavigation *)
Definition UpdateNavigation (clearHistory : bool) (b : CAssetBrowser) : CAssetBrowser :=
  let b :=
    if clearHistory then set_navigationIndex (-1) (set_navigationHistory [] b) else b in
  let b :=
    set_backButton ((0 <? count (m_navigationHistory b)) && (-1 <? m_navigationIndex b)) b in
  set_forwardButton
    (negb (count (m_navigationHistory b) =? 0)
     && (m_navigationIndex b <? count (m_navigationHistory b) - 1)) b.

(** CAssetBrowser::SetViewMode *)
Definition SetViewMode (viewMode : Z) (b : CAssetBrowser) : CAssetBrowser :=
  if negb (m_viewMode b =? viewMode) then
    let b :=
      if viewMode =? Details then
        set_detailsView (setVisible true (m_detailsView b))
          (set_thumbnailView (setVisible false (m_thumbnailView b)) b)
      else if viewMode =? Thumbnails then
        set_detailsView (setVisible false (m_detailsView b))
          (set_thumbnailView (setVisible true (m_thumbnailView b)) b)
      else if (viewMode =? HSplit) || (viewMode =? VSplit) then
        set_mainViewSplitter
          (setOrientation (if viewMode =? VSplit then Vertical else Horizontal) (m_mainViewSplitter b))
          (set_detailsView (setVisible true (m_detailsView b))
             (set_thumbnailView (setVisible true (m_thumbnailView b)) b))
      else CRY_ASSERT false b in
    let b := set_viewMode viewMode b in
    let b := CRY_ASSERT (Z.of_nat (length (m_viewModeButtons b)) =? Max) b in
    set_viewModeButtons
      (foldl (fun buttons i => setChecked i (i =? m_viewMode b) buttons)
             (m_viewModeButtons b) (seqZ 0 Max)) b
  else b.

(** CAssetBrowser::UpdateModels *)
Definition UpdateModels (b : CAssetBrowser) : CAssetBrowser :=
  let searching :=
    negb (searchBox_IsEmpty (m_filterPanel b)) || HasActiveFilters (m_filterPanel b) in
  let model := m_pFolderFilterModel b in
  if searching && m_recursiveSearch b && negb (IsRecursive model) then
    set_folderFilterModel
      {| IsRecursive := true; showFolders := false; acceptedFolders := acceptedFolders model |} b
  else if negb searching && negb (eqb (m_recursiveView b) (IsRecursive model)) then
    set_folderFilterModel
      {| IsRecursive := m_recursiveView b;
         showFolders := negb (m_recursiveView b);
         acceptedFolders := acceptedFolders model |} b
  else b.

(** CAssetBrowser::SetRecursiveView *)
Definition SetRecursiveView (recursiveView : bool) (b : CAssetBrowser) : CAssetBrowser :=
  if negb (eqb (m_recursiveView b) recursiveView) then
    UpdateModels (set_recursiveView recursiveView b)
  else b.

(** CAssetBrowser::SetRecursiveSearch *)
Definition SetRecursiveSearch (recursiveSearch : bool) (b : CAssetBrowser) : CAssetBrowser :=
  if negb (eqb (m_recursiveSearch b) recursiveSearch) then
    UpdateModels (set_recursiveSearch recursiveSearch b)
  else b.

(** CAssetBrowser::GetLayout *)
Definition GetLayout (b : CAssetBrowser) : QVariantMap :=
  let state := base_layout b in
  let state := <["mainViewSplitter" := QVByteArray (toBase64 (saveState (m_mainViewSplitter b)))]> state in
  let state := <["foldersSplitter" := QVByteArray (toBase64 (saveState (m_foldersSplitter b)))]> state in
  let state := <["viewMode" := QVInt (m_viewMode b)]> state in
  let state := <["recursiveView" := QVBool (m_recursiveView b)]> state in
  let state := <["recursiveSearch" := QVBool (m_recursiveSearch b)]> state in
  let state := <["showFolders" := QVBool (folders_visible (m_foldersView b))]> state in
  let state := <["filters" := QVMap (filters_state (m_filterPanel b))]> state in
  let state := <["detailsView" := QVMap (view_state (m_detailsView b))]> state in
  let state := <["thumbnailView" := QVMap (view_state (m_thumbnailView b))]> state in
  let state := <["foldersView" := QVMap (folders_state (m_foldersView b))]> state in
  state.

(** CAssetBrowser::SetLayout *)
Definition SetLayout (state : QVariantMap) (b : CAssetBrowser) : CAssetBrowser :=
  let b := set_base_layout (CDockableEditor_SetLayout state (base_layout b)) b in
  let mainViewSplitter := value state "mainViewSplitter" in
  let b :=
    if isValid mainViewSplitter then
      set_mainViewSplitter
        (QSplitter_restoreState (fromBase64 (toByteArray mainViewSplitter)) (m_mainViewSplitter b)) b
    else b in
  let foldersSplitter := value state "foldersSplitter" in
  let b :=
    if isValid foldersSplitter then
      set_foldersSplitter
        (QSplitter_restoreState (fromBase64 (toByteArray foldersSplitter)) (m_foldersSplitter b)) b
    else b in
  let viewModeVar := value state "viewMode" in
  let b := if isValid viewModeVar then SetViewMode (toInt viewModeVar) b else b in
  let recursiveViewVar := value state "recursiveView" in
  let b := if isValid recursiveViewVar then SetRecursiveView (toBool recursiveViewVar) b else b in
  let recursiveSearchVar := value state "recursiveSearch" in
  let b := if isValid recursiveSearchVar then SetRecursiveSearch (toBool recursiveSearchVar) b else b in
  let showFoldersVar := value state "showFolders" in
  let b :=
    if isValid showFoldersVar then
      set_foldersView
        {| folders_visible := toBool showFoldersVar;
           folders_state := folders_state (m_foldersView b);
           folders_requests := folders_requests (m_foldersView b) |} b
    else b in
  let b :=
    match asMap (value state "filters") with
    | Some m => set_filterPanel (QFilteringPanel_SetState m (m_filterPanel b)) b
    | None => b
    end in
  let b :=
    match asMap (value state "detailsView") with
    | Some m =>
        set_detailsView (SetState (QAdvancedTreeView_SetState m (view_state (m_detailsView b))) (m_detailsView b)) b
    | None => b
    end in
  let b :=
    match asMap (value state "thumbnailView") with
    | Some m =>
        set_thumbnailView (SetState (QThumbnailsView_SetState m (view_state (m_thumbnailView b))) (m_thumbnailView b)) b
    | None => b
    end in
  let b :=
    match asMap (value state "foldersView") with
    | Some m =>
        set_foldersView
          {| folders_visible := folders_visible (m_foldersView b);
             folders_state := CAssetFoldersView_SetState m (folders_state (m_foldersView b));
             folders_requests := folders_requests (m_foldersView b) |} b
    | None => b
    end in
  UpdateNavigation true b.

End Operations.

Section Navigation.
Context `{Conversions} `{ViewMode} `{Widgets}.

(** CAssetBrowser::OnFolderSelectionChanged.  The closing SelectionChanged()
    notifies listeners outside this file. *)
Definition OnFolderSelectionChanged (selectedFolders : QStringList) (b : CAssetBrowser) : Outcome CAssetBrowser :=
  let numFolders := Z.of_nat (length selectedFolders) in
  b ← (if 1 <? numFolders then
         let b := set_breadcrumbs
                    {| breadcrumbs_visible := false; breadcrumbs := breadcrumbs (m_breadcrumbs b) |} b in
         let b := set_multipleFoldersLabel true b in
         let b := set_thumbnailView (SetRootFolder None (m_thumbnailView b)) b in
         mret (set_detailsView (SetRootFolder None (m_detailsView b)) b)
       else
         let b := set_breadcrumbs
                    {| breadcrumbs_visible := true; breadcrumbs := breadcrumbs (m_breadcrumbs b) |} b in
         let b := set_multipleFoldersLabel false b in
         first ← QList_first selectedFolders;
         let b := UpdateBreadcrumbsBar (CAssetFoldersModel_GetPrettyPath first) b in
         let b := set_thumbnailView (SetRootFolder (Some first) (m_thumbnailView b)) b in
         mret (set_detailsView (SetRootFolder (Some first) (m_detailsView b)) b));
  let b :=
    set_folderFilterModel
      {| IsRecursive := IsRecursive (m_pFolderFilterModel b);
         showFolders := showFolders (m_pFolderFilterModel b);
         acceptedFolders := selectedFolders |} b in
  b ← (if negb (m_dontPushNavHistory b) then
         history ← (if m_navigationIndex b <? count (m_navigationHistory b) - 1 then
                      QVector_resize (m_navigationIndex b + 1) (m_navigationHistory b)
                    else mret (m_navigationHistory b));
         let b := set_navigationHistory (history ++ [selectedFolders]) b in
         mret (set_navigationIndex (m_navigationIndex b + 1) b)
       else mret b);
  mret (UpdateNavigation false b).

(** The folders view is asked to change its selection.  Its code is outside
    this file; what reaches the browser is the request, recorded in the view,
    and the signalSelectionChanged notifications the view emits before the
    request returns (connected to OnFolderSelectionChanged in InitViews).
    [emitted] lists their payloads, possibly none. *)
Fixpoint deliver (emitted : list QStringList) (b : CAssetBrowser) : Outcome CAssetBrowser :=
  match emitted with
  | [] => mret b
  | selectedFolders :: rest =>
      b ← OnFolderSelectionChanged selectedFolders b;
      deliver rest b
  end.

Definition request (r : FoldersViewRequest) (emitted : list QStringList) (b : CAssetBrowser) : Outcome CAssetBrowser :=
  let view := m_foldersView b in
  deliver emitted
    (set_foldersView
       {| folders_visible := folders_visible view;
          folders_state := folders_state view;
          folders_requests := folders_requests view ++ [r] |} b).

(** CAssetBrowser::OnNavBack *)
Definition OnNavBack (emitted : list QStringList) (b : CAssetBrowser) : Outcome CAssetBrowser :=
  let b := set_dontPushNavHistory true b in
  let b := if 0 <=? m_navigationIndex b then set_navigationIndex (m_navigationIndex b - 1) b else b in
  b ← (if m_navigationIndex b =? -1 then
         request ClearSelection emitted b
       else
         folders ← QVector_at (m_navigationHistory b) (m_navigationIndex b);
         request (SelectFolders folders) emitted b);
  mret (set_dontPushNavHistory false b).

(** CAssetBrowser::OnNavForward *)
Definition OnNavForward (emitted : list QStringList) (b : CAssetBrowser) : Outcome CAssetBrowser :=
  let b := set_dontPushNavHistory true b in
  let b := set_navigationIndex (m_navigationIndex b + 1) b in
  folders ← QVector_at (m_navigationHistory b) (m_navigationIndex b);
  b ← request (SelectFolders folders) emitted b;
  mret (set_dontPushNavHistory false b).

(** What the widgets hold when they have just been created. *)
Record FreshWidgets := {
  fresh_base_layout : QVariantMap;
  fresh_mainViewSplitter : QByteArray;
  fresh_foldersSplitter : QByteArray;
  fresh_filterPanel : QFilteringPanel;
  fresh_foldersView_state : QVariantMap;
  fresh_detailsView_state : QVariantMap;
  fresh_thumbnailView_state : QVariantMap;
  (** CAssetFoldersModel::GetProjectAssetsFolderName *)
  projectAssetsFolderName : QString
}.

(** The browser after the member initialisers of the constructor and the
    creation of the widgets in InitViews, before InitViews refreshes the
    navigation buttons and announces the first folder selection. *)
Definition initialized (fresh : FreshWidgets) : CAssetBrowser :=
  UpdateBreadcrumbsBar (projectAssetsFolderName fresh)
  {| base_layout := fresh_base_layout fresh;
     m_mainViewSplitter := {| saveState := fresh_mainViewSplitter fresh; orientation := Horizontal |};
     m_foldersSplitter := {| saveState := fresh_foldersSplitter fresh; orientation := Horizontal |};
     m_viewMode := Max;
     m_recursiveView := false;
     m_recursiveSearch := true;
     m_navigationHistory := [];
     m_navigationIndex := -1;
     m_dontPushNavHistory := false;
     m_backButton := false;
     m_forwardButton := false;
     m_pFolderFilterModel := {| IsRecursive := false; showFolders := true; acceptedFolders := [] |};
     m_filterPanel := fresh_filterPanel fresh;
     m_foldersView := {| folders_visible := true;
                         folders_state := fresh_foldersView_state fresh;
                         folders_requests := [] |};
     m_detailsView := {| view_visible := true; view_state := fresh_detailsView_state fresh; view_root := None |};
     m_thumbnailView := {| view_visible := true; view_state := fresh_thumbnailView_state fresh; view_root := None |};
     m_breadcrumbs := {| breadcrumbs_visible := true; breadcrumbs := [] |};
     m_multipleFoldersLabel := false;
     m_viewModeButtons := [(VSplit, Max =? VSplit); (HSplit, Max =? HSplit);
                           (Details, Max =? Details); (Thumbnails, Max =? Thumbnails)];
     assertion_failed := false |}.

(** The rest of InitViews: [selectedFolders] is what the folders view reports
    as selected at that point. *)
Definition constructed (fresh : FreshWidgets) (selectedFolders : QStringList) : Outcome CAssetBrowser :=
  OnFolderSelectionChanged selectedFolders
    (SetViewMode Thumbnails (UpdateNavigation false (initialized fresh))).

(** What can happen to the navigation state once the browser exists: the
    folders view announces a selection, or one of the two navigation handlers
    runs; for the handlers, [emitted] is what the folders view announces while
    it serves the request. *)
Inductive NavEvent :=
| FolderSelectionChanged (selectedFolders : QStringList)
| NavBack (emitted : list QStringList)
| NavForward (emitted : list QStringList).

Definition dispatch (ev : NavEvent) (b : CAssetBrowser) : Outcome CAssetBrowser :=
  match ev with
  | FolderSelectionChanged selectedFolders => OnFolderSelectionChanged selectedFolders b
  | NavBack emitted => OnNavBack emitted b
  | NavForward emitted => OnNavForward emitted b
  end.

Fixpoint run_events (evs : list NavEvent) (b : CAssetBrowser) : Outcome CAssetBrowser :=
  match evs with
  | [] => mret b
  | ev :: rest =>
      b ← dispatch ev b;
      run_events rest b
  end.

(** CAssetBrowser::mouseReleaseEvent, for the two navigation buttons of the
    mouse. *)
Inductive MouseButton := BackButton | ForwardButton | OtherButton.

Definition mouseReleaseEvent (button : MouseButton) (emitted : list QStringList) (b : CAssetBrowser) : Outcome CAssetBrowser :=
  match button with
  | BackButton => if m_backButton b then OnNavBack emitted b else mret b
  | ForwardButton => if m_forwardButton b then OnNavForward emitted b else mret b
  | OtherButton => mret b
  end.

(** Well-formed announcements: QList::first() is only defined on a selection
    that names at least one folder. *)
Definition selections_nonempty (ev : NavEvent) : Prop :=
  match ev with
  | FolderSelectionChanged selectedFolders => selectedFolders ≠ []
  | NavBack emitted | NavForward emitted => Forall (fun selectedFolders => selectedFolders ≠ []) emitted
  end.

(** OnNavForward is connected to the forward button's clicked signal and
    called from mouseReleaseEvent under [isEnabled()]: along [evs], started in
    [b], every NavForward finds the forward button enabled. *)
Fixpoint forward_only_while_enabled (evs : list NavEvent) (b : CAssetBrowser) : Prop :=
  match evs with
  | [] => True
  | ev :: rest =>
      match ev with
      | NavForward _ => m_forwardButton b = true
      | _ => True
      end ∧
      match dispatch ev b with
      | inr b' => forward_only_while_enabled rest b'
      | inl _ => True
      end
  end.

(** The folders view answers a forward request with at least one
    announcement. *)
Definition forward_answered (ev : NavEvent) : Prop :=
  match ev with
  | NavForward emitted => emitted ≠ []
  | _ => True
  end.

Definition nav_invariant (b : CAssetBrowser) : Prop :=
  -1 <= m_navigationIndex b <= count (m_navigationHistory b) - 1.

(** The folder filter model shows folders exactly when it is not recursive. *)
Definition folder_model_consistent (b : CAssetBrowser) : Prop :=
  showFolders (m_pFolderFilterModel b) = negb (IsRecursive (m_pFolderFilterModel b)).

(** How the state of an existing browser changes: through the view-mode
    buttons and menu entries, the recursion toggles, edits of the search box
    and filters (followed, possibly later, by signalOnFiltered, which runs
    UpdateModels), the show-folder-tree toggle, a restored layout, and the
    navigation events. *)
Inductive Step : CAssetBrowser -> CAssetBrowser -> Prop :=
| Step_SetViewMode viewMode b : Step b (SetViewMode viewMode b)
| Step_SetRecursiveView recursiveView b : Step b (SetRecursiveView recursiveView b)
| Step_SetRecursiveSearch recursiveSearch b : Step b (SetRecursiveSearch recursiveSearch b)
| Step_filters_edited panel b : Step b (set_filterPanel panel b)
| Step_signalOnFiltered b : Step b (UpdateModels b)
| Step_folders_toggled b :
    Step b (set_foldersView
              {| folders_visible := negb (folders_visible (m_foldersView b));
                 folders_state := folders_state (m_foldersView b);
                 folders_requests := folders_requests (m_foldersView b) |} b)
| Step_SetLayout state b : Step b (SetLayout state b)
| Step_navigation ev b b' : dispatch ev b = inr b' -> Step b b'.

Definition reachable (fresh : FreshWidgets) (b : CAssetBrowser) : Prop :=
  rtc Step (initialized fresh) b.

End Navigation.

End CAssetBrowser.

(** ** Sample collaborators, for concrete runs *)

Module Samples.
Import Private_AssetBrowser CAssetBrowser.

Definition conversions : Conversions := {|
  QByteArray_toLongLong := fun _ => None;
  QByteArray_toBool := fun a => negb (String.eqb a "");
  toBase64 := fun a => a;
  fromBase64 := fun a => a;
  QVariant_equals := fun _ _ => false
|}.

(** Enumerators numbered in declaration order. *)
Definition rowTypes : EAssetModelRowType := {|
  eAssetModelRow_Asset := 0;
  eAssetModelRow_Folder := 1
|}.

Definition proxy : QAttributeFilterProxyModel := {|
  sortRole := DisplayRole;
  QAttributeFilterProxyModel_lessThan := fun _ _ => false
|}.

Definition row (type pointer : Z) : QModelIndex := {|
  index_isValid := true;
  index_row := 0;
  index_column := 0;
  index_data := fun role =>
    match role with
    | TypeCheckRole => QVUInt type
    | InternalPointerRole => QVLongLong pointer
    | _ => QVInvalid
    end
|}.

(** A thumbnail view over twenty rows, all of them visible. *)
Definition thumbnails : Private_AssetBrowser_Thumbnails.CThumbnailsInternalView := {|
  Private_AssetBrowser_Thumbnails.hasModel := true;
  Private_AssetBrowser_Thumbnails.rowCount := 20;
  Private_AssetBrowser_Thumbnails.rowIndexValid := fun _ => true;
  Private_AssetBrowser_Thumbnails.rowAsset := fun i => 4096 + i;
  Private_AssetBrowser_Thumbnails.HasThumbnail := fun _ => true;
  Private_AssetBrowser_Thumbnails.visualRect := fun i =>
    {| Private_AssetBrowser_Thumbnails.rect_y := 1 + i;
       Private_AssetBrowser_Thumbnails.rect_width := 64;
       Private_AssetBrowser_Thumbnails.rect_height := 64 |};
  Private_AssetBrowser_Thumbnails.viewHeight := 600
|}.

(** A thumbnail view over as many rows as an [int] can count. *)
Definition full_thumbnails : Private_AssetBrowser_Thumbnails.CThumbnailsInternalView := {|
  Private_AssetBrowser_Thumbnails.hasModel := true;
  Private_AssetBrowser_Thumbnails.rowCount := INT_MAX;
  Private_AssetBrowser_Thumbnails.rowIndexValid := fun _ => true;
  Private_AssetBrowser_Thumbnails.rowAsset := fun i => 4096 + i;
  Private_AssetBrowser_Thumbnails.HasThumbnail := fun _ => true;
  Private_AssetBrowser_Thumbnails.visualRect := fun i =>
    {| Private_AssetBrowser_Thumbnails.rect_y := 1 + i;
       Private_AssetBrowser_Thumbnails.rect_width := 64;
       Private_AssetBrowser_Thumbnails.rect_height := 64 |};
  Private_AssetBrowser_Thumbnails.viewHeight := 600
|}.

(** Enumerators numbered in the order the view-mode buttons suggest. *)
Definition viewModes : ViewMode := {|
  Details := 0;
  Thumbnails := 1;
  HSplit := 2;
  VSplit := 3;
  Max := 4
|}.

Definition widgets : Widgets := {|
  CDockableEditor_SetLayout := fun state _ => state;
  QSplitter_restoreState := fun bytes splitter =>
    {| saveState := bytes; orientation := orientation splitter |};
  QFilteringPanel_SetState := fun state panel =>
    {| searchBox_IsEmpty := searchBox_IsEmpty panel;
       HasActiveFilters := HasActiveFilters panel;
       filters_state := state |};
  QAdvancedTreeView_SetState := fun state _ => state;
  QThumbnailsView_SetState := fun state _ => state;
  CAssetFoldersView_SetState := fun state _ => state;
  CAssetFoldersModel_GetPrettyPath := fun path => path
|}.

Definition fresh : FreshWidgets := {|
  fresh_base_layout := ∅;
  fresh_mainViewSplitter := "";
  fresh_foldersSplitter := "";
  fresh_filterPanel := {| searchBox_IsEmpty := true; HasActiveFilters := false; filters_state := ∅ |};
  fresh_foldersView_state := ∅;
  fresh_detailsView_state := ∅;
  fresh_thumbnailView_state := ∅;
  projectAssetsFolderName := "Assets"
|}.

(** The browser right after its widgets were created. *)
Definition browser : CAssetBrowser := @initialized viewModes fresh.

(** Two folders are visited, the user goes back, and then forward twice;
    the folders view announces the folder it went back to and stays silent on
    the forward requests. *)
Definition silent_forward : list NavEvent :=
  [FolderSelectionChanged ["Assets/Objects"]; FolderSelectionChanged ["Assets/Textures"];
   NavBack [["Assets/Objects"]]; NavForward []; NavForward []].

(** The same visit with a folders view that announces every selection it
    makes. *)
Definition announced_forward : list NavEvent :=
  [FolderSelectionChanged ["Assets/Objects"]; FolderSelectionChanged ["Assets/Textures"];
   NavBack [["Assets/Objects"]]; NavForward [["Assets/Textures"]]].

(** The browser after two folders were visited. *)
Definition visited : CAssetBrowser :=
  match @run_events widgets
          [FolderSelectionChanged ["Assets/Objects"]; FolderSelectionChanged ["Assets/Textures"]]
          browser with
  | inr b => b
  | inl _ => browser
  end.

Definition folderRow : QModelIndex := row 1 0.
Definition assetRow : QModelIndex := row 0 4096.

(** A world with one importer for ".fbx": whether the assets at hand have
    reverse dependencies, whether the user agrees in dialogs, what is picked in
    the file dialog, whether it can be imported, and the selected folders. *)
Definition world_with (dependencies agrees : bool) (picked : list string) (importable : bool)
    (folders : QStringList) : World := {|
  HasAnyReverseDependencies := fun _ => dependencies;
  ReverseDependenciesDialog_result := fun _ => agrees;
  SQuestion_result := fun _ _ => if agrees then Yes else No;
  GetName := fun _ => "asset";
  GetAssetImporters := [["fbx"]];
  GetProjectProperty := fun _ => "";
  RunImportMultipleFiles_result := fun _ => picked;
  CanImportAny := fun _ => importable;
  Import_result := fun _ _ => [4096];
  GetSelectedFolders := folders;
  editTriggers := fun _ => 2;
  Base_edit_result := fun _ _ _ _ => true;
  PathUtil_GetPathWithoutFilename := fun path => path;
  ShortenStringWithEllipsis := fun text => text
|}.

(** A user who declines every dialog and picks nothing in the file dialog. *)
Definition world : World := world_with false false [] false [].

End Samples.

(** ** Strings: QString and C strings *)

Module Strings.

(** QVariant::toString; its body is outside this file. *)
Class StringConversions := {
  QVariant_toString : QVariant -> QString
}.

Fixpoint string_take (n : nat) (s : string) : string :=
  match n, s with
  | S n', String c s' => String c (string_take n' s')
  | _, _ => ""
  end.

Fixpoint string_drop (n : nat) (s : string) : string :=
  match n, s with
  | S n', String _ s' => string_drop n' s'
  | _, _ => s
  end.

(** The position of the first [c] in [s]. *)
Fixpoint find_char (c : ascii) (s : string) : option nat :=
  match s with
  | EmptyString => None
  | String c' s' => if Ascii.eqb c' c then Some O else S <$> find_char c s'
  end.

(** QString::indexOf(QChar ch, int from): -1 when there is none; a negative
    [from] counts from the end. *)
Definition indexOf (s : QString) (ch : ascii) (from : Z) : Z :=
  let size := Z.of_nat (String.length s) in
  let from := if from <? 0 then Z.max (from + size) 0 else from in
  if from <? size then
    match find_char ch (string_drop (Z.to_nat from) s) with
    | Some k => from + Z.of_nat k
    | None => -1
    end
  else -1.

(** QString::mid(int position, int n): [n] characters from [position]; all
    that is left when [n] is negative or reaches past the end. *)
Definition mid (s : QString) (position n : Z) : QString :=
  let size := Z.of_nat (String.length s) in
  if size <? position then ""
  else if position <? 0 then
    if (n <? 0) || (size <=? n + position) then s
    else if n + position <=? 0 then ""
    else string_take (Z.to_nat (n + position)) s
  else
    let n := if (n <? 0) || (size - position <? n) then size - position else n in
    string_take (Z.to_nat n) (string_drop (Z.to_nat position) s).

(** What a C routine reads of a string: the characters in front of the first
    NUL. *)
Definition c_str (s : string) : string :=
  match find_char "000"%char s with
  | Some k => string_take k s
  | None => s
  end.

(** strcmp(a, b) == 0 *)
Definition strcmp_equal (a b : string) : bool := String.eqb (c_str a) (c_str b).

(** The order of QString::operator<, as a relation. *)
Definition string_lt (a b : string) : Prop := String.ltb a b = true.

End Strings.


(** ** The asset system, as this file reads it *)

Module AssetSystem.

(** Assets, asset types and asset editors are referred to by address, 0 being
    the null pointer.  Their classes, the pak system and the path utilities
    are outside this file. *)
Class Assets := {
  CAsset_GetName : Z -> string;
  CAsset_GetFolder : Z -> string;
  (** CAsset::GetFile(index) *)
  CAsset_GetFile : Z -> Z -> string;
  CAsset_GetType : Z -> Z;
  CAsset_IsReadOnly : Z -> bool;
  CAsset_IsModified : Z -> bool;
  CAsset_HasSourceFile : Z -> bool;
  (** CAsset::IsAssetUsedBy and CAsset::DoesAssetUse: a std::pair<bool, int> *)
  CAsset_IsAssetUsedBy : Z -> string -> bool * Z;
  CAsset_DoesAssetUse : Z -> string -> bool * Z;
  CAssetType_IsImported : Z -> bool;
  CAssetType_CanBeCreated : Z -> bool;
  CAssetType_GetUiTypeName : Z -> string;
  (** ICryPak::IsFileExist(path, eFileLocation_OnDisk) *)
  ICryPak_IsFileExist_OnDisk : string -> bool;
  PathUtil_AddSlash : string -> string
}.

(** CAssetFoldersModel, the singleton behind the folders view. *)
Class CAssetFoldersModel := {
  (** FindIndexForFolder(folder), with the default role *)
  FindIndexForFolder : QString -> QModelIndex;
  (** FindIndexForFolder(folder, Roles::DisplayFolderPathRole) *)
  FindIndexForFolder_DisplayFolderPathRole : QString -> QModelIndex;
  (** QModelIndex::parent *)
  QModelIndex_parent : QModelIndex -> QModelIndex;
  canDropMimeData : Z -> Z -> Z -> Z -> QModelIndex -> bool;
  (** the result of dropMimeData *)
  dropMimeData : Z -> Z -> Z -> Z -> QModelIndex -> bool;
  IsReadOnlyFolder : QString -> bool;
  IsEmptyFolder : QString -> bool
}.

End AssetSystem.

(** ** Private_AssetBrowser: dragging into the root folder of a view *)

Module Private_AssetBrowser_DragDrop.
Import Strings AssetSystem.

(** QDropEvent and the drag events derived from it, as far as the overrides
    read them; the mime data is referred to by address. *)
Record QDropEvent := {
  isAccepted : bool;
  pos : Z * Z;
  mimeData : Z;
  dropAction : Z
}.

Definition accept (pEvent : QDropEvent) : QDropEvent :=
  {| isAccepted := true; pos := pos pEvent; mimeData := mimeData pEvent; dropAction := dropAction pEvent |}.

(** The view class TView a CDraggingIntoRootOf is built on: what its own
    handlers leave in the event, and whether an item lies at a position. *)
Class TView := {
  TView_dragEnterEvent : ViewKind -> QDropEvent -> QDropEvent;
  TView_dragMoveEvent : ViewKind -> QDropEvent -> QDropEvent;
  (** QAdvancedTreeView::dropEvent for the details view,
      QAbstractItemView::dropEvent for the thumbnail view *)
  TView_BaseDropEvent : ViewKind -> QDropEvent -> QDropEvent;
  (** indexAt(pos).isValid() *)
  indexAt_isValid : ViewKind -> Z * Z -> bool
}.

(** The calls the handlers make, in order. *)
Inductive Effect :=
| CDragDropData_ShowDragText (text : string)
| Base_dragEnterEvent (view : ViewKind) (pEvent : QDropEvent)
| Base_dragMoveEvent (view : ViewKind) (pEvent : QDropEvent)
| Base_dropEvent (view : ViewKind) (pEvent : QDropEvent)
| CAssetFoldersModel_canDropMimeData (mime action row column : Z) (parent : QModelIndex)
| CAssetFoldersModel_dropMimeData (mime action row column : Z) (parent : QModelIndex).

Definition is_dropMimeData (e : Effect) : bool :=
  match e with
  | CAssetFoldersModel_dropMimeData _ _ _ _ _ => true
  | _ => false
  end.

Definition is_folders_model_call (e : Effect) : bool :=
  match e with
  | CAssetFoldersModel_canDropMimeData _ _ _ _ _ => true
  | CAssetFoldersModel_dropMimeData _ _ _ _ _ => true
  | _ => false
  end.

Section CDraggingIntoRootOf.
Context `{TView} `{CAssetFoldersModel}.

(** [m_root]: [None] is the null string, "the root folder is not assigned";
    the empty string is the assets root folder. *)
Variable view : ViewKind.
Variable m_root : option QString.

(** CDraggingIntoRootOf::Processed *)
Definition Processed (pEvent : QDropEvent) : bool :=
  isAccepted pEvent || bool_decide (m_root = None) || indexAt_isValid view (pos pEvent).

(** CDraggingIntoRootOf::dragEnterMoveRoot; a null root reads as the empty
    string. *)
Definition dragEnterMoveRoot (pEvent : QDropEvent) : QDropEvent * list Effect :=
  let root := FindIndexForFolder (default "" m_root) in
  let row := index_row root in
  let column := index_column root in
  let parent := QModelIndex_parent root in
  (if canDropMimeData (mimeData pEvent) (dropAction pEvent) row column parent
   then accept pEvent else pEvent,
   [CAssetFoldersModel_canDropMimeData (mimeData pEvent) (dropAction pEvent) row column parent]).

(** CDraggingIntoRootOf::dragEnterEvent *)
Definition dragEnterEvent (pEvent : QDropEvent) : QDropEvent * list Effect :=
  let shown := CDragDropData_ShowDragText "Invalid operation" in
  let handled := TView_dragEnterEvent view pEvent in
  if negb (Processed handled) then
    let '(pEvent', effects) := dragEnterMoveRoot handled in
    (pEvent', shown :: Base_dragEnterEvent view pEvent :: effects)
  else (handled, [shown; Base_dragEnterEvent view pEvent]).

(** CDraggingIntoRootOf::dragMoveEvent *)
Definition dragMoveEvent (pEvent : QDropEvent) : QDropEvent * list Effect :=
  let handled := TView_dragMoveEvent view pEvent in
  if negb (Processed handled) then
    let '(pEvent', effects) := dragEnterMoveRoot handled in
    (pEvent', Base_dragMoveEvent view pEvent :: effects)
  else (handled, [Base_dragMoveEvent view pEvent]).

(** CDraggingIntoRootOf::dropEvent *)
Definition dropEvent (pEvent : QDropEvent) : QDropEvent * list Effect :=
  let handled := TView_BaseDropEvent view pEvent in
  if negb (Processed handled) then
    let root := FindIndexForFolder (default "" m_root) in
    let row := index_row root in
    let column := index_column root in
    let parent := QModelIndex_parent root in
    (if dropMimeData (mimeData handled) (dropAction handled) row column parent
     then accept handled else handled,
     [Base_dropEvent view pEvent;
      CAssetFoldersModel_dropMimeData (mimeData handled) (dropAction handled) row column parent])
  else (handled, [Base_dropEvent view pEvent]).

End CDraggingIntoRootOf.

(** Private_AssetBrowser::IsMovePossible *)
Definition IsMovePossible `{Assets} (assets : list Z) (destinationFolder : string) : bool :=
  match destinationFolder with
  | EmptyString => false
  | String front _ =>
      if Ascii.eqb front "%" then false
      else
        let path := PathUtil_AddSlash destinationFolder in
        negb (existsb (fun pAsset => strcmp_equal path (CAsset_GetFolder pAsset)) assets)
  end.

End Private_AssetBrowser_DragDrop.

(** ** Private_AssetBrowser: the dependency filters and the sort proxy's
    filtering *)

Module Private_AssetBrowser_Filters.
Import Strings AssetSystem.
Import Private_AssetBrowser.

(** The attributes this file tells apart by address. *)
Inductive Attribute :=
| s_nameAttribute
| s_dependenciesAttribute
| s_usageCountAttribute
| other_attribute (id : Z).

#[global] Instance Attribute_eq_dec : EqDecision Attribute.
Proof. solve_decision. Defined.

(** Filter operators: the two of s_dependenciesAttributeType, and the ones of
    other attribute types. *)
Inductive Operator :=
| CUse
| CUsedBy
| other_operator (id : Z).

(** CAttributeFilter, as this file reads it. *)
Record CAttributeFilter := {
  IsEnabled : bool;
  GetAttribute : Attribute;
  (** [None]: no operator set *)
  GetOperator : option Operator;
  GetFilterValue : QVariant;
  (** CAttributeFilter::Match(value) *)
  filter_Match : QVariant -> bool
}.

(** An enabled filter on the dependencies attribute, the kind
    InvalidateFilter counts. *)
Definition dependency_filter (filter : CAttributeFilter) : Prop :=
  IsEnabled filter = true ∧ GetAttribute filter = s_dependenciesAttribute.

#[global] Instance dependency_filter_dec filter : Decision (dependency_filter filter).
Proof. unfold dependency_filter. apply _. Defined.

(** [filter], at position [i] of [m_filters], is their only enabled filter on
    the dependencies attribute. *)
Definition only_dependency_filter (m_filters : list CAttributeFilter) (i : nat) (filter : CAttributeFilter) : Prop :=
  m_filters !! i = Some filter ∧ dependency_filter filter ∧
  forall j other, m_filters !! j = Some other -> dependency_filter other -> j = i.

(** An enabled filter on the name attribute. *)
Definition name_filter (filter : CAttributeFilter) : Prop :=
  IsEnabled filter = true ∧ GetAttribute filter = s_nameAttribute.

#[global] Instance name_filter_dec filter : Decision (name_filter filter).
Proof. unfold name_filter. apply _. Defined.

(** The QVariant a column callback of this file constructs: a default one, one
    holding an int, or one holding a string literal. *)
Inductive ColumnValue :=
| NoValue
| IntValue (i : Z)
| StringValue (s : QString).

#[global] Instance Role_eq_dec : EqDecision Role.
Proof. solve_decision. Defined.

(** What SortFilterProxyModel reaches through its base classes. *)
Class SourceModel := {
  eAssetColumns_Name : Z;
  (** sourceModel()->index(row, column, parent) *)
  sourceModel_index : Z -> Z -> QModelIndex -> QModelIndex;
  QDeepFilterProxyModel_rowMatchesFilter : Z -> QModelIndex -> bool;
  QAttributeFilterProxyModel_rowMatchesFilter : list CAttributeFilter -> Z -> QModelIndex -> bool
}.

Section Filters.
Context `{Conversions} `{StringConversions} `{EAssetModelRowType} `{Assets}.

(** CUsedBy::Match *)
Definition CUsedBy_Match (value filterValue : QVariant) : bool :=
  if negb (isValid filterValue) then true
  else
    let pAsset := if isValid value then value_intptr value else 0 in
    if pAsset =? 0 then false
    else
      let path := QVariant_toString filterValue in
      (CAsset_IsAssetUsedBy pAsset path).1.

(** CUse::Match *)
Definition CUse_Match (value filterValue : QVariant) : bool :=
  if negb (isValid filterValue) then true
  else
    let pAsset := if isValid value then value_intptr value else 0 in
    if pAsset =? 0 then false
    else
      let path := QVariant_toString filterValue in
      (CAsset_DoesAssetUse pAsset path).1.

(** Match of the operator [op]. *)
Definition Match (op : Operator) (value filterValue : QVariant) : option bool :=
  match op with
  | CUse => Some (CUse_Match value filterValue)
  | CUsedBy => Some (CUsedBy_Match value filterValue)
  | other_operator _ => None
  end.

(** CDependenciesOperatorBase::GetUsageInfo, dispatched on the operator the
    pointer is cast to; the cast of an operator of another attribute type is
    undefined ([None]). *)
Definition GetUsageInfo (op : Operator) (asset : Z) (pathToTest : string) : option (bool * Z) :=
  match op with
  | CUsedBy => Some (CAsset_IsAssetUsedBy asset (c_str pathToTest))
  | CUse => Some (CAsset_DoesAssetUse asset (c_str pathToTest))
  | other_operator _ => None
  end.

(** CUsageCountAttribute::GetValue; [m_pFilter] is the detail context. *)
Definition GetValue (m_pFilter : option CAttributeFilter) (asset : Z) : option ColumnValue :=
  match m_pFilter with
  | Some filter =>
      match GetOperator filter with
      | Some op =>
          let filterValue := QVariant_toString (GetFilterValue filter) in
          usageInfo ← GetUsageInfo op asset filterValue;
          if usageInfo.1 && negb (usageInfo.2 =? 0) then Some (IntValue usageInfo.2)
          else Some (StringValue "n/a")
      | None => Some (StringValue "n/a")
      end
  | None => Some (StringValue "n/a")
  end.

(** The column callback registered by CUsageCountAttribute. *)
Definition usageCount_column (m_pFilter : option CAttributeFilter) (pAsset : Z) (role : Role) : option ColumnValue :=
  if decide (role ≠ DisplayRole) then Some NoValue
  else GetValue m_pFilter pAsset.

(** The column callback registered by CDependenciesAttribute. *)
Definition dependencies_column (pAsset : Z) (role : Role) : ColumnValue := NoValue.

(** The loop of SortFilterProxyModel::InvalidateFilter from position [i] of
    m_filters on; a filter is pointed to by its position. *)
Fixpoint InvalidateFilter_loop (i : nat) (filters : list CAttributeFilter)
    (usageCountFiltersCount : Z) (m_pDependencyFilter : option nat) : option nat :=
  match filters with
  | [] => m_pDependencyFilter
  | filter :: rest =>
      if negb (IsEnabled filter) then
        InvalidateFilter_loop (S i) rest usageCountFiltersCount m_pDependencyFilter
      else if decide (GetAttribute filter = s_dependenciesAttribute) then
        let usageCountFiltersCount := wrap_int (usageCountFiltersCount + 1) in
        InvalidateFilter_loop (S i) rest usageCountFiltersCount
          (if usageCountFiltersCount =? 1 then Some i else None)
      else
        InvalidateFilter_loop (S i) rest usageCountFiltersCount m_pDependencyFilter
  end.

(** SortFilterProxyModel::InvalidateFilter: the new m_pDependencyFilter. *)
Definition InvalidateFilter (m_filters : list CAttributeFilter) : option nat :=
  InvalidateFilter_loop 0 m_filters 0 None.

(** UsageCountAttributeContext: the detail context s_usageCountAttribute holds
    while SortFilterProxyModel::data or SortFilterProxyModel::sort runs. *)
Definition UsageCountAttributeContext (m_filters : list CAttributeFilter) (m_pDependencyFilter : option nat)
    : option CAttributeFilter :=
  m_pDependencyFilter ≫= (m_filters !!.).

(** SortFilterProxyModel::rowMatchesFilter *)
Definition rowMatchesFilter `{SourceModel} (m_filters : list CAttributeFilter)
    (sourceRow : Z) (sourceParent : QModelIndex) : bool :=
  let index := sourceModel_index sourceRow eAssetColumns_Name sourceParent in
  if negb (index_isValid index) then false
  else
    let rowType := (toUInt (data index TypeCheckRole)).1 in
    if rowType =? eAssetModelRow_Folder then
      if QDeepFilterProxyModel_rowMatchesFilter sourceRow sourceParent then
        forallb (fun filter =>
                   if IsEnabled filter && bool_decide (GetAttribute filter = s_nameAttribute) then
                     filter_Match filter (data index DisplayRole)
                   else true) m_filters
      else false
    else QAttributeFilterProxyModel_rowMatchesFilter m_filters sourceRow sourceParent.

End Filters.

End Private_AssetBrowser_Filters.

(** ** CAssetBrowser: the selected rows and what is done with them *)

Module CAssetBrowser_Selection.
Import Strings AssetSystem.
Import Private_AssetBrowser.

(** What ProcessSelection collects; [selection_asserted] tells whether its
    CRY_ASSERT(0) was reached. *)
Record Selection := {
  selection_assets : list Z;
  selection_folders : list string;
  selection_asserted : bool
}.

(** The calls made on assets, the quick-edit timer and the folders view. *)
Inductive Effect :=
| QTimer_stop
| CAsset_Edit (asset : Z)
| CAsset_Reimport (asset : Z)
| CAssetFoldersView_SelectFolder (folder : QString)
| CRY_ASSERT_failure.

(** The asset an effect edits, if it is a call of CAsset::Edit. *)
Definition edited (e : Effect) : option Z :=
  match e with
  | CAsset_Edit asset => Some asset
  | _ => None
  end.

(** The asset an effect reimports, if it is a call of CAsset::Reimport. *)
Definition reimported (e : Effect) : option Z :=
  match e with
  | CAsset_Reimport asset => Some asset
  | _ => None
  end.

Section Selection.
Context `{Conversions} `{StringConversions} `{EAssetModelRowType} `{Assets}.

(** Private_AssetBrowser::ToFolderPath *)
Definition ToFolderPath (index : QModelIndex) : QString :=
  QVariant_toString (data index FolderPathRole).

(** CAssetBrowser::ProcessSelection, on the rows m_selection->selectedRows
    returns.  GetType hands the row type back as an [int]. *)
Definition ProcessSelection (indexList : list QModelIndex) : Selection :=
  foldl (fun selection index =>
           let type := wrap_int (GetType index) in
           if type =? eAssetModelRow_Asset then
             let pAsset := ToAsset index in
             if negb (pAsset =? 0) then
               {| selection_assets := selection_assets selection ++ [pAsset];
                  selection_folders := selection_folders selection;
                  selection_asserted := selection_asserted selection |}
             else selection
           else if type =? eAssetModelRow_Folder then
             {| selection_assets := selection_assets selection;
                selection_folders := selection_folders selection ++ [ToFolderPath index];
                selection_asserted := selection_asserted selection |}
           else
             {| selection_assets := selection_assets selection;
                selection_folders := selection_folders selection;
                selection_asserted := true |})
        {| selection_assets := []; selection_folders := []; selection_asserted := false |}
        indexList.

(** The three kinds of rows the switch of ProcessSelection and OnActivated
    tells apart: an asset row that carries an asset, a folder row, and a row
    of neither type.  An asset row without an asset is skipped. *)
Definition asset_row (index : QModelIndex) : Prop :=
  wrap_int (GetType index) = eAssetModelRow_Asset ∧ ToAsset index ≠ 0.

Definition folder_row (index : QModelIndex) : Prop :=
  wrap_int (GetType index) ≠ eAssetModelRow_Asset ∧ wrap_int (GetType index) = eAssetModelRow_Folder.

Definition unknown_row (index : QModelIndex) : Prop :=
  wrap_int (GetType index) ≠ eAssetModelRow_Asset ∧ wrap_int (GetType index) ≠ eAssetModelRow_Folder.

#[global] Instance asset_row_dec index : Decision (asset_row index).
Proof. unfold asset_row. apply _. Defined.

#[global] Instance folder_row_dec index : Decision (folder_row index).
Proof. unfold folder_row. apply _. Defined.

#[global] Instance unknown_row_dec index : Decision (unknown_row index).
Proof. unfold unknown_row. apply _. Defined.

(** CAssetBrowser::GetSelectedAssets *)
Definition GetSelectedAssets (selectedRows : list QModelIndex) : list Z :=
  selection_assets (ProcessSelection selectedRows).

(** CAssetBrowser::GetLastSelectedAsset, on m_selection->currentIndex() *)
Definition GetLastSelectedAsset (index : QModelIndex) : Z :=
  if index_isValid index && IsAsset index then ToAsset index else 0.

(** CAssetBrowser::OnActivated(CAsset* pAsset); [m_pQuickEditTimer] tells
    whether the timer has been created. *)
Definition OnActivated_asset (m_pQuickEditTimer : bool) (pAsset : Z) : list Effect :=
  (if m_pQuickEditTimer then [QTimer_stop] else []) ++ [CAsset_Edit pAsset].

(** CAssetBrowser::OnActivated(const QString& folder) *)
Definition OnActivated_folder (folder : QString) : list Effect :=
  [CAssetFoldersView_SelectFolder folder].

(** CAssetBrowser::OnActivated(const QModelIndex& index) *)
Definition OnActivated (m_pQuickEditTimer : bool) (index : QModelIndex) : list Effect :=
  let type := wrap_int (GetType index) in
  if type =? eAssetModelRow_Asset then
    let pAsset := ToAsset index in
    if negb (pAsset =? 0) then OnActivated_asset m_pQuickEditTimer pAsset else []
  else if type =? eAssetModelRow_Folder then OnActivated_folder (ToFolderPath index)
  else [CRY_ASSERT_failure].

(** CAssetBrowser::OnOpen *)
Definition OnOpen (m_pQuickEditTimer : bool) (selectedRows : list QModelIndex) : bool * list Effect :=
  let assets := GetSelectedAssets selectedRows in
  if bool_decide (assets = []) then (false, [])
  else (true, assets ≫= OnActivated_asset m_pQuickEditTimer).

(** CAssetBrowser::OnReimport *)
Definition OnReimport (assets : list Z) : list Effect :=
  assets ≫= (fun pAsset =>
    if CAssetType_IsImported (CAsset_GetType pAsset) && negb (CAsset_IsReadOnly pAsset)
    then [CAsset_Reimport pAsset] else []).

(** CAssetBrowser::OnDelete(), on the rows selected in the views. *)
Definition OnDelete_selected (selectedRows : list QModelIndex) : M bool :=
  CAssetBrowser_Actions.OnDelete_selection (GetSelectedAssets selectedRows).

End Selection.

End CAssetBrowser_Selection.

(** ** CAssetBrowser: the breadcrumbs bar *)

Module CAssetBrowser_Breadcrumbs.
Import Strings AssetSystem.

(** QDir and QString routines whose bodies are outside this file. *)
Class Paths := {
  QDir_currentPath : QString;
  QDir_fromNativeSeparators : QString -> QString;
  (** QString::contains(const QString&) *)
  QString_contains : QString -> QString -> bool;
  (** QString::remove(const QString&) *)
  QString_remove : QString -> QString -> QString
}.

(** The loop of CAssetBrowser::UpdateBreadcrumbsBar from [curIndex] on: the
    breadcrumbs added, text first.  [fuel] bounds the number of rounds. *)
Fixpoint UpdateBreadcrumbsBar_loop (fuel : nat) (path : QString) (curIndex : Z) : option (list (QString * QString)) :=
  match fuel with
  | O => None
  | S fuel' =>
      let slashIndex := indexOf path "/" curIndex in
      let crumbText := mid path curIndex (if slashIndex =? -1 then -1 else slashIndex - curIndex) in
      let crumb := (crumbText, mid path 0 slashIndex) in
      let curIndex := slashIndex + 1 in
      if negb (slashIndex =? -1) then
        crumbs ← UpdateBreadcrumbsBar_loop fuel' path curIndex;
        Some (crumb :: crumbs)
      else Some [crumb]
  end.

(** The request the handlers below send to the folders view. *)
Inductive Effect :=
| CAssetFoldersView_SelectFolder (index : QModelIndex).

Section Handlers.
Context `{StringConversions} `{CAssetFoldersModel} `{Paths}.

(** CAssetBrowser::OnBreadcrumbClick *)
Definition OnBreadcrumbClick (text : QString) (data : QVariant) : list Effect :=
  let index := FindIndexForFolder_DisplayFolderPathRole (QVariant_toString data) in
  if index_isValid index then [CAssetFoldersView_SelectFolder index] else [].

(** CAssetBrowser::OnBreadcrumbsTextChanged *)
Definition OnBreadcrumbsTextChanged (text : QString) : list Effect :=
  let index := FindIndexForFolder_DisplayFolderPathRole text in
  if index_isValid index then [CAssetFoldersView_SelectFolder index]
  else
    let assetsPaths := QDir_fromNativeSeparators QDir_currentPath in
    let breadCrumbsPath := QDir_fromNativeSeparators text in
    let breadCrumbsPath :=
      if QString_contains breadCrumbsPath assetsPaths then QString_remove breadCrumbsPath assetsPaths
      else breadCrumbsPath in
    let index := FindIndexForFolder_DisplayFolderPathRole breadCrumbsPath in
    if index_isValid index then [CAssetFoldersView_SelectFolder index] else [].

(** CAssetBrowser::ValidatePath *)
Definition ValidatePath (path : QString) : bool :=
  let index := FindIndexForFolder_DisplayFolderPathRole path in
  if index_isValid index then true
  else
    let assetsPaths := QDir_fromNativeSeparators QDir_currentPath in
    let breadCrumbsPath := QDir_fromNativeSeparators path in
    let breadCrumbsPath :=
      if QString_contains breadCrumbsPath assetsPaths then QString_remove breadCrumbsPath assetsPaths
      else breadCrumbsPath in
    let index := FindIndexForFolder_DisplayFolderPathRole breadCrumbsPath in
    if index_isValid index then true else false.

End Handlers.

End CAssetBrowser_Breadcrumbs.

(** ** CAssetBrowser: events filtered for the two views *)

Module CAssetBrowser_Events.
Import Strings AssetSystem.
Import Private_AssetBrowser CAssetBrowser.

(** The object an event is filtered for. *)
Inductive Watched := Watched_detailsView | Watched_thumbnailView | Watched_other.

(** QEvent, by its type(); a mouse release carries its button. *)
Inductive QEvent :=
| ToolTip
| MouseButtonRelease (button : MouseButton)
| Resize
| OtherEvent.

Inductive Effect :=
| CAssetTooltip_ShowTrackingTooltip (asset : Z)
| CAssetTooltip_HideTooltip.

(** What eventFilter leaves behind: its return value, the accepted flag of
    the event where it was set ([None]: not touched), the browser and the
    tooltip calls. *)
Record Filtered := {
  filtered_result : bool;
  filtered_accepted : option bool;
  filtered_browser : CAssetBrowser.CAssetBrowser;
  filtered_effects : list Effect
}.

(** At least one of the details view and the thumbnail view is shown. *)
Definition some_view_visible (b : CAssetBrowser.CAssetBrowser) : Prop :=
  view_visible (m_detailsView b) || view_visible (m_thumbnailView b) = true.

(** Whether CAssetBrowser::mouseReleaseEvent accepts the event: it does so
    right after navigating. *)
Definition mouseReleaseEvent_accepts (button : MouseButton) (b : CAssetBrowser.CAssetBrowser) : bool :=
  match button with
  | BackButton => m_backButton b
  | ForwardButton => m_forwardButton b
  | OtherButton => false
  end.

Section EventFilter.
Context `{Conversions} `{ViewMode} `{Widgets}.

(** [indexUnderCursor]: the index the view reports at the cursor;
    [width], [height]: the size of the browser. *)
Variable indexUnderCursor : ViewKind -> QModelIndex.
Variable width height : Z.

Definition tooltip (view : ViewKind) : list Effect :=
  let asset := ToAsset (indexUnderCursor view) in
  if negb (asset =? 0) then [CAssetTooltip_ShowTrackingTooltip asset]
  else [CAssetTooltip_HideTooltip].

(** CAssetBrowser::eventFilter; [emitted] is what the folders view announces
    if the event makes the browser navigate. *)
Definition eventFilter (object : Watched) (event : QEvent) (emitted : list QStringList)
    (b : CAssetBrowser.CAssetBrowser) : Outcome Filtered :=
  let pass :=
    {| filtered_result := false; filtered_accepted := None;
       filtered_browser := b; filtered_effects := [] |} in
  match event with
  | ToolTip =>
      match object with
      | Watched_detailsView =>
          mret {| filtered_result := true; filtered_accepted := Some true;
                  filtered_browser := b; filtered_effects := tooltip DetailsView |}
      | Watched_thumbnailView =>
          mret {| filtered_result := true; filtered_accepted := Some true;
                  filtered_browser := b; filtered_effects := tooltip ThumbnailsView |}
      | Watched_other => mret pass
      end
  | MouseButtonRelease button =>
      let accepted := mouseReleaseEvent_accepts button b in
      b' ← mouseReleaseEvent button emitted b;
      mret {| filtered_result := accepted; filtered_accepted := Some accepted;
              filtered_browser := b'; filtered_effects := [] |}
  | Resize =>
      let orientation := if height <? width then Horizontal else Vertical in
      mret {| filtered_result := false; filtered_accepted := None;
              filtered_browser := set_foldersSplitter (setOrientation orientation (m_foldersSplitter b)) b;
              filtered_effects := [] |}
  | OtherEvent => mret pass
  end.

End EventFilter.

End CAssetBrowser_Events.

(** ** CAssetBrowser: context menus *)

Module CAssetBrowser_Menus.
Import Strings AssetSystem.
Import Private_AssetBrowser Private_AssetBrowser_Filters CAssetBrowser_Selection.

(** What a menu action is connected to. *)
Inductive Trigger :=
| Do_OnCreateFolder (folder : QString)
| Do_DeleteFolder (folder : QString)
| Do_OnRenameFolder (folder : QString)
| Do_OpenFolderWithShell (folder : QString)
| Do_OnOpenInExplorer (folder : QString)
| Do_GenerateThumbnailsAsync (folder : string)
| Do_OnImport
| Do_OnReimport (assets : list Z)
| Do_OnDelete (assets : list Z)
| Do_Save (assets : list Z)
| Do_DiscardChanges (assets : list Z)
| Do_OnRenameAsset (asset : Z)
| Do_OpenInExplorer (asset : Z)
| Do_BeginCreateAsset (assetType : Z)
| Do_FilterDependencies (op : Operator) (asset : Z).

(** A QAction as the builders leave it. *)
Record QAction := {
  action_icon : option string;
  action_text : QString;
  (** the section given to CreateAction, if one was *)
  action_section : option Z;
  action_enabled : bool;
  action_trigger : Trigger
}.

(** The calls made on a CAbstractMenu and the notification sent about it. *)
Inductive MenuCall :=
| CreateAction (action : QAction)
| CreateMenu (text : QString) (actions : list QAction)
| SetSectionName (section : Z) (name : string)
| AppendContextMenuActions (assetType : Z) (assets : list Z)
| s_signalContextMenuRequested (assets : list Z) (folders : list string).

(** CAbstractMenu and the asset manager, as the builders read them; the
    sections depend on what the menu holds so far. *)
Class CAbstractMenu := {
  eSections_Default : Z;
  GetNextEmptySection : list MenuCall -> Z;
  FindSectionByName : list MenuCall -> string -> Z;
  (** CAssetManager::GetAssetTypes *)
  GetAssetTypes : list Z
}.

(** The actions created directly in the menu, in order: their texts, and
    their texts with what they trigger. *)
Definition action_texts (menu : list MenuCall) : list QString :=
  omap (fun c => match c with CreateAction a => Some (action_text a) | _ => None end) menu.

Definition menu_actions (menu : list MenuCall) : list (QString * Trigger) :=
  omap (fun c => match c with
                 | CreateAction a => Some (action_text a, action_trigger a)
                 | _ => None
                 end) menu.

(** The groups of assets handed to the asset types, in order. *)
Definition type_actions (menu : list MenuCall) : list (Z * list Z) :=
  omap (fun c => match c with
                 | AppendContextMenuActions assetType assets => Some (assetType, assets)
                 | _ => None
                 end) menu.

Definition action (text : QString) (section : option Z) (trigger : Trigger) : QAction :=
  {| action_icon := None; action_text := text; action_section := section;
     action_enabled := true; action_trigger := trigger |}.

Definition icon_action (icon : string) (text : QString) (trigger : Trigger) : QAction :=
  {| action_icon := Some icon; action_text := text; action_section := None;
     action_enabled := true; action_trigger := trigger |}.

Definition setDisabled (disabled : bool) (a : QAction) : QAction :=
  {| action_icon := action_icon a; action_text := action_text a; action_section := action_section a;
     action_enabled := negb disabled; action_trigger := action_trigger a |}.

(** QMap<const CAssetType*, std::vector<CAsset*>>: entries in ascending key
    order; [assetsByType[key].push_back(asset)]. *)
Fixpoint QMap_push_back (key asset : Z) (m : list (Z * list Z)) : list (Z * list Z) :=
  match m with
  | [] => [(key, [asset])]
  | (k, v) :: rest =>
      if key <? k then (key, [asset]) :: m
      else if key =? k then (k, v ++ [asset]) :: rest
      else (k, v) :: QMap_push_back key asset rest
  end.

(** The name CUse and CUsedBy give themselves. *)
Definition GetName (op : Operator) : QString :=
  match op with
  | CUse => "that use"
  | CUsedBy => "used by"
  | other_operator _ => ""
  end.

(** s_dependenciesAttribute.GetType()->GetOperators() *)
Definition dependencyOperators : list Operator := [CUse; CUsedBy].

Section Builders.
Context `{Conversions} `{StringConversions} `{EAssetModelRowType} `{Assets} `{CAssetFoldersModel} `{CAbstractMenu}.

(** CAssetBrowser::FillCreateAssetMenu: the actions created in [menu];
    [folder] is [None] for the null string. *)
Definition FillCreateAssetMenu (folder : option QString) : list QAction :=
  omap (fun pAssetType =>
          if negb (CAssetType_CanBeCreated pAssetType) then None
          else
            let bEnableAction := negb (bool_decide (folder = None)) in
            Some {| action_icon := None;
                    action_text := CAssetType_GetUiTypeName pAssetType;
                    action_section := None;
                    action_enabled := bEnableAction;
                    action_trigger := Do_BeginCreateAsset pAssetType |})
       GetAssetTypes.

(** CAssetBrowser::NotifyContextMenuCreation *)
Definition NotifyContextMenuCreation (menu : list MenuCall) (assets : list Z) (folders : list string) : list MenuCall :=
  let menu :=
    if FindSectionByName menu "Assets" =? eSections_Default then
      let section := GetNextEmptySection menu in
      menu ++ [SetSectionName section "Assets"]
    else menu in
  menu ++ [s_signalContextMenuRequested assets folders].

(** CAssetBrowser::BuildContextMenuForEmptiness; [selectedFolders] is what
    GetSelectedFoldersInFolderView returns.  Reading element 0 of an empty
    vector is undefined ([None]). *)
Definition BuildContextMenuForEmptiness (selectedFolders : list string) (menu : list MenuCall) : option (list MenuCall) :=
  let foldersSection := GetNextEmptySection menu in
  let menu := menu ++ [SetSectionName foldersSection "Folders"] in
  folder ← selectedFolders !! 0%nat;
  let menu :=
    if (Z.of_nat (length selectedFolders) =? 1) && negb (IsReadOnlyFolder folder) then
      menu ++
      [CreateAction (icon_action "icons:General/Element_Add.ico" "Create folder" (Do_OnCreateFolder folder));
       CreateMenu "New..." (FillCreateAssetMenu (Some folder));
       CreateAction (action "Import" (Some foldersSection) Do_OnImport);
       CreateAction (action "Show in File Explorer" (Some foldersSection) (Do_OnOpenInExplorer folder));
       CreateAction (action "Generate Thumbnails" (Some foldersSection) (Do_GenerateThumbnailsAsync folder))]
    else menu in
  Some (NotifyContextMenuCreation menu [] selectedFolders).

(** CAssetBrowser::BuildContextMenuForFolders *)
Definition BuildContextMenuForFolders (folders : list string) (menu : list MenuCall) : option (list MenuCall) :=
  if 1 <? Z.of_nat (length folders) then Some menu
  else
    folder ← folders !! 0%nat;
    if IsReadOnlyFolder folder then Some menu
    else
      let foldersSection := GetNextEmptySection menu in
      let menu := menu ++ [SetSectionName foldersSection "Folders"] in
      let menu :=
        menu ++ [CreateAction (icon_action "icons:General/Element_Add.ico" "Create folder" (Do_OnCreateFolder folder))] in
      let menu :=
        if IsEmptyFolder folder then
          menu ++
          [CreateAction (icon_action "icons:General/Element_Remove.ico" "Delete" (Do_DeleteFolder folder));
           CreateAction (action "Rename" (Some foldersSection) (Do_OnRenameFolder folder))]
        else menu in
      let menu :=
        menu ++
        [CreateAction (action "Show in File Explorer" (Some foldersSection) (Do_OpenFolderWithShell folder));
         CreateAction (action "Generate Thumbnails" (Some foldersSection) (Do_GenerateThumbnailsAsync folder))] in
      Some (NotifyContextMenuCreation menu [] folders).

(** CAssetBrowser::AppendFilterDependenciesActions *)
Definition AppendFilterDependenciesActions (pAsset : Z) (menu : list MenuCall) : list MenuCall :=
  foldl (fun menu pOperator =>
           menu ++ [CreateAction
                      (action ("Show Assets " +:+ GetName pOperator +:+ " '" +:+ CAsset_GetName pAsset +:+ "'")
                              None (Do_FilterDependencies pOperator pAsset))])
        menu dependencyOperators.

(** The three flags computed by the first loop of BuildContextMenuForAssets. *)
Definition canReimport (assets : list Z) : bool :=
  existsb (fun asset =>
             CAssetType_IsImported (CAsset_GetType asset) && negb (CAsset_IsReadOnly asset)
             && CAsset_HasSourceFile asset) assets.

Definition isReadOnly (assets : list Z) : bool :=
  match assets with
  | [] => false
  | front :: _ =>
      existsb (fun asset =>
                 CAsset_IsReadOnly asset
                 || negb (ICryPak_IsFileExist_OnDisk (CAsset_GetFile front 0))) assets
  end.

Definition isModified (assets : list Z) : bool :=
  existsb CAsset_IsModified assets.

Definition assetsByType (assets : list Z) : list (Z * list Z) :=
  foldl (fun m asset => QMap_push_back (CAsset_GetType asset) asset m) [] assets.

(** CAssetBrowser::BuildContextMenuForAssets *)
Definition BuildContextMenuForAssets (assets : list Z) (folders : list string) (menu : list MenuCall) : list MenuCall :=
  let section := FindSectionByName menu "Assets" in
  let menu :=
    if canReimport assets then
      menu ++ [CreateAction (action "Reimport" (Some section) (Do_OnReimport assets))]
    else menu in
  let menu :=
    if negb (isReadOnly assets) then
      menu ++ [CreateAction (action "Delete" None (Do_OnDelete assets))]
    else menu in
  let menu :=
    if isModified assets then
      menu ++ [CreateAction (action "Save" None (Do_Save assets));
               CreateAction (action "Discard Changes" None (Do_DiscardChanges assets))]
    else menu in
  let menu :=
    foldl (fun menu '(pType, typed) =>
             if negb (Z.of_nat (length typed) =? 0) then menu ++ [AppendContextMenuActions pType typed]
             else menu)
          menu (assetsByType assets) in
  let menu :=
    match assets with
    | [front] =>
        let isAssetOnDisk := ICryPak_IsFileExist_OnDisk (CAsset_GetFile front 0) in
        let menu :=
          menu ++
          [CreateAction (setDisabled (negb isAssetOnDisk || CAsset_IsReadOnly front)
                           (action "Rename" None (Do_OnRenameAsset front)));
           CreateAction (setDisabled (negb isAssetOnDisk)
                           (action "Show in File Explorer" None (Do_OpenInExplorer front)))] in
        AppendFilterDependenciesActions front menu
    | _ => menu
    end in
  NotifyContextMenuCreation menu assets folders.

(** CAssetBrowser::CreateContextMenu, up to the abstract menu it builds:
    [selectedRows] are the rows selected in the asset views,
    [foldersViewSelection] the folders selected in the folders view. *)
Definition CreateContextMenu (isFolderView : bool) (selectedRows : list QModelIndex)
    (foldersViewSelection : QStringList) (m_recursiveView : bool) : option (list MenuCall) :=
  let abstractMenu := [] in
  let selection := ProcessSelection selectedRows in
  let assets := selection_assets selection in
  let folders := selection_folders selection in
  if negb (bool_decide (assets = [])) then
    Some (BuildContextMenuForAssets assets folders abstractMenu)
  else if negb (bool_decide (folders = [])) || isFolderView then
    let folders := if isFolderView then foldersViewSelection else folders in
    BuildContextMenuForFolders folders abstractMenu
  else if bool_decide (assets = []) && bool_decide (folders = []) && negb m_recursiveView then
    BuildContextMenuForEmptiness foldersViewSelection abstractMenu
  else Some abstractMenu.

End Builders.

End CAssetBrowser_Menus.

(** ** More sample collaborators *)

Module MoreSamples.
Import Strings AssetSystem Private_AssetBrowser_DragDrop Private_AssetBrowser_Filters.
Import Private_AssetBrowser CAssetBrowser.

(** Only a byte array converts to a string. *)
Definition stringConversions : StringConversions := {|
  QVariant_toString := fun v => match v with QVByteArray a => a | _ => "" end
|}.

(** Assets of two types, told apart by the parity of their address, all in
    one folder; each is used three times by whatever is asked about and uses
    nothing itself. *)
Definition assets : Assets := {|
  CAsset_GetName := fun _ => "asset";
  CAsset_GetFolder := fun _ => "Assets/Objects/";
  CAsset_GetFile := fun _ _ => "Assets/Objects/asset.cryasset";
  CAsset_GetType := fun asset => asset mod 2;
  CAsset_IsReadOnly := fun _ => false;
  CAsset_IsModified := fun _ => false;
  CAsset_HasSourceFile := fun _ => true;
  CAsset_IsAssetUsedBy := fun _ _ => (true, 3);
  CAsset_DoesAssetUse := fun _ _ => (false, 0);
  CAssetType_IsImported := fun _ => true;
  CAssetType_CanBeCreated := fun _ => true;
  CAssetType_GetUiTypeName := fun _ => "Mesh";
  ICryPak_IsFileExist_OnDisk := fun _ => true;
  PathUtil_AddSlash := fun path => path +:+ "/"
|}.

(** Views whose own handlers leave the event alone and have no item under
    the cursor. *)
Definition tview : TView := {|
  TView_dragEnterEvent := fun _ pEvent => pEvent;
  TView_dragMoveEvent := fun _ pEvent => pEvent;
  TView_BaseDropEvent := fun _ pEvent => pEvent;
  indexAt_isValid := fun _ _ => false
|}.

(** A folders model that finds every folder and takes every drop. *)
Definition foldersModel : CAssetFoldersModel := {|
  FindIndexForFolder := fun _ => Samples.folderRow;
  FindIndexForFolder_DisplayFolderPathRole := fun _ => Samples.folderRow;
  QModelIndex_parent := fun index => index;
  canDropMimeData := fun _ _ _ _ _ => true;
  dropMimeData := fun _ _ _ _ _ => true;
  IsReadOnlyFolder := fun _ => false;
  IsEmptyFolder := fun _ => true
|}.

Definition nameFilter : CAttributeFilter := {|
  IsEnabled := true;
  GetAttribute := s_nameAttribute;
  GetOperator := None;
  GetFilterValue := QVByteArray "tree";
  filter_Match := fun _ => true
|}.

Definition usedByFilter : CAttributeFilter := {|
  IsEnabled := true;
  GetAttribute := s_dependenciesAttribute;
  GetOperator := Some CUsedBy;
  GetFilterValue := QVByteArray "Assets/Levels/level.cryasset";
  filter_Match := fun _ => true
|}.

(** The filters of a panel that filters by name and by one dependency. *)
Definition filters : list CAttributeFilter := [nameFilter; usedByFilter].

(** A drop that no handler has accepted yet. *)
Definition drop : QDropEvent := {|
  isAccepted := false;
  pos := (10, 10);
  mimeData := 8192;
  dropAction := 2
|}.

(** The browser while something is typed into the search box. *)
Definition searching : CAssetBrowser :=
  set_filterPanel
    {| searchBox_IsEmpty := false; HasActiveFilters := false; filters_state := ∅ |}
    Samples.browser.

(** The browser once the search has been served and the search box is
    emptied again. *)
Definition search_cleared : CAssetBrowser :=
  set_filterPanel (fresh_filterPanel Samples.fresh) (UpdateModels searching).

End MoreSamples.

(** * Properties *)

Import Private_AssetBrowser Private_AssetBrowser_Views Private_AssetBrowser_Thumbnails.
Import Dialogs CAssetBrowser_Actions CAssetBrowser.

(** ** Concrete runs *)

Example lessThan_asset_folder :
  @lessThan Samples.conversions Samples.rowTypes Samples.proxy Samples.assetRow Samples.folderRow = false.
Proof. reflexivity. Qed.

Example lessThan_folder_asset :
  @lessThan Samples.conversions Samples.rowTypes Samples.proxy Samples.folderRow Samples.assetRow = true.
Proof. reflexivity. Qed.

Example GetExtensionFilter_two_importers :
  GetExtensionFilter [["fbx"; "obj"]; ["tif"; "fbx"]] (fun text => text)
  = [ {| filter_description := "All importable files (fbx, obj, tif)";
         filter_extensions := ["fbx"; "obj"; "tif"] |};
      {| filter_description := ".fbx files"; filter_extensions := ["fbx"] |};
      {| filter_description := ".obj files"; filter_extensions := ["obj"] |};
      {| filter_description := ".tif files"; filter_extensions := ["tif"] |};
      {| filter_description := "All Files (*.*)"; filter_extensions := ["*"] |} ].
Proof. reflexivity. Qed.

Example crumbs_of_nested_folder :
  crumbs_of "Assets/Objects/Trees" "" "" "Assets/Objects/Trees"
  = [("Assets", "Assets"); ("Objects", "Assets/Objects"); ("Trees", "Assets/Objects/Trees")].
Proof. reflexivity. Qed.

Example OnDelete_declined :
  Forall (fun c => is_delete c = false) (calls (OnDelete [4096; 8192]) Samples.world)
  ∧ length (calls (OnDelete [4096; 8192]) Samples.world) = 1%nat.
Proof. split; [repeat constructor | reflexivity]. Qed.

Example OnDelete_confirmed_with_dependencies :
  ∃ dialog, calls (OnDelete [4096]) (Samples.world_with true true [] false [])
            = [dialog; CAssetManager_DeleteAssetsWithFiles [4096]]
            ∧ is_reverse_dependencies_dialog dialog = true.
Proof. eexists. split; reflexivity. Qed.

Example edit_confirmed :
  ∃ dialog, calls (@QAssetDetailsView_edit Samples.conversions Samples.rowTypes Samples.assetRow 2 true)
                  (Samples.world_with false true [] false [])
            = [dialog; Base_edit DetailsView Samples.assetRow 2 true]
            ∧ is_question dialog = true.
Proof. eexists. split; reflexivity. Qed.

(** A folder row, and an edit whose trigger is not enabled, go straight to
    the inherited edit. *)
Example edit_folder_row :
  calls (@QAssetDetailsView_edit Samples.conversions Samples.rowTypes Samples.folderRow 2 true) Samples.world
  = [Base_edit DetailsView Samples.folderRow 2 true]
  ∧ calls (@QAssetDetailsView_edit Samples.conversions Samples.rowTypes Samples.assetRow 4 true) Samples.world
    = [Base_edit DetailsView Samples.assetRow 4 true].
Proof. split; reflexivity. Qed.

Example OnImport_not_importable :
  last (calls OnImport (Samples.world_with false false ["D:/in/tree.xyz"] false []))
  = Some (CryWarning "Cannot import file 'D:/in/tree.xyz'.").
Proof. reflexivity. Qed.

Example OnImport_importable :
  last (calls OnImport (Samples.world_with false false ["D:/in/tree.fbx"; "D:/in/rock.fbx"] true ["Assets/Objects"]))
  = Some (ThreadingUtils_AsyncFinalize
            (Task_Import ["D:/in/tree.fbx"; "D:/in/rock.fbx"] {| outputDirectory := "Assets/Objects" |})
            Finalize_MergeAssets).
Proof. reflexivity. Qed.

Example TouchVisibleAssets_twenty_rows :
  examined <$> (TouchVisibleAssets Samples.thumbnails 3).1
  = [[8; 7; 6; 5; 4; 3; 2; 1; 0]; [17; 16; 15; 14; 13; 12; 11; 10; 9]; [19; 18]].
Proof. reflexivity. Qed.

(** With INT_MAX rows the call that starts at the last row computes
    [start + 8] past INT_MAX: it visits no row and posts a continuation at a
    negative row. *)
Example TouchVisibleAssetsBatched_past_INT_MAX :
  examined (TouchVisibleAssetsBatched Samples.full_thumbnails 2147483646) = []
  ∧ scheduled (TouchVisibleAssetsBatched Samples.full_thumbnails 2147483646) = Some (-2147483641).
Proof. split; reflexivity. Qed.

Example navigation_back_and_forward :
  match @run_events Samples.widgets Samples.announced_forward Samples.browser with
  | inr b =>
      m_navigationHistory b = [["Assets/Objects"]; ["Assets/Textures"]]
      ∧ m_navigationIndex b = 1
      ∧ m_backButton b = true
      ∧ m_forwardButton b = false
      ∧ folders_requests (m_foldersView b)
        = [SelectFolders ["Assets/Objects"]; SelectFolders ["Assets/Textures"]]
  | inl _ => False
  end.
Proof. vm_compute. repeat split. Qed.

(** ** The sort proxy *)

Section SortProxy.
Context `{Conversions} `{EAssetModelRowType} `{QAttributeFilterProxyModel}.

Lemma IsAsset_GetType index :
  IsAsset index = true -> GetType index = eAssetModelRow_Asset.
Proof.
  unfold IsAsset, GetType. destruct (toUInt _) as [v ok]; simpl.
  intros [Hv _]%andb_true_iff. lia.
Qed.

Lemma IsFolder_GetType index :
  IsFolder index = true -> GetType index = eAssetModelRow_Folder.
Proof.
  unfold IsFolder, GetType. destruct (toUInt _) as [v ok]; simpl.
  intros [Hv _]%andb_true_iff. lia.
Qed.

Lemma lessThan_mixed left right :
  GetType left ≠ GetType right ->
  lessThan left right = (GetType left =? eAssetModelRow_Folder).
Proof.
  unfold lessThan, GetType. intros Hne.
  destruct (Z.eqb_spec (toUInt (data left TypeCheckRole)).1 (toUInt (data right TypeCheckRole)).1);
    [contradiction | reflexivity].
Qed.

(** A row that is not "less than" the folder row right after it is itself of
    folder type. *)
Lemma before_folder a f :
  lessThan f a = false -> GetType f = eAssetModelRow_Folder -> GetType a = eAssetModelRow_Folder.
Proof.
  intros Hlt Hf.
  destruct (decide (GetType f = GetType a)) as [Heq | Hne]; [congruence |].
  rewrite (lessThan_mixed _ _ Hne), Hf, Z.eqb_refl in Hlt. discriminate.
Qed.

Lemma head_of_sorted_is_folder a rows f :
  Sorted (fun x y => lessThan y x = false) (a :: rows) ->
  f ∈ rows -> GetType f = eAssetModelRow_Folder ->
  GetType a = eAssetModelRow_Folder.
Proof.
  revert a. induction rows as [| r rows IH]; intros a Hsorted Hin Hf.
  - by apply elem_of_nil in Hin.
  - apply Sorted_inv in Hsorted as [Htail Hhd].
    apply HdRel_inv in Hhd.
    apply (before_folder a r Hhd).
    apply elem_of_cons in Hin as [-> | Hin]; [done |].
    by apply IH.
Qed.

Lemma folders_form_a_prefix rows :
  Sorted (fun x y => lessThan y x = false) rows ->
  forall (i j : nat) a f,
    rows !! i = Some a -> rows !! j = Some f -> (i < j)%nat ->
    GetType f = eAssetModelRow_Folder -> GetType a = eAssetModelRow_Folder.
Proof.
  induction rows as [| r rows IH]; intros Hsorted i j a f Hi Hj Hlt Hf.
  - by rewrite lookup_nil in Hi.
  - destruct j as [| j]; [lia |]. simpl in Hj.
    destruct i as [| i]; simpl in Hi.
    + injection Hi as ->.
      eapply head_of_sorted_is_folder; [exact Hsorted | | exact Hf].
      by eapply list_elem_of_lookup_2.
    + apply Sorted_inv in Hsorted as [Htail _].
      eapply (IH Htail i j); eauto. lia.
Qed.

(** C1.  When one of the two compared rows is a folder and the other an asset,
    lessThan answers true exactly when the left row is the folder, whatever
    the data of the sorted column; consequently, in a list of rows arranged
    in ascending order (no row is "less than" its predecessor) no asset
    stands in front of a folder. *)
Theorem lessThan_folders_before_assets :
  eAssetModelRow_Asset ≠ eAssetModelRow_Folder ->
  (forall left right,
      (IsFolder left = true ∧ IsAsset right = true) ∨
      (IsAsset left = true ∧ IsFolder right = true) ->
      lessThan left right = IsFolder left) ∧
  (forall rows : list QModelIndex,
      Sorted (fun x y => lessThan y x = false) rows ->
      forall (i j : nat) a f,
        rows !! i = Some a -> rows !! j = Some f ->
        IsAsset a = true -> IsFolder f = true -> (j < i)%nat).
Proof.
  intros Hdistinct. split.
  - intros left right [[Hl Hr] | [Hl Hr]].
    + rewrite Hl.
      pose proof (IsFolder_GetType _ Hl) as Htl.
      pose proof (IsAsset_GetType _ Hr) as Htr.
      rewrite lessThan_mixed by congruence.
      rewrite Htl. apply Z.eqb_refl.
    + pose proof (IsAsset_GetType _ Hl) as Htl.
      pose proof (IsFolder_GetType _ Hr) as Htr.
      rewrite lessThan_mixed by congruence.
      rewrite Htl.
      destruct (IsFolder left) eqn:Hf.
      * apply IsFolder_GetType in Hf. congruence.
      * by apply Z.eqb_neq.
  - intros rows Hsorted i j a f Hi Hj Ha Hf.
    apply IsAsset_GetType in Ha. apply IsFolder_GetType in Hf.
    destruct (decide (i < j)%nat) as [Hlt | Hge].
    + pose proof (folders_form_a_prefix rows Hsorted i j a f Hi Hj Hlt Hf). congruence.
    + destruct (decide (i = j)) as [-> | Hne]; [| lia].
      rewrite Hi in Hj. injection Hj as ->. congruence.
Qed.

End SortProxy.

Lemma lessThan_folders_before_assets_witness :
  @lessThan Samples.conversions Samples.rowTypes Samples.proxy Samples.folderRow Samples.assetRow
  = @IsFolder Samples.conversions Samples.rowTypes Samples.folderRow.
Proof.
  apply (proj1 (@lessThan_folders_before_assets Samples.conversions Samples.rowTypes Samples.proxy
                  ltac:(vm_compute; discriminate))).
  left. split; reflexivity.
Defined.

(** ** Confirmation in front of delete and rename *)

(** C2.  OnDelete first shows a confirmation dialog: the reverse-dependencies
    dialog when the asset manager reports reverse dependencies for the assets,
    the plain question otherwise.  DeleteAssetsWithFiles is called, after the
    dialog, exactly when the user confirms; when the user declines nothing is
    deleted and nothing else happens. *)
Theorem OnDelete_confirmation (w : World) (assets : list Z) :
  ∃ dialog,
    is_confirmation dialog = true ∧
    is_reverse_dependencies_dialog dialog = HasAnyReverseDependencies w assets ∧
    is_question dialog = negb (HasAnyReverseDependencies w assets) ∧
    calls (OnDelete assets) w =
      dialog :: (if confirms w dialog then [CAssetManager_DeleteAssetsWithFiles assets] else []) ∧
    (CAssetManager_DeleteAssetsWithFiles assets ∈ calls (OnDelete assets) w ↔ confirms w dialog = true) ∧
    (confirms w dialog = false ->
       calls (OnDelete assets) w = [dialog] ∧
       Forall (fun c => is_delete c = false) (calls (OnDelete assets) w)).
Proof.
  destruct (calls (OnDelete assets) w) as [| dialog rest] eqn:Hlog;
    unfold calls, run, OnDelete, mbind, M_bind, ask, call, call_, mret, M_ret in Hlog;
    destruct (HasAnyReverseDependencies w assets) eqn:Hdeps; simpl in Hlog.
  - by destruct (ReverseDependenciesDialog_result w assets).
  - by case_bool_decide.
  - exists dialog.
    destruct (ReverseDependenciesDialog_result w assets) eqn:Hexec;
      simpl in Hlog; injection Hlog as <- <-; simpl; rewrite Hexec;
      (split; [reflexivity |]); (split; [reflexivity |]); (split; [reflexivity |]);
      (split; [reflexivity |]).
    + split; [| discriminate]. split; [done |]. intros _. set_solver.
    + split.
      * split; [| discriminate]. intros Hin. apply list_elem_of_singleton in Hin. discriminate.
      * intros _. split; [reflexivity |]. repeat constructor.
  - exists dialog.
    case_bool_decide as Hyes;
      simpl in Hlog; injection Hlog as <- <-; simpl;
      (split; [reflexivity |]); (split; [reflexivity |]); (split; [reflexivity |]);
      case_bool_decide; try contradiction;
      (split; [reflexivity |]).
    + split; [| discriminate]. split; [done |]. intros _. set_solver.
    + split.
      * split; [| discriminate]. intros Hin. apply list_elem_of_singleton in Hin. discriminate.
      * intros _. split; [reflexivity |]. repeat constructor.
Qed.

Section Rename.
Context `{Conversions} `{EAssetModelRowType}.

Lemma UserConfirmsRenaming_run (w : World) (asset : Z) :
  ∃ dialog,
    is_confirmation dialog = true ∧
    is_reverse_dependencies_dialog dialog = HasAnyReverseDependencies w [asset] ∧
    is_question dialog = negb (HasAnyReverseDependencies w [asset]) ∧
    forall log, UserConfirmsRenaming asset w log = (confirms w dialog, log ++ [dialog]).
Proof.
  unfold UserConfirmsRenaming, mbind, M_bind, ask, call, mret, M_ret.
  destruct (HasAnyReverseDependencies w [asset]) eqn:Hdeps.
  - match goal with
    | |- context [ CAssetReverseDependenciesDialog_Execute ?a ?t1 ?t2 ?t3 ?q ?t ] =>
        exists (CAssetReverseDependenciesDialog_Execute a t1 t2 t3 q t)
    end.
    split; [reflexivity |]. split; [reflexivity |]. split; [reflexivity |].
    intros log. simpl. by destruct (ReverseDependenciesDialog_result w [asset]).
  - match goal with
    | |- context [ CQuestionDialog_SQuestion ?t ?q ] => exists (CQuestionDialog_SQuestion t q)
    end.
    split; [reflexivity |]. split; [reflexivity |]. split; [reflexivity |].
    intros log. simpl. destruct (SQuestion_result w _ _); reflexivity.
Qed.

(** C3.  An in-place rename attempt on an asset row of the details or the
    thumbnail view (an edit with an enabled trigger on a valid index whose row
    is an asset with an asset object behind it) first consults
    UserConfirmsRenaming, which shows the reverse-dependencies dialog when the
    asset has reverse dependencies and the plain question otherwise.  When
    the user declines, the override accepts the event (if there is one),
    returns true and never calls the inherited edit, so no editor is started;
    when the user agrees, the inherited edit runs. *)
Theorem edit_asks_before_renaming (w : World) (view : ViewKind) (index : QModelIndex) (trigger : Z) (pEvent : bool) :
  Z.land (editTriggers w view) trigger ≠ 0 ->
  index_isValid index = true ->
  IsAsset index = true ->
  ToAsset index ≠ 0 ->
  ∃ dialog,
    is_confirmation dialog = true ∧
    is_reverse_dependencies_dialog dialog = HasAnyReverseDependencies w [ToAsset index] ∧
    is_question dialog = negb (HasAnyReverseDependencies w [ToAsset index]) ∧
    run (UserConfirmsRenaming (ToAsset index)) w = (confirms w dialog, [dialog]) ∧
    head (calls (edit view index trigger pEvent) w) = Some dialog ∧
    (confirms w dialog = false ->
       result (edit view index trigger pEvent) w = true ∧
       calls (edit view index trigger pEvent) w = dialog :: (if pEvent then [QEvent_accept] else []) ∧
       Forall (fun c => is_base_edit c = false) (calls (edit view index trigger pEvent) w)) ∧
    (confirms w dialog = true ->
       result (edit view index trigger pEvent) w = Base_edit_result w view index trigger pEvent ∧
       calls (edit view index trigger pEvent) w = [dialog; Base_edit view index trigger pEvent]).
Proof.
  intros Htrigger Hvalid Hasset Hptr.
  destruct (UserConfirmsRenaming_run w (ToAsset index)) as (dialog & Hc & Hr & Hq & Hrun).
  exists dialog. split; [done |]. split; [done |]. split; [done |].
  split; [unfold run; by rewrite Hrun |].
  assert (Hguard : negb (Z.land (editTriggers w view) trigger =? 0) && index_isValid index && IsAsset index = true).
  { rewrite Hvalid, Hasset, !andb_true_r. apply negb_true_iff. by apply Z.eqb_neq. }
  assert (Hnonnull : negb (ToAsset index =? 0) = true).
  { apply negb_true_iff. by apply Z.eqb_neq. }
  unfold calls, result, run, edit, mbind, M_bind, ask, call, call_, when, mret, M_ret.
  rewrite Hguard, Hnonnull, Hrun. simpl.
  destruct (confirms w dialog) eqn:Hconfirms; simpl.
  - split; [reflexivity |]. split; [discriminate |]. intros _. split; reflexivity.
  - destruct pEvent; simpl.
    + split; [reflexivity |]. split; [| discriminate].
      intros _. split; [reflexivity |]. split; [reflexivity |].
      constructor; [by destruct dialog | repeat constructor].
    + split; [reflexivity |]. split; [| discriminate].
      intros _. split; [reflexivity |]. split; [reflexivity |].
      constructor; [by destruct dialog | constructor].
Qed.

End Rename.

Lemma edit_asks_before_renaming_witness :
  result (@QAssetDetailsView_edit Samples.conversions Samples.rowTypes Samples.assetRow 2 true) Samples.world = true
  ∧ result (@CThumbnailsInternalView_edit Samples.conversions Samples.rowTypes Samples.assetRow 2 true) Samples.world = true.
Proof.
  split.
  - destruct (@edit_asks_before_renaming Samples.conversions Samples.rowTypes Samples.world
                DetailsView Samples.assetRow 2 true)
      as (dialog & _ & _ & Hq & Hrun & _ & Hdeclined & _);
      [vm_compute; discriminate | reflexivity | reflexivity | vm_compute; discriminate |].
    apply Hdeclined.
    injection Hrun as Hconfirms _. rewrite <- Hconfirms. reflexivity.
  - reflexivity.
Defined.

(** ** Import *)

(** C9.  OnImport never imports on a failure path.  Without registered
    importers it shows the warning dialog and returns before any file dialog is
    opened.  When the picked files cannot be imported it logs a warning that
    starts with "Cannot import file" and no import takes place.  When they can,
    OnImport itself neither imports nor merges: it hands the import, as a task,
    and the merge into the asset manager, as the finalizer, to
    ThreadingUtils::AsyncFinalize; the task calls CAssetDropHandler::Import on
    the picked files and the finalizer passes its argument to MergeAssets. *)
Theorem OnImport_failure_paths (w : World) :
  let log := calls OnImport w in
  let filePaths := RunImportMultipleFiles_result w (import_runParams w) in
  (GetAssetImporters w = [] ->
     (∃ what, log = [CQuestionDialog_SWarning "No importers registered" what]) ∧
     Forall (fun c => is_file_dialog c = false) log ∧
     Forall (fun c => is_import_activity c = false) log) ∧
  (GetAssetImporters w ≠ [] ->
     head log = Some (CSystemFileDialog_RunImportMultipleFiles (import_runParams w)) ∧
     (filePaths = [] -> log = [CSystemFileDialog_RunImportMultipleFiles (import_runParams w)]) ∧
     (filePaths ≠ [] -> CanImportAny w filePaths = false ->
        (∃ message, last log = Some (CryWarning message) ∧
                    String.prefix "Cannot import file" message = true) ∧
        Forall (fun c => is_import_activity c = false) log) ∧
     (filePaths ≠ [] -> CanImportAny w filePaths = true ->
        (∃ importParams,
            last log = Some (ThreadingUtils_AsyncFinalize (Task_Import filePaths importParams) Finalize_MergeAssets) ∧
            run (run_task (Task_Import filePaths importParams)) w
              = (Import_result w filePaths importParams, [CAssetDropHandler_Import filePaths importParams])) ∧
        Forall (fun c => is_synchronous_import c = false) log ∧
        (forall assets, calls (run_finalizer Finalize_MergeAssets assets) w = [CAssetManager_MergeAssets assets]))) ∧
  (Exists (fun c => is_import_activity c = true) log ->
     GetAssetImporters w ≠ [] ∧ filePaths ≠ [] ∧ CanImportAny w filePaths = true).
Proof.
  cbv zeta.
  unfold calls, run, OnImport, mbind, M_bind, ask, call_, call, mret, M_ret.
  destruct (GetAssetImporters w) as [| importer importers] eqn:Himporters.
  - simpl. split; [| split].
    + intros _. split; [by eexists |]. split; repeat constructor.
    + intros Hne. contradiction.
    + intros Hex. apply Exists_cons in Hex as [Hex | Hex]; [discriminate | by apply Exists_nil in Hex].
  - replace (Z.of_nat (length (importer :: importers)) =? 0) with false
      by (symmetry; apply Z.eqb_neq; simpl; lia).
    simpl.
    destruct (RunImportMultipleFiles_result w (import_runParams w)) as [| front others] eqn:Hfiles; simpl.
    + split; [| split].
      * discriminate.
      * intros _. split; [reflexivity |]. split; [reflexivity |].
        split; [intros Hne; contradiction |]. intros Hne; contradiction.
      * intros Hex. apply Exists_cons in Hex as [Hex | Hex]; [discriminate | by apply Exists_nil in Hex].
    + destruct (CanImportAny w (front :: others)) eqn:Hcan; simpl.
      * split; [discriminate |]. split.
        -- intros _. split; [reflexivity |]. split; [discriminate |].
           split; [discriminate |]. intros _ _.
           split; [eexists; split; reflexivity |].
           split; [repeat constructor | reflexivity].
        -- intros _. split; [discriminate |]. split; [discriminate | reflexivity].
      * destruct (1 <? Z.of_nat (S (length others))); simpl;
          (split; [discriminate |]); split.
        -- intros _. split; [reflexivity |]. split; [discriminate |].
           split; [| discriminate]. intros _ _.
           split; [eexists; split; reflexivity | repeat constructor].
        -- intros Hex. exfalso.
           repeat (apply Exists_cons in Hex as [Hex | Hex]; [discriminate |]).
           by apply Exists_nil in Hex.
        -- intros _. split; [reflexivity |]. split; [discriminate |].
           split; [| discriminate]. intros _ _.
           split; [eexists; split; reflexivity | repeat constructor].
        -- intros Hex. exfalso.
           repeat (apply Exists_cons in Hex as [Hex | Hex]; [discriminate |]).
           by apply Exists_nil in Hex.
Qed.

Lemma OnImport_failure_paths_witness :
  Forall (fun c => is_import_activity c = false)
         (calls OnImport (Samples.world_with false false ["D:/in/tree.xyz"] false [])).
Proof.
  apply (OnImport_failure_paths (Samples.world_with false false ["D:/in/tree.xyz"] false []));
    [discriminate | discriminate | reflexivity].
Defined.

(** ** Batched refresh of the visible thumbnails *)

Lemma wrap_int_small z : INT_MIN <= z <= INT_MAX -> wrap_int z = z.
Proof.
  unfold INT_MIN, INT_MAX, wrap_int. intros Hz.
  rewrite Z.mod_small by lia. lia.
Qed.

Lemma reverse_rows_downto last first :
  reverse (rows_downto last first) = seqZ first (last - first + 1).
Proof. unfold rows_downto. apply reverse_involutive. Qed.

Section Batches.
Variable view : CThumbnailsInternalView.
Hypothesis view_hasModel : hasModel view = true.
Hypothesis view_rowCount : 0 <= rowCount view < INT_MAX.

(** What one call does when its start row lies in the model and [start + 8]
    is an [int]. *)
Lemma TouchVisibleAssetsBatched_spec first :
  0 <= first -> first + 8 <= INT_MAX ->
  let last := Z.min (rowCount view - 1) (first + 8) in
  TouchVisibleAssetsBatched view first =
    {| batch_first := first;
       examined := rows_downto last first;
       touched := omap (touch_row view) (rows_downto last first);
       scheduled := if last <? rowCount view - 1 then Some (last + 1) else None |}.
Proof.
  intros Hfirst Hmax last. unfold TouchVisibleAssetsBatched.
  rewrite view_hasModel. simpl.
  unfold INT_MAX in *.
  destruct (Z.eqb_spec (rowCount view) 0) as [Hzero | Hpos].
  - subst last. rewrite Hzero. unfold rows_downto.
    replace (Z.min (0 - 1) (first + 8)) with (-1) by lia.
    assert (Hnil : seqZ first (-1 - first + 1) = []).
    { unfold seqZ. replace (Z.to_nat (-1 - first + 1)) with 0%nat by lia. reflexivity. }
    rewrite Hnil. reflexivity.
  - change batchSize with 8.
    rewrite (wrap_int_small (rowCount view - 1)) by (unfold INT_MIN, INT_MAX; lia).
    rewrite (wrap_int_small (first + 8)) by (unfold INT_MIN, INT_MAX; lia).
    fold last.
    rewrite (wrap_int_small (last + 1)) by (unfold INT_MIN, INT_MAX; lia).
    reflexivity.
Qed.

Lemma deliverTimers_chained fuel first batches :
  deliverTimers view fuel first = (batches, true) ->
  chained first batches ∧
  Forall (fun batch => batch = TouchVisibleAssetsBatched view (batch_first batch)) batches ∧
  (length batches <= fuel)%nat.
Proof.
  revert first batches. induction fuel as [| fuel IH]; intros first batches Hrun; simpl in Hrun.
  - discriminate.
  - destruct (scheduled (TouchVisibleAssetsBatched view first)) as [next |] eqn:Hnext.
    + destruct (deliverTimers view fuel next) as [rest finished] eqn:Hrest.
      injection Hrun as <- ->.
      destruct (IH _ _ Hrest) as (Hchain & Hall & Hlen).
      assert (Hfirst : batch_first (TouchVisibleAssetsBatched view first) = first).
      { unfold TouchVisibleAssetsBatched. by destruct (_ || _). }
      split; [| split].
      * simpl. split; [done |]. destruct rest; [done |]. by exists next.
      * constructor; [by rewrite Hfirst | done].
      * simpl. lia.
    + injection Hrun as <-.
      assert (Hfirst : batch_first (TouchVisibleAssetsBatched view first) = first).
      { unfold TouchVisibleAssetsBatched. by destruct (_ || _). }
      split; [| split].
      * simpl. done.
      * constructor; [by rewrite Hfirst | constructor].
      * simpl. lia.
Qed.

(** The chain from a multiple of nine that lies in the model. *)
Lemma deliverTimers_from (fuel : nat) (q : Z) :
  0 <= 9 * q <= rowCount view - 1 ->
  rowCount view - 9 * q <= 9 * Z.of_nat fuel ->
  ∃ batches,
    deliverTimers view fuel (9 * q) = (batches, true) ∧
    concat ((fun batch => reverse (examined batch)) <$> batches)
      = seqZ (9 * q) (rowCount view - 9 * q) ∧
    Forall (fun batch =>
              let last := Z.min (rowCount view - 1) (batch_first batch + 8) in
              0 <= batch_first batch ∧
              examined batch = rows_downto last (batch_first batch) ∧
              scheduled batch = (if last <? rowCount view - 1 then Some (last + 1) else None))
           batches.
Proof.
  revert q. induction fuel as [| fuel IH]; intros q Hq Hfuel.
  - lia.
  - assert (Hmax : 9 * q + 8 <= INT_MAX) by (unfold INT_MAX in *; lia).
    pose proof (TouchVisibleAssetsBatched_spec (9 * q) ltac:(lia) Hmax) as Hspec.
    cbv zeta in Hspec. simpl deliverTimers. rewrite Hspec. cbn [scheduled].
    destruct (Z.ltb_spec (Z.min (rowCount view - 1) (9 * q + 8)) (rowCount view - 1)) as [Hmore | Hdone].
    + assert (Hmin : Z.min (rowCount view - 1) (9 * q + 8) = 9 * q + 8) by lia.
      rewrite Hmin in *.
      replace (9 * q + 8 + 1) with (9 * (q + 1)) by lia.
      destruct (IH (q + 1)) as (rest & Hrest & Hrows & Hall); [lia | lia |].
      rewrite Hrest. eexists. split; [reflexivity |]. split.
      * rewrite fmap_cons, concat_cons. cbn [examined].
        rewrite reverse_rows_downto, Hrows.
        replace (9 * q + 8 - 9 * q + 1) with 9 by lia.
        assert (Hsplit : rowCount view - 9 * q = 9 + (rowCount view - 9 * (q + 1))) by lia.
        rewrite Hsplit, seqZ_app by lia. f_equal. f_equal. lia.
      * constructor; [| done]. cbn [batch_first examined scheduled].
        rewrite Hmin.
        split; [lia |]. split; [reflexivity |].
        destruct (Z.ltb_spec (9 * q + 8) (rowCount view - 1)); [f_equal; lia | lia].
    + assert (Hmin : Z.min (rowCount view - 1) (9 * q + 8) = rowCount view - 1) by lia.
      rewrite Hmin in *.
      eexists. split; [reflexivity |]. split.
      * rewrite fmap_cons, concat_cons. cbn [examined fmap list_fmap concat].
        rewrite app_nil_r, reverse_rows_downto. f_equal. lia.
      * constructor; [| constructor]. cbn [batch_first examined scheduled].
        rewrite Hmin.
        split; [lia |]. split; [reflexivity |].
        destruct (Z.ltb_spec (rowCount view - 1) (rowCount view - 1)); [lia | reflexivity].
Qed.

End Batches.

Lemma concat_reverse_Permutation {A} (ls : list (list A)) :
  concat ls ≡ₚ concat (reverse <$> ls).
Proof.
  induction ls as [| l ls IH]; [done |].
  rewrite fmap_cons, !concat_cons. by rewrite IH, reverse_Permutation.
Qed.

(** C10, as the code has it.  For a model of n rows, 0 <= n < INT_MAX, the
    chain of TouchVisibleAssetsBatched calls started by TouchVisibleAssets
    ends after finitely many batches (at most n/9 + 1) and examines every row
    0..n-1 exactly once.  Each call visits the
    rows from its start up to min(last row, start + 8); when rows remain it
    posts exactly one continuation, which starts right after the last row it
    visited, so every call of the chain starts strictly further than the one
    before. *)
Theorem TouchVisibleAssets_examines_each_row_once (view : CThumbnailsInternalView) :
  hasModel view = true ->
  0 <= rowCount view < INT_MAX ->
  ∃ (fuel : nat) (batches : list Batch),
    TouchVisibleAssets view fuel = (batches, true) ∧
    chained 0 batches ∧
    concat (examined <$> batches) ≡ₚ seqZ 0 (rowCount view) ∧
    concat ((fun batch => reverse (examined batch)) <$> batches) = seqZ 0 (rowCount view) ∧
    Forall (fun batch =>
              let last := Z.min (rowCount view - 1) (batch_first batch + 8) in
              batch = TouchVisibleAssetsBatched view (batch_first batch) ∧
              examined batch = rows_downto last (batch_first batch) ∧
              scheduled batch = (if last <? rowCount view - 1 then Some (last + 1) else None) ∧
              (forall next, scheduled batch = Some next ->
                            batch_first batch < next <= rowCount view - 1))
           batches ∧
    (length batches <= fuel)%nat ∧
    Z.of_nat fuel = rowCount view / 9 + 1.
Proof.
  intros Hmodel Hrows.
  exists (Z.to_nat (rowCount view / 9 + 1)).
  assert (Hdiv : 0 <= rowCount view / 9) by (apply Z.div_pos; lia).
  assert (Hfuel : Z.of_nat (Z.to_nat (rowCount view / 9 + 1)) = rowCount view / 9 + 1) by lia.
  assert (Hrun : ∃ batches,
             deliverTimers view (Z.to_nat (rowCount view / 9 + 1)) 0 = (batches, true) ∧
             concat ((fun batch => reverse (examined batch)) <$> batches) = seqZ 0 (rowCount view) ∧
             Forall (fun batch =>
                       let last := Z.min (rowCount view - 1) (batch_first batch + 8) in
                       0 <= batch_first batch ∧
                       examined batch = rows_downto last (batch_first batch) ∧
                       scheduled batch = (if last <? rowCount view - 1 then Some (last + 1) else None))
                    batches).
  { destruct (decide (rowCount view = 0)) as [Hzero | Hpos].
    - rewrite Hzero. change (Z.to_nat (0 / 9 + 1)) with 1%nat. simpl.
      pose proof (TouchVisibleAssetsBatched_spec view Hmodel Hrows 0 ltac:(lia) ltac:(unfold INT_MAX; lia)) as Hspec.
      cbv zeta in Hspec. rewrite Hzero in Hspec. rewrite Hspec. simpl.
      eexists. split; [reflexivity |]. split; [reflexivity |].
      constructor; [| constructor]. simpl. done.
    - destruct (deliverTimers_from view Hmodel Hrows (Z.to_nat (rowCount view / 9 + 1)) 0)
        as (batches & Hchain & Hcover & Hall).
      + lia.
      + rewrite Hfuel. pose proof (Z.mul_succ_div_gt (rowCount view) 9 ltac:(lia)). lia.
      + exists batches. change (9 * 0) with 0 in *. rewrite Z.sub_0_r in Hcover. done. }
  destruct Hrun as (batches & Hchain & Hcover & Hall).
  exists batches.
  destruct (deliverTimers_chained view _ _ _ Hchain) as (Hlinked & Hcalls & Hlen).
  split; [exact Hchain |]. split; [exact Hlinked |]. split.
  { rewrite <- Hcover. rewrite (concat_reverse_Permutation (examined <$> batches)).
    by rewrite <- list_fmap_compose. }
  split; [exact Hcover |]. split; [| split; [exact Hlen | exact Hfuel]].
  apply Forall_forall. intros batch Hin.
  rewrite Forall_forall in Hall, Hcalls.
  destruct (Hall batch Hin) as (Hfirst & Hexamined & Hscheduled).
  cbv zeta. split; [by apply Hcalls |]. split; [exact Hexamined |]. split; [exact Hscheduled |].
  intros next Hnext. rewrite Hscheduled in Hnext.
  destruct (Z.ltb_spec (Z.min (rowCount view - 1) (batch_first batch + 8)) (rowCount view - 1));
    [injection Hnext as <-; lia | discriminate].
Qed.

Lemma TouchVisibleAssets_examines_each_row_once_witness :
  ∃ batches,
    TouchVisibleAssets Samples.thumbnails 3 = (batches, true) ∧
    concat (examined <$> batches) ≡ₚ seqZ 0 20.
Proof.
  destruct (TouchVisibleAssets_examines_each_row_once Samples.thumbnails)
    as (fuel & batches & Hrun & _ & Hperm & _ & _ & _ & Hfuel);
    [reflexivity | vm_compute; split; [discriminate | reflexivity] |].
  replace fuel with 3%nat in Hrun by (change (Z.of_nat fuel = 3) in Hfuel; lia).
  exists batches. split; [exact Hrun | exact Hperm].
Defined.

(** With INT_MAX rows a call that starts at least nine rows before the last
    one posts the call nine rows further. *)
Lemma TouchVisibleAssetsBatched_INT_MAX_rows_next (view : CThumbnailsInternalView) (start : Z) :
  hasModel view = true -> rowCount view = INT_MAX ->
  0 <= start <= 2147483646 - 9 ->
  scheduled (TouchVisibleAssetsBatched view start) = Some (start + 9).
Proof.
  intros Hmodel Hrows Hstart. unfold TouchVisibleAssetsBatched.
  rewrite Hmodel, Hrows. cbn [negb orb].
  change (INT_MAX =? 0) with false. cbv iota. cbn [scheduled].
  change (wrap_int (INT_MAX - 1)) with 2147483646.
  change batchSize with 8.
  rewrite wrap_int_small by (unfold INT_MIN, INT_MAX; lia).
  rewrite Z.min_r by lia.
  destruct (Z.ltb_spec (start + 8) 2147483646) as [_ | Hge]; [| lia].
  rewrite wrap_int_small by (unfold INT_MIN, INT_MAX; lia).
  f_equal. lia.
Qed.

(** With INT_MAX rows the chain started at a row a multiple of nine before
    the last row gets to the call that starts at the last row. *)
Lemma deliverTimers_INT_MAX_rows_reaches_the_last_row (view : CThumbnailsInternalView) :
  hasModel view = true -> rowCount view = INT_MAX ->
  forall (k fuel : nat) (start : Z),
    0 <= start -> start + 9 * Z.of_nat k = 2147483646 -> (k < fuel)%nat ->
    (deliverTimers view fuel start).1 !! k = Some (TouchVisibleAssetsBatched view 2147483646).
Proof.
  intros Hmodel Hrows. induction k as [| k IH]; intros fuel start Hstart Hsum Hfuel.
  - destruct fuel as [| fuel]; [lia |]. cbn [deliverTimers].
    replace start with 2147483646 by lia.
    destruct (scheduled (TouchVisibleAssetsBatched view 2147483646)); [| done].
    by destruct (deliverTimers view fuel z).
  - destruct fuel as [| fuel]; [lia |]. cbn [deliverTimers].
    rewrite TouchVisibleAssetsBatched_INT_MAX_rows_next by (try done; lia).
    specialize (IH fuel (start + 9) ltac:(lia) ltac:(lia) ltac:(lia)).
    by destruct (deliverTimers view fuel (start + 9)).
Qed.

(** C10 as the claim states it fails for a model of INT_MAX rows.  The chain
    started by TouchVisibleAssets gets, in its call number 238609294
    (counted from 0), to the last row, 2147483646.  There [start + 8] does not
    fit an int: the call examines no row, although the claim has it process
    rows [start] to min(last row, start + 8) = 2147483646, and the
    continuation it posts starts at a negative row, far before the rows
    already examined, instead of after the last one processed. *)
Lemma TouchVisibleAssets_INT_MAX_rows_loses_the_last_row :
  let view := Samples.full_thumbnails in
  let call := Z.to_nat 238609294 in
  hasModel view = true ∧
  rowCount view = INT_MAX ∧
  (TouchVisibleAssets view (S call)).1 !! call = Some (TouchVisibleAssetsBatched view 2147483646) ∧
  Z.min (rowCount view - 1) (2147483646 + 8) = 2147483646 ∧
  examined (TouchVisibleAssetsBatched view 2147483646) = [] ∧
  scheduled (TouchVisibleAssetsBatched view 2147483646) = Some (-2147483641).
Proof.
  cbv zeta. split; [reflexivity |]. split; [reflexivity |].
  split; [| split; [reflexivity | split; reflexivity]].
  unfold TouchVisibleAssets.
  apply deliverTimers_INT_MAX_rows_reaches_the_last_row; [reflexivity | reflexivity | lia | lia | lia].
Qed.

(** ** Navigation buttons *)

(** C6.  After UpdateNavigation the back button is enabled exactly when the
    history is not empty and the index is above -1, and the forward button
    exactly when the history is not empty and the index is below the last
    position.  With clearHistory set the history is emptied, the index is -1
    and both buttons are disabled; without it history and index are left as
    they were. *)
Theorem UpdateNavigation_buttons (clearHistory : bool) (b : CAssetBrowser) :
  let b' := UpdateNavigation clearHistory b in
  (m_backButton b' = true ↔
     m_navigationHistory b' ≠ [] ∧ -1 < m_navigationIndex b') ∧
  (m_forwardButton b' = true ↔
     m_navigationHistory b' ≠ [] ∧
     m_navigationIndex b' < Z.of_nat (length (m_navigationHistory b')) - 1) ∧
  (m_navigationHistory (UpdateNavigation true b) = [] ∧
   m_navigationIndex (UpdateNavigation true b) = -1 ∧
   m_backButton (UpdateNavigation true b) = false ∧
   m_forwardButton (UpdateNavigation true b) = false) ∧
  (m_navigationHistory (UpdateNavigation false b) = m_navigationHistory b ∧
   m_navigationIndex (UpdateNavigation false b) = m_navigationIndex b).
Proof.
  cbv zeta. split; [| split; [| split]].
  - unfold UpdateNavigation, count. destruct clearHistory; simpl.
    + split; [discriminate | intros [Hne _]; contradiction].
    + rewrite andb_true_iff, !Z.ltb_lt. split.
      * intros [Hlen Hidx]. split; [| done]. intros Hnil. rewrite Hnil in Hlen. simpl in Hlen. lia.
      * intros [Hne Hidx]. split; [| done]. destruct (m_navigationHistory b); [done | simpl; lia].
  - unfold UpdateNavigation, count. destruct clearHistory; simpl.
    + split; [discriminate | intros [Hne _]; contradiction].
    + rewrite andb_true_iff, negb_true_iff, Z.eqb_neq, Z.ltb_lt. split.
      * intros [Hlen Hidx]. split; [| done]. intros Hnil. rewrite Hnil in Hlen. simpl in Hlen. lia.
      * intros [Hne Hidx]. split; [| done]. destruct (m_navigationHistory b); [done | simpl; lia].
  - unfold UpdateNavigation, count. simpl. done.
  - unfold UpdateNavigation, count. simpl. done.
Qed.

(** ** Recursive view and recursive search *)

(** Step through a chain of [let]s under a predicate without unfolding it. *)
Ltac step_let :=
  lazymatch goal with
  | |- ?P (let x := ?e in @?body x) =>
      let y := fresh x in
      change (let y := e in P (body y)); intro y; cbv beta
  end.

Lemma Outcome_bind_inr {A B} (m : Outcome A) (f : A -> Outcome B) (y : B) :
  m ≫= f = inr y -> ∃ x, m = inr x ∧ f x = inr y.
Proof. destruct m as [e | x]; [discriminate | intros Hf; by exists x]. Qed.

Section Recursion.
Context `{Conversions} `{ViewMode} `{Widgets}.

Lemma UpdateModels_consistent b :
  folder_model_consistent b -> folder_model_consistent (UpdateModels b).
Proof.
  unfold folder_model_consistent, UpdateModels. intros Hb.
  repeat case_match; simpl; done.
Qed.

Lemma SetRecursiveView_consistent v b :
  folder_model_consistent b -> folder_model_consistent (SetRecursiveView v b).
Proof.
  unfold SetRecursiveView. intros Hb. case_match; [| done].
  by apply UpdateModels_consistent.
Qed.

Lemma SetRecursiveSearch_consistent v b :
  folder_model_consistent b -> folder_model_consistent (SetRecursiveSearch v b).
Proof.
  unfold SetRecursiveSearch. intros Hb. case_match; [| done].
  by apply UpdateModels_consistent.
Qed.

Lemma SetViewMode_model viewMode b :
  m_pFolderFilterModel (SetViewMode viewMode b) = m_pFolderFilterModel b.
Proof.
  unfold SetViewMode, CRY_ASSERT. repeat case_match; reflexivity.
Qed.

Lemma SetLayout_consistent state b :
  folder_model_consistent b -> folder_model_consistent (SetLayout state b).
Proof.
  intros Hb. cbv beta delta [SetLayout].
  repeat (step_let;
          try match goal with
            | y := _ : CAssetBrowser |- _ =>
                assert (folder_model_consistent y)
                  by (subst y; repeat case_match;
                      first [ assumption
                            | by apply SetRecursiveView_consistent
                            | by apply SetRecursiveSearch_consistent
                            | by (unfold folder_model_consistent; rewrite SetViewMode_model)
                            | by (unfold folder_model_consistent; simpl) ]);
                clearbody y
            end).
  unfold folder_model_consistent, UpdateNavigation. simpl. done.
Qed.

End Recursion.

(** ** Navigation history *)

Section NavigationFacts.
Context `{Conversions} `{ViewMode} `{Widgets}.

(** What one announcement of the folders view does to the navigation state,
    and what it leaves alone. *)
Lemma OnFolderSelectionChanged_spec selectedFolders b :
  selectedFolders ≠ [] ->
  -1 <= m_navigationIndex b ->
  ∃ b',
    OnFolderSelectionChanged selectedFolders b = inr b' ∧
    m_dontPushNavHistory b' = m_dontPushNavHistory b ∧
    m_navigationHistory b' =
      (if m_dontPushNavHistory b then m_navigationHistory b
       else take (Z.to_nat (m_navigationIndex b + 1)) (m_navigationHistory b) ++ [selectedFolders]) ∧
    m_navigationIndex b' =
      (if m_dontPushNavHistory b then m_navigationIndex b else m_navigationIndex b + 1) ∧
    m_backButton b' = (0 <? count (m_navigationHistory b')) && (-1 <? m_navigationIndex b') ∧
    m_forwardButton b' =
      negb (count (m_navigationHistory b') =? 0)
      && (m_navigationIndex b' <? count (m_navigationHistory b') - 1) ∧
    m_foldersView b' = m_foldersView b ∧
    IsRecursive (m_pFolderFilterModel b') = IsRecursive (m_pFolderFilterModel b) ∧
    showFolders (m_pFolderFilterModel b') = showFolders (m_pFolderFilterModel b).
Proof.
  intros Hne Hidx.
  destruct selectedFolders as [| first rest]; [done |].
  unfold OnFolderSelectionChanged.
  destruct (1 <? Z.of_nat (length (first :: rest))); simpl;
    (destruct (m_dontPushNavHistory b) eqn:Hpush; simpl;
     [ eexists; split; [reflexivity |]; simpl; rewrite ?Hpush; done |]);
    unfold QVector_resize;
    (replace (m_navigationIndex b + 1 <? 0) with false by (symmetry; apply Z.ltb_ge; lia));
    (destruct (Z.ltb_spec (m_navigationIndex b) (count (m_navigationHistory b) - 1)) as [Hin | Hout]; simpl;
     [ eexists; split; [reflexivity |]; simpl; rewrite ?Hpush; done
     | eexists; split; [reflexivity |]; simpl; rewrite ?Hpush;
       rewrite take_ge by (unfold count in Hout; lia); done ]).
Qed.

Lemma deliver_spec emitted b :
  Forall (fun selectedFolders => selectedFolders ≠ []) emitted ->
  m_dontPushNavHistory b = true ->
  -1 <= m_navigationIndex b ->
  ∃ b',
    deliver emitted b = inr b' ∧
    m_dontPushNavHistory b' = true ∧
    m_navigationHistory b' = m_navigationHistory b ∧
    m_navigationIndex b' = m_navigationIndex b ∧
    m_foldersView b' = m_foldersView b ∧
    IsRecursive (m_pFolderFilterModel b') = IsRecursive (m_pFolderFilterModel b) ∧
    showFolders (m_pFolderFilterModel b') = showFolders (m_pFolderFilterModel b) ∧
    m_forwardButton b' =
      (if bool_decide (emitted = []) then m_forwardButton b
       else negb (count (m_navigationHistory b) =? 0)
            && (m_navigationIndex b <? count (m_navigationHistory b) - 1)) ∧
    m_backButton b' =
      (if bool_decide (emitted = []) then m_backButton b
       else (0 <? count (m_navigationHistory b)) && (-1 <? m_navigationIndex b)).
Proof.
  intros Hemitted. revert b.
  induction Hemitted as [| selectedFolders rest Hne Hrest IH]; intros b Hpush Hidx.
  - exists b. simpl. done.
  - destruct (OnFolderSelectionChanged_spec selectedFolders b Hne Hidx)
      as (b1 & Hrun & Hpush1 & Hhist1 & Hidx1 & Hback1 & Hfwd1 & Hview1 & Hrec1 & Hshow1).
    rewrite Hpush in Hpush1, Hhist1, Hidx1.
    destruct (IH b1) as (b' & Hrun' & Hpush' & Hhist' & Hidx' & Hview' & Hrec' & Hshow' & Hfwd' & Hback');
      [done | lia |].
    exists b'. simpl. rewrite Hrun. simpl.
    split; [exact Hrun' |]. split; [exact Hpush' |].
    split; [congruence |]. split; [congruence |]. split; [congruence |].
    split; [congruence |]. split; [congruence |].
    rewrite Hfwd', Hback', Hfwd1, Hback1, Hhist1, Hidx1.
    by destruct (bool_decide (rest = [])).
Qed.


(** What a request to the folders view does: it is recorded, and the
    announcements made meanwhile refresh the buttons without touching history
    or index. *)
Lemma request_spec r emitted b :
  Forall (fun selectedFolders => selectedFolders ≠ []) emitted ->
  m_dontPushNavHistory b = true ->
  -1 <= m_navigationIndex b ->
  ∃ b',
    request r emitted b = inr b' ∧
    m_dontPushNavHistory b' = true ∧
    m_navigationHistory b' = m_navigationHistory b ∧
    m_navigationIndex b' = m_navigationIndex b ∧
    folders_requests (m_foldersView b') = folders_requests (m_foldersView b) ++ [r] ∧
    IsRecursive (m_pFolderFilterModel b') = IsRecursive (m_pFolderFilterModel b) ∧
    showFolders (m_pFolderFilterModel b') = showFolders (m_pFolderFilterModel b) ∧
    m_forwardButton b' =
      (if bool_decide (emitted = []) then m_forwardButton b
       else negb (count (m_navigationHistory b) =? 0)
            && (m_navigationIndex b <? count (m_navigationHistory b) - 1)) ∧
    m_backButton b' =
      (if bool_decide (emitted = []) then m_backButton b
       else (0 <? count (m_navigationHistory b)) && (-1 <? m_navigationIndex b)).
Proof.
  intros Hemitted Hpush Hidx. unfold request.
  match goal with |- context [deliver emitted ?b0] =>
    destruct (deliver_spec emitted b0 Hemitted Hpush Hidx)
      as (b' & Hrun & Hpush' & Hhist' & Hidx' & Hview' & Hrec' & Hshow' & Hfwd' & Hback')
  end.
  exists b'. simpl in *. rewrite Hview'. simpl. done.
Qed.

Lemma QVector_at_inr {A} (v : list A) (i : Z) :
  0 <= i < count v -> ∃ x, QVector_at v i = inr x ∧ v !! Z.to_nat i = Some x.
Proof.
  unfold QVector_at, count. intros Hi.
  destruct (lookup_lt_is_Some_2 v (Z.to_nat i)) as [x Hx]; [lia |].
  exists x. rewrite Hx.
  replace ((0 <=? i) && (i <? Z.of_nat (length v))) with true; [done |].
  symmetry. apply andb_true_iff. split; [apply Z.leb_le | apply Z.ltb_lt]; lia.
Qed.

Lemma OnNavBack_spec emitted b :
  nav_invariant b ->
  Forall (fun selectedFolders => selectedFolders ≠ []) emitted ->
  ∃ b' r,
    OnNavBack emitted b = inr b' ∧
    m_dontPushNavHistory b' = false ∧
    m_navigationIndex b' = (if 0 <=? m_navigationIndex b then m_navigationIndex b - 1 else m_navigationIndex b) ∧
    m_navigationHistory b' = m_navigationHistory b ∧
    folders_requests (m_foldersView b') = folders_requests (m_foldersView b) ++ [r] ∧
    (m_navigationIndex b' = -1 -> r = ClearSelection) ∧
    (m_navigationIndex b' ≠ -1 ->
       ∃ folders, m_navigationHistory b !! Z.to_nat (m_navigationIndex b') = Some folders ∧
                  r = SelectFolders folders) ∧
    IsRecursive (m_pFolderFilterModel b') = IsRecursive (m_pFolderFilterModel b) ∧
    showFolders (m_pFolderFilterModel b') = showFolders (m_pFolderFilterModel b) ∧
    m_forwardButton b' =
      (if bool_decide (emitted = []) then m_forwardButton b
       else negb (count (m_navigationHistory b) =? 0)
            && (m_navigationIndex b' <? count (m_navigationHistory b) - 1)).
Proof.
  unfold nav_invariant. intros Hinv Hemitted. unfold OnNavBack. simpl.
  destruct (Z.leb_spec 0 (m_navigationIndex b)) as [Hnonneg | Hneg]; simpl.
  - destruct (Z.eqb_spec (m_navigationIndex b - 1) (-1)) as [Hfirst | Hlater].
    + match goal with |- context [request ClearSelection emitted ?b0] =>
        destruct (request_spec ClearSelection emitted b0 Hemitted)
          as (b' & Hrun & Hpush' & Hhist' & Hidx' & Hview' & Hrec' & Hshow' & Hfwd' & Hback');
          [reflexivity | simpl; lia |]
      end.
      simpl in *. exists (set_dontPushNavHistory false b'), ClearSelection.
      rewrite Hrun. simpl. rewrite Hidx', Hhist', Hview', Hrec', Hshow', Hfwd'.
      repeat split; try done. all: intros; congruence.
    + destruct (QVector_at_inr (m_navigationHistory b) (m_navigationIndex b - 1)) as (folders & Hat & Hlookup);
        [unfold count in *; lia |].
      rewrite Hat. simpl.
      match goal with |- context [request (SelectFolders folders) emitted ?b0] =>
        destruct (request_spec (SelectFolders folders) emitted b0 Hemitted)
          as (b' & Hrun & Hpush' & Hhist' & Hidx' & Hview' & Hrec' & Hshow' & Hfwd' & Hback');
          [reflexivity | simpl; lia |]
      end.
      simpl in *. exists (set_dontPushNavHistory false b'), (SelectFolders folders).
      rewrite Hrun. simpl. rewrite Hidx', Hhist', Hview', Hrec', Hshow', Hfwd'.
      repeat split; try done. all: intros; try congruence; by exists folders.
  - assert (Hidx : m_navigationIndex b = -1) by lia.
    rewrite Hidx. simpl.
    match goal with |- context [request ClearSelection emitted ?b0] =>
      destruct (request_spec ClearSelection emitted b0 Hemitted)
        as (b' & Hrun & Hpush' & Hhist' & Hidx' & Hview' & Hrec' & Hshow' & Hfwd' & Hback');
        [reflexivity | simpl; lia |]
    end.
    simpl in *. exists (set_dontPushNavHistory false b'), ClearSelection.
    rewrite Hrun. simpl. rewrite Hidx', Hhist', Hview', Hrec', Hshow', Hfwd', Hidx.
    repeat split; try done. all: intros; congruence.
Qed.

Lemma OnNavForward_spec emitted b :
  -1 <= m_navigationIndex b < count (m_navigationHistory b) - 1 ->
  Forall (fun selectedFolders => selectedFolders ≠ []) emitted ->
  ∃ b',
    OnNavForward emitted b = inr b' ∧
    m_dontPushNavHistory b' = false ∧
    m_navigationIndex b' = m_navigationIndex b + 1 ∧
    m_navigationHistory b' = m_navigationHistory b ∧
    IsRecursive (m_pFolderFilterModel b') = IsRecursive (m_pFolderFilterModel b) ∧
    showFolders (m_pFolderFilterModel b') = showFolders (m_pFolderFilterModel b) ∧
    m_forwardButton b' =
      (if bool_decide (emitted = []) then m_forwardButton b
       else negb (count (m_navigationHistory b) =? 0)
            && (m_navigationIndex b' <? count (m_navigationHistory b) - 1)).
Proof.
  intros Hidx Hemitted. unfold OnNavForward. simpl.
  destruct (QVector_at_inr (m_navigationHistory b) (m_navigationIndex b + 1)) as (folders & Hat & Hlookup);
    [lia |].
  rewrite Hat. simpl.
  match goal with |- context [request (SelectFolders folders) emitted ?b0] =>
    destruct (request_spec (SelectFolders folders) emitted b0 Hemitted)
      as (b' & Hrun & Hpush' & Hhist' & Hidx' & Hview' & Hrec' & Hshow' & Hfwd' & Hback');
      [reflexivity | simpl; lia |]
  end.
  simpl in *. exists (set_dontPushNavHistory false b').
  rewrite Hrun. simpl. rewrite Hidx', Hhist', Hrec', Hshow', Hfwd'. done.
Qed.

Lemma SetViewMode_navigation viewMode b :
  m_navigationHistory (SetViewMode viewMode b) = m_navigationHistory b ∧
  m_navigationIndex (SetViewMode viewMode b) = m_navigationIndex b ∧
  m_dontPushNavHistory (SetViewMode viewMode b) = m_dontPushNavHistory b.
Proof. unfold SetViewMode, CRY_ASSERT. repeat case_match; done. Qed.

(** When the constructor returns, the selection the folders view reported to
    InitViews is the one entry of the history. *)
Lemma constructed_navigation fresh selectedFolders :
  selectedFolders ≠ [] ->
  ∃ b, constructed fresh selectedFolders = inr b ∧
       m_navigationHistory b = [selectedFolders] ∧
       m_navigationIndex b = 0 ∧
       m_backButton b = true ∧
       m_forwardButton b = false.
Proof.
  intros Hne. unfold constructed.
  match goal with |- context [OnFolderSelectionChanged selectedFolders ?b0] =>
    destruct (SetViewMode_navigation Thumbnails (UpdateNavigation false (initialized fresh)))
      as (Hhist0 & Hidx0 & Hpush0);
    destruct (OnFolderSelectionChanged_spec selectedFolders b0 Hne)
      as (b & Hrun & _ & Hhist & Hidx & Hback & Hfwd & _)
  end.
  - rewrite Hidx0. simpl. lia.
  - rewrite Hpush0, Hhist0, Hidx0 in *. simpl in Hhist, Hidx.
    exists b. rewrite Hback, Hfwd, Hhist, Hidx. done.
Qed.

End NavigationFacts.

Section NavigationClaims.
Context `{Conversions} `{ViewMode} `{Widgets}.

(** C7.  OnNavBack decrements the navigation index when it is at least 0 and
    leaves the history as it is, whatever the folders view announces
    meanwhile; the request it sends to the folders view is ClearSelection
    when the index has become -1 and otherwise SelectFolders with the folders
    stored at the new index. *)
Theorem OnNavBack_keeps_history (emitted : list QStringList) (b : CAssetBrowser) :
  nav_invariant b ->
  Forall (fun selectedFolders => selectedFolders ≠ []) emitted ->
  ∃ b' r,
    OnNavBack emitted b = inr b' ∧
    m_navigationIndex b' =
      (if 0 <=? m_navigationIndex b then m_navigationIndex b - 1 else m_navigationIndex b) ∧
    m_navigationHistory b' = m_navigationHistory b ∧
    folders_requests (m_foldersView b') = folders_requests (m_foldersView b) ++ [r] ∧
    (m_navigationIndex b' = -1 -> r = ClearSelection) ∧
    (m_navigationIndex b' ≠ -1 ->
       ∃ folders, m_navigationHistory b' !! Z.to_nat (m_navigationIndex b') = Some folders ∧
                  r = SelectFolders folders).
Proof.
  intros Hinv Hemitted.
  destruct (OnNavBack_spec emitted b Hinv Hemitted)
    as (b' & r & Hrun & _ & Hidx & Hhist & Hreq & Hclear & Hselect & _).
  exists b', r. rewrite Hhist. done.
Qed.

(** The invariant carried along a run: the index stays within the history,
    no handler is in progress, and an enabled forward button means there is a
    later entry. *)
Lemma run_events_invariant evs b :
  nav_invariant b ->
  m_dontPushNavHistory b = false ->
  (m_forwardButton b = true -> m_navigationIndex b < count (m_navigationHistory b) - 1) ->
  Forall selections_nonempty evs ->
  Forall forward_answered evs ->
  forward_only_while_enabled evs b ->
  ∃ b', run_events evs b = inr b' ∧ nav_invariant b'.
Proof.
  intros Hinv Hpush Hfwd Hwf. revert b Hinv Hpush Hfwd.
  induction Hwf as [| ev evs Hev Hevs IH]; intros b Hinv Hpush Hfwd Hanswered Henabled.
  - exists b. done.
  - apply Forall_cons in Hanswered as [Hanswer Hanswered].
    destruct Henabled as [Hguard Hrest]. unfold nav_invariant in Hinv.
    destruct ev as [selectedFolders | emitted | emitted]; simpl in *.
    + destruct (OnFolderSelectionChanged_spec selectedFolders b Hev ltac:(lia))
        as (b1 & Hrun & Hpush1 & Hhist1 & Hidx1 & _ & Hfwd1 & _).
      rewrite Hrun in *. simpl. rewrite Hpush in *.
      assert (Hlen : count (m_navigationHistory b1) = m_navigationIndex b + 2).
      { rewrite Hhist1. unfold count in *. rewrite length_app, length_take. simpl. lia. }
      apply IH; try done.
      * unfold nav_invariant. lia.
      * rewrite Hfwd1. intros [_ Hlt%Z.ltb_lt]%andb_true_iff. lia.
    + destruct (OnNavBack_spec emitted b Hinv Hev)
        as (b1 & r & Hrun & Hpush1 & Hidx1 & Hhist1 & _ & _ & _ & _ & _ & Hfwd1).
      rewrite Hrun in *. simpl.
      assert (Hidx1' : -1 <= m_navigationIndex b1 <= m_navigationIndex b).
      { rewrite Hidx1. destruct (Z.leb_spec 0 (m_navigationIndex b)); lia. }
      apply IH; try done.
      * unfold nav_invariant. rewrite Hhist1. lia.
      * rewrite Hfwd1, Hhist1. case_bool_decide.
        -- intros Hen. specialize (Hfwd Hen). lia.
        -- intros [_ Hlt%Z.ltb_lt]%andb_true_iff. lia.
    + specialize (Hfwd Hguard).
      destruct (OnNavForward_spec emitted b ltac:(lia) Hev)
        as (b1 & Hrun & Hpush1 & Hidx1 & Hhist1 & _ & _ & Hfwd1).
      rewrite Hrun in *. simpl.
      apply IH; try done.
      * unfold nav_invariant. rewrite Hhist1. lia.
      * rewrite Hfwd1, Hhist1. rewrite bool_decide_eq_false_2 by done.
        intros [_ Hlt%Z.ltb_lt]%andb_true_iff. lia.
Qed.

(** X28.  Started in the state the constructor's member initialisers leave
    (no history, index -1), every sequence of announced (non-empty) folder
    selections, OnNavBack calls and OnNavForward calls, the latter made only
    while the forward button is enabled and each answered by the folders view
    with at least one announcement, runs without leaving the history's bounds
    and ends in a state with -1 <= index <= history length - 1.  Moreover every announcement that
    pushes (no handler in progress) cuts the history after the current index,
    appends the new selection and increments the index. *)
Theorem navigation_index_within_history :
  (forall (fresh : FreshWidgets) (evs : list NavEvent),
      Forall selections_nonempty evs ->
      Forall forward_answered evs ->
      forward_only_while_enabled evs (initialized fresh) ->
      ∃ b, run_events evs (initialized fresh) = inr b ∧
           -1 <= m_navigationIndex b <= Z.of_nat (length (m_navigationHistory b)) - 1) ∧
  (forall (b : CAssetBrowser) (selectedFolders : QStringList),
      m_dontPushNavHistory b = false ->
      selectedFolders ≠ [] ->
      -1 <= m_navigationIndex b ->
      ∃ b', OnFolderSelectionChanged selectedFolders b = inr b' ∧
            m_navigationHistory b' =
              take (Z.to_nat (m_navigationIndex b + 1)) (m_navigationHistory b) ++ [selectedFolders] ∧
            m_navigationIndex b' = m_navigationIndex b + 1).
Proof.
  split.
  - intros fresh evs Hwf Hanswered Henabled.
    apply run_events_invariant; try done.
    all: unfold nav_invariant, initialized, UpdateBreadcrumbsBar, count; simpl; lia.
  - intros b selectedFolders Hpush Hne Hidx.
    destruct (OnFolderSelectionChanged_spec selectedFolders b Hne Hidx)
      as (b' & Hrun & _ & Hhist & Hidx' & _).
    rewrite Hpush in Hhist, Hidx'. by exists b'.
Qed.

End NavigationClaims.

Lemma OnNavBack_keeps_history_witness :
  ∃ b', @OnNavBack Samples.widgets [["Assets/Objects"]] Samples.visited = inr b' ∧
        m_navigationIndex b' = 0 ∧
        m_navigationHistory b' = [["Assets/Objects"]; ["Assets/Textures"]].
Proof.
  destruct (@OnNavBack_keeps_history Samples.widgets [["Assets/Objects"]] Samples.visited)
    as (b' & r & Hrun & Hidx & Hhist & _).
  - vm_compute. split; discriminate.
  - repeat constructor; discriminate.
  - exists b'. split; [exact Hrun |]. split; [exact Hidx | exact Hhist].
Defined.

Lemma navigation_index_within_history_witness :
  ∃ b, @run_events Samples.widgets Samples.announced_forward Samples.browser = inr b ∧
       -1 <= m_navigationIndex b <= Z.of_nat (length (m_navigationHistory b)) - 1.
Proof.
  apply (proj1 (@navigation_index_within_history Samples.viewModes Samples.widgets) Samples.fresh).
  - repeat constructor; discriminate.
  - repeat constructor; discriminate.
  - vm_compute. repeat split.
Defined.

(** C5.  OnNavForward has no bounds check of its own, unlike OnNavBack, and
    relies on the forward button.  With a folders view that stays silent on
    a forward request the button is not refreshed and remains enabled at the
    last entry: the next OnNavForward, made while the button is enabled,
    moves the index to the history's length and reads past its end. *)
Lemma navigation_silent_forward_leaves_history :
  Forall selections_nonempty Samples.silent_forward ∧
  @forward_only_while_enabled Samples.widgets Samples.silent_forward Samples.browser ∧
  @run_events Samples.widgets Samples.silent_forward Samples.browser
    = inl (QVector_index_out_of_range 2 2).
Proof.
  split; [repeat constructor; discriminate |].
  split; [vm_compute; repeat split | vm_compute; reflexivity].
Qed.

(** ** The folder filter model along the life of the browser *)

Section RecursionClaims.
Context `{Conversions} `{ViewMode} `{Widgets}.

Lemma OnFolderSelectionChanged_model selectedFolders b b' :
  OnFolderSelectionChanged selectedFolders b = inr b' ->
  IsRecursive (m_pFolderFilterModel b') = IsRecursive (m_pFolderFilterModel b) ∧
  showFolders (m_pFolderFilterModel b') = showFolders (m_pFolderFilterModel b).
Proof.
  unfold OnFolderSelectionChanged, QVector_resize, QList_first.
  destruct (1 <? Z.of_nat (length selectedFolders)); [| destruct selectedFolders; [discriminate |]];
    simpl; destruct (m_dontPushNavHistory b); simpl;
    try (intros [= <-]; simpl; done);
    destruct (m_navigationIndex b <? count (m_navigationHistory b) - 1);
    try destruct (m_navigationIndex b + 1 <? 0); simpl;
    try discriminate; intros [= <-]; simpl; done.
Qed.

Lemma deliver_model emitted b b' :
  deliver emitted b = inr b' ->
  IsRecursive (m_pFolderFilterModel b') = IsRecursive (m_pFolderFilterModel b) ∧
  showFolders (m_pFolderFilterModel b') = showFolders (m_pFolderFilterModel b).
Proof.
  revert b. induction emitted as [| selectedFolders rest IH]; intros b; simpl.
  - by intros [= <-].
  - intros (b1 & Hb1 & Hrest)%Outcome_bind_inr.
    destruct (OnFolderSelectionChanged_model _ _ _ Hb1) as [Hrec Hshow].
    destruct (IH _ Hrest) as [Hrec' Hshow']. split; congruence.
Qed.

Lemma request_model r emitted b b' :
  request r emitted b = inr b' ->
  IsRecursive (m_pFolderFilterModel b') = IsRecursive (m_pFolderFilterModel b) ∧
  showFolders (m_pFolderFilterModel b') = showFolders (m_pFolderFilterModel b).
Proof. unfold request. intros Hrun. by destruct (deliver_model _ _ _ Hrun). Qed.

Lemma dispatch_model ev b b' :
  dispatch ev b = inr b' ->
  IsRecursive (m_pFolderFilterModel b') = IsRecursive (m_pFolderFilterModel b) ∧
  showFolders (m_pFolderFilterModel b') = showFolders (m_pFolderFilterModel b).
Proof.
  destruct ev as [selectedFolders | emitted | emitted]; simpl.
  - apply OnFolderSelectionChanged_model.
  - unfold OnNavBack.
    intros (b1 & Hb1 & [= <-])%Outcome_bind_inr. simpl.
    revert Hb1. case_match.
    + intros Hreq. destruct (request_model _ _ _ _ Hreq) as [Hrec Hshow].
      revert Hrec Hshow. by case_match.
    + intros (folders & _ & Hreq)%Outcome_bind_inr.
      destruct (request_model _ _ _ _ Hreq) as [Hrec Hshow].
      revert Hrec Hshow. by case_match.
  - unfold OnNavForward.
    intros (folders & _ & (b1 & Hreq & [= <-])%Outcome_bind_inr)%Outcome_bind_inr. simpl.
    by destruct (request_model _ _ _ _ Hreq).
Qed.

(** Every state the browser reaches keeps the folder filter model showing
    folders exactly when it is not recursive. *)
Lemma reachable_folder_model_consistent fresh b :
  reachable fresh b -> folder_model_consistent b.
Proof.
  unfold reachable. intros Hreach.
  eapply (rtc_ind_r (fun b => folder_model_consistent b)); [| | exact Hreach].
  - reflexivity.
  - intros b1 b2 _ Hstep IH. destruct Hstep.
    + unfold folder_model_consistent. by rewrite SetViewMode_model.
    + by apply SetRecursiveView_consistent.
    + by apply SetRecursiveSearch_consistent.
    + exact IH.
    + by apply UpdateModels_consistent.
    + exact IH.
    + by apply SetLayout_consistent.
    + match goal with Hd : dispatch _ _ = inr _ |- _ =>
        destruct (dispatch_model _ _ _ Hd) as [Hrec Hshow]
      end.
      unfold folder_model_consistent in *. congruence.
Qed.

(** C8.  In every state the browser reaches, UpdateModels does this: while a
    search or filter is active, recursive search is on and the folder filter
    model is not recursive, it makes the model recursive and hides folders;
    while no search is active, the model ends up recursive exactly when the
    recursive-view flag is set, with folders shown exactly when it is not.
    SetRecursiveView and SetRecursiveSearch do nothing when given the current
    value, and otherwise store the new value and run UpdateModels. *)
Theorem UpdateModels_follows_flags (fresh : FreshWidgets) (b : CAssetBrowser) :
  reachable fresh b ->
  let searching :=
    negb (searchBox_IsEmpty (m_filterPanel b)) || HasActiveFilters (m_filterPanel b) in
  let model := m_pFolderFilterModel b in
  let model' := m_pFolderFilterModel (UpdateModels b) in
  (searching = true -> m_recursiveSearch b = true -> IsRecursive model = false ->
     IsRecursive model' = true ∧ showFolders model' = false) ∧
  (searching = false ->
     IsRecursive model' = m_recursiveView b ∧ showFolders model' = negb (m_recursiveView b)) ∧
  SetRecursiveView (m_recursiveView b) b = b ∧
  SetRecursiveSearch (m_recursiveSearch b) b = b ∧
  (forall recursiveView, recursiveView ≠ m_recursiveView b ->
     SetRecursiveView recursiveView b = UpdateModels (set_recursiveView recursiveView b) ∧
     m_recursiveView (SetRecursiveView recursiveView b) = recursiveView) ∧
  (forall recursiveSearch, recursiveSearch ≠ m_recursiveSearch b ->
     SetRecursiveSearch recursiveSearch b = UpdateModels (set_recursiveSearch recursiveSearch b) ∧
     m_recursiveSearch (SetRecursiveSearch recursiveSearch b) = recursiveSearch).
Proof.
  intros Hreach%reachable_folder_model_consistent. cbv zeta.
  unfold folder_model_consistent in Hreach.
  split; [| split; [| split; [| split; [| split]]]].
  - intros Hsearching Hsearch Hrec. unfold UpdateModels.
    rewrite Hsearching, Hsearch, Hrec. simpl. done.
  - intros Hsearching. unfold UpdateModels. rewrite Hsearching. simpl.
    destruct (m_recursiveView b) eqn:Hview, (IsRecursive (m_pFolderFilterModel b)) eqn:Hrec;
      simpl; rewrite ?Hreach, ?Hrec; done.
  - unfold SetRecursiveView. by destruct (m_recursiveView b).
  - unfold SetRecursiveSearch. by destruct (m_recursiveSearch b).
  - intros recursiveView Hne. unfold SetRecursiveView.
    replace (negb (eqb (m_recursiveView b) recursiveView)) with true
      by (by destruct (m_recursiveView b), recursiveView).
    split; [reflexivity |]. unfold UpdateModels. repeat case_match; reflexivity.
  - intros recursiveSearch Hne. unfold SetRecursiveSearch.
    replace (negb (eqb (m_recursiveSearch b) recursiveSearch)) with true
      by (by destruct (m_recursiveSearch b), recursiveSearch).
    split; [reflexivity |]. unfold UpdateModels. repeat case_match; reflexivity.
Qed.

End RecursionClaims.

Lemma UpdateModels_follows_flags_witness :
  (IsRecursive (m_pFolderFilterModel (UpdateModels MoreSamples.searching)) = true ∧
   showFolders (m_pFolderFilterModel (UpdateModels MoreSamples.searching)) = false) ∧
  (IsRecursive (m_pFolderFilterModel MoreSamples.search_cleared) = true ∧
   IsRecursive (m_pFolderFilterModel (UpdateModels MoreSamples.search_cleared)) = false ∧
   showFolders (m_pFolderFilterModel (UpdateModels MoreSamples.search_cleared)) = true).
Proof.
  split.
  - apply (proj1 (@UpdateModels_follows_flags Samples.conversions Samples.viewModes Samples.widgets
                    Samples.fresh MoreSamples.searching
                    ltac:(eapply rtc_l; [apply Step_filters_edited | apply rtc_refl])));
      reflexivity.
  - split; [reflexivity |].
    apply (proj1 (proj2 (@UpdateModels_follows_flags Samples.conversions Samples.viewModes
                           Samples.widgets Samples.fresh MoreSamples.search_cleared
                           ltac:(eapply rtc_l; [apply Step_filters_edited |];
                                 eapply rtc_l; [apply Step_signalOnFiltered |];
                                 eapply rtc_l; [apply Step_filters_edited | apply rtc_refl])))).
    reflexivity.
Defined.

(** ** Layout persistence *)

Section Layout.
Context `{Conversions} `{ViewMode} `{Widgets}.

Lemma SetViewMode_viewMode viewMode b : m_viewMode (SetViewMode viewMode b) = viewMode.
Proof.
  unfold SetViewMode, CRY_ASSERT.
  destruct (Z.eqb_spec (m_viewMode b) viewMode); simpl; [done |].
  repeat case_match; reflexivity.
Qed.

Lemma SetViewMode_recursiveView viewMode b :
  m_recursiveView (SetViewMode viewMode b) = m_recursiveView b.
Proof. unfold SetViewMode, CRY_ASSERT. repeat case_match; reflexivity. Qed.

Lemma SetViewMode_recursiveSearch viewMode b :
  m_recursiveSearch (SetViewMode viewMode b) = m_recursiveSearch b.
Proof. unfold SetViewMode, CRY_ASSERT. repeat case_match; reflexivity. Qed.

Lemma UpdateModels_flags b :
  m_viewMode (UpdateModels b) = m_viewMode b ∧
  m_recursiveView (UpdateModels b) = m_recursiveView b ∧
  m_recursiveSearch (UpdateModels b) = m_recursiveSearch b.
Proof. unfold UpdateModels. repeat case_match; done. Qed.

Lemma SetRecursiveView_flags v b :
  m_viewMode (SetRecursiveView v b) = m_viewMode b ∧
  m_recursiveView (SetRecursiveView v b) = v ∧
  m_recursiveSearch (SetRecursiveView v b) = m_recursiveSearch b.
Proof.
  unfold SetRecursiveView. destruct (eqb (m_recursiveView b) v) eqn:Heq; simpl.
  - apply eqb_prop in Heq. by subst.
  - destruct (UpdateModels_flags (set_recursiveView v b)) as (Hv & Hr & Hs).
    rewrite Hv, Hr, Hs. done.
Qed.

Lemma SetRecursiveSearch_flags v b :
  m_viewMode (SetRecursiveSearch v b) = m_viewMode b ∧
  m_recursiveView (SetRecursiveSearch v b) = m_recursiveView b ∧
  m_recursiveSearch (SetRecursiveSearch v b) = v.
Proof.
  unfold SetRecursiveSearch. destruct (eqb (m_recursiveSearch b) v) eqn:Heq; simpl.
  - apply eqb_prop in Heq. by subst.
  - destruct (UpdateModels_flags (set_recursiveSearch v b)) as (Hv & Hr & Hs).
    rewrite Hv, Hr, Hs. done.
Qed.

Lemma GetLayout_lookup (b : CAssetBrowser) :
  GetLayout b !! "mainViewSplitter" = Some (QVByteArray (toBase64 (saveState (m_mainViewSplitter b)))) ∧
  GetLayout b !! "foldersSplitter" = Some (QVByteArray (toBase64 (saveState (m_foldersSplitter b)))) ∧
  GetLayout b !! "viewMode" = Some (QVInt (m_viewMode b)) ∧
  GetLayout b !! "recursiveView" = Some (QVBool (m_recursiveView b)) ∧
  GetLayout b !! "recursiveSearch" = Some (QVBool (m_recursiveSearch b)) ∧
  GetLayout b !! "showFolders" = Some (QVBool (folders_visible (m_foldersView b))) ∧
  GetLayout b !! "filters" = Some (QVMap (filters_state (m_filterPanel b))) ∧
  GetLayout b !! "detailsView" = Some (QVMap (view_state (m_detailsView b))) ∧
  GetLayout b !! "thumbnailView" = Some (QVMap (view_state (m_thumbnailView b))) ∧
  GetLayout b !! "foldersView" = Some (QVMap (folders_state (m_foldersView b))).
Proof. unfold GetLayout. repeat split; by simplify_map_eq. Qed.


(** One step of SetLayout seen through one of the three restored members. *)
Ltac flag_step :=
  repeat match goal with v := _ : QVariant |- _ => subst v end;
  simpl;
  rewrite ?SetViewMode_viewMode, ?SetViewMode_recursiveView, ?SetViewMode_recursiveSearch,
    ?(proj1 (SetRecursiveView_flags _ _)), ?(proj1 (proj2 (SetRecursiveView_flags _ _))),
    ?(proj2 (proj2 (SetRecursiveView_flags _ _))),
    ?(proj1 (SetRecursiveSearch_flags _ _)), ?(proj1 (proj2 (SetRecursiveSearch_flags _ _))),
    ?(proj2 (proj2 (SetRecursiveSearch_flags _ _)));
  first [eassumption | reflexivity].

Lemma value_lookup (state : QVariantMap) (key : string) (v : QVariant) :
  state !! key = Some v -> value state key = v.
Proof. unfold value. by intros ->. Qed.

(** Restoring the layout saved from [saved] into any browser [current]. *)
Lemma SetLayout_GetLayout_flags (saved current : CAssetBrowser) :
  m_viewMode (SetLayout (GetLayout saved) current) = m_viewMode saved ∧
  m_recursiveView (SetLayout (GetLayout saved) current) = m_recursiveView saved ∧
  m_recursiveSearch (SetLayout (GetLayout saved) current) = m_recursiveSearch saved.
Proof.
  destruct (GetLayout_lookup saved)
    as (K1 & K2 & K3 & K4 & K5 & K6 & K7 & K8 & K9 & K10).
  set (P := fun c : CAssetBrowser =>
              m_viewMode c = m_viewMode saved ∧
              m_recursiveView c = m_recursiveView saved ∧
              m_recursiveSearch c = m_recursiveSearch saved).
  change (P (SetLayout (GetLayout saved) current)).
  cbv beta delta [SetLayout].
  rewrite (value_lookup _ _ _ K1), (value_lookup _ _ _ K2), (value_lookup _ _ _ K3),
    (value_lookup _ _ _ K4), (value_lookup _ _ _ K5), (value_lookup _ _ _ K6),
    (value_lookup _ _ _ K7), (value_lookup _ _ _ K8), (value_lookup _ _ _ K9),
    (value_lookup _ _ _ K10).
  repeat (step_let;
          try lazymatch goal with
            | y := _ : CAssetBrowser |- _ =>
                let Hv := fresh "Hv" in
                let Hr := fresh "Hr" in
                let Hs := fresh "Hs" in
                eassert (Hv : m_viewMode y = _) by (subst y; flag_step);
                eassert (Hr : m_recursiveView y = _) by (subst y; flag_step);
                eassert (Hs : m_recursiveSearch y = _) by (subst y; flag_step);
                clearbody y
            end).
  subst P. cbv beta. unfold UpdateNavigation. simpl. done.
Qed.

End Layout.

Section LayoutClaims.
Context `{Conversions} `{ViewMode} `{Widgets}.

(** C4.  The map returned by GetLayout holds the two splitter states under
    "mainViewSplitter" and "foldersSplitter", the view mode under "viewMode",
    the two recursion flags under "recursiveView" and "recursiveSearch" and the
    filter state under "filters"; and SetLayout applied to that map, in whatever
    state the browser is by then, brings view mode, recursive-view flag and
    recursive-search flag back to the saved values. *)
Theorem GetLayout_SetLayout_roundtrip (saved current : CAssetBrowser) :
  let state := GetLayout saved in
  (state !! "mainViewSplitter" = Some (QVByteArray (toBase64 (saveState (m_mainViewSplitter saved)))) ∧
   state !! "foldersSplitter" = Some (QVByteArray (toBase64 (saveState (m_foldersSplitter saved)))) ∧
   state !! "viewMode" = Some (QVInt (m_viewMode saved)) ∧
   state !! "recursiveView" = Some (QVBool (m_recursiveView saved)) ∧
   state !! "recursiveSearch" = Some (QVBool (m_recursiveSearch saved)) ∧
   state !! "filters" = Some (QVMap (filters_state (m_filterPanel saved)))) ∧
  (m_viewMode (SetLayout state current) = m_viewMode saved ∧
   m_recursiveView (SetLayout state current) = m_recursiveView saved ∧
   m_recursiveSearch (SetLayout state current) = m_recursiveSearch saved).
Proof.
  cbv zeta. split.
  - destruct (GetLayout_lookup saved) as (K1 & K2 & K3 & K4 & K5 & _ & K7 & _). done.
  - apply SetLayout_GetLayout_flags.
Qed.

End LayoutClaims.

(** * Further properties of the browser *)

Section ImportDialog.
Import Strings AssetSystem.

(** ** The extension filters of the import dialog *)

Lemma Ascii_compare_Lt_trans a b c :
  Ascii.compare a b = Lt -> Ascii.compare b c = Lt -> Ascii.compare a c = Lt.
Proof.
  unfold Ascii.compare. rewrite !N.compare_lt_iff. lia.
Qed.

Lemma Ascii_compare_refl a : Ascii.compare a a = Eq.
Proof. unfold Ascii.compare. apply N.compare_refl. Qed.

Lemma String_compare_refl a : String.compare a a = Eq.
Proof. induction a as [| x a IH]; simpl; [done |]. by rewrite Ascii_compare_refl. Qed.

Lemma String_compare_Lt_trans a : forall b c,
  String.compare a b = Lt -> String.compare b c = Lt -> String.compare a c = Lt.
Proof.
  induction a as [| x a IH]; intros [| y b] [| z c]; simpl; try done.
  destruct (Ascii.compare x y) eqn:Hxy; try done;
    destruct (Ascii.compare y z) eqn:Hyz; try done.
  - apply Ascii.compare_eq_iff in Hxy, Hyz. subst.
    rewrite Ascii_compare_refl. apply IH.
  - apply Ascii.compare_eq_iff in Hxy. subst. rewrite Hyz. done.
  - apply Ascii.compare_eq_iff in Hyz. subst. rewrite Hxy. done.
  - rewrite (Ascii_compare_Lt_trans x y z Hxy Hyz). done.
Qed.

Lemma String_ltb_trans a b c :
  String.ltb a b = true -> String.ltb b c = true -> String.ltb a c = true.
Proof.
  unfold String.ltb. intros Hab Hbc.
  destruct (String.compare a b) eqn:Eab; try done.
  destruct (String.compare b c) eqn:Ebc; try done.
  by rewrite (String_compare_Lt_trans a b c Eab Ebc).
Qed.

Lemma String_ltb_irrefl a : String.ltb a a = false.
Proof.
  unfold String.ltb.
  by rewrite String_compare_refl.
Qed.

(** Two strings neither of which is below the other, and which eqb tells
    apart, do not exist. *)
Lemma String_ltb_connex a b :
  String.ltb a b = false -> String.eqb a b = false -> String.ltb b a = true.
Proof.
  unfold String.ltb. intros Hab Hne.
  rewrite String.compare_antisym.
  destruct (String.compare a b) eqn:Eab; simpl; try done.
  apply String.compare_eq_iff in Eab. subst.
  by rewrite String.eqb_refl in Hne.
Qed.


Lemma binary_insert_unique_elem_of exts ext x :
  x ∈ binary_insert_unique exts ext ↔ x ∈ exts ∨ x = ext.
Proof.
  induction exts as [| e rest IH]; simpl.
  - split.
    + intros [-> | Hx]%elem_of_cons; [by right | by apply elem_of_nil in Hx].
    + intros [Hx | ->]; [by apply elem_of_nil in Hx | by apply list_elem_of_here].
  - destruct (String.ltb e ext).
    + rewrite !elem_of_cons, IH. tauto.
    + destruct (String.eqb_spec e ext) as [-> | Hne].
      * rewrite !elem_of_cons. tauto.
      * rewrite !elem_of_cons. tauto.
Qed.

Lemma binary_insert_unique_sorted exts ext :
  StronglySorted string_lt exts -> StronglySorted string_lt (binary_insert_unique exts ext).
Proof.
  induction 1 as [| e rest Hrest IH Hall]; simpl.
  - repeat constructor.
  - destruct (String.ltb e ext) eqn:Hlt.
    + constructor; [exact IH |].
      apply Forall_forall. intros x [Hx | ->]%binary_insert_unique_elem_of; [| exact Hlt].
      by eapply Forall_forall in Hall.
    + destruct (String.eqb e ext) eqn:Heq.
      * by constructor.
      * pose proof (String_ltb_connex e ext Hlt Heq) as Hgt.
        constructor; [by constructor |].
        constructor; [exact Hgt |].
        eapply Forall_impl; [exact Hall |].
        intros x Hx. by eapply String_ltb_trans.
Qed.

Lemma StronglySorted_string_lt_NoDup exts :
  StronglySorted string_lt exts -> NoDup exts.
Proof.
  induction 1 as [| e rest Hrest IH Hall]; constructor; [| exact IH].
  intros Hin. eapply Forall_forall in Hall; [| exact Hin].
  unfold string_lt in Hall. by rewrite String_ltb_irrefl in Hall.
Qed.

Lemma foldl_binary_insert_unique_sorted importer exts :
  StronglySorted string_lt exts ->
  StronglySorted string_lt (foldl binary_insert_unique exts importer).
Proof.
  revert exts. induction importer as [| ext rest IH]; intros exts Hs; simpl; [done |].
  apply IH. by apply binary_insert_unique_sorted.
Qed.

Lemma foldl_binary_insert_unique_elem_of importer exts x :
  x ∈ foldl binary_insert_unique exts importer ↔ x ∈ exts ∨ x ∈ importer.
Proof.
  revert exts. induction importer as [| ext rest IH]; intros exts; simpl.
  - split; [by left | intros [Hx | Hx]; [done | by apply elem_of_nil in Hx]].
  - rewrite IH, binary_insert_unique_elem_of, elem_of_cons. tauto.
Qed.

(** The extensions gathered by the two nested loops of GetExtensionFilter. *)
Lemma importers_extensions_sorted importers exts :
  StronglySorted string_lt exts ->
  StronglySorted string_lt
    (foldl (fun exts importer => foldl binary_insert_unique exts importer) exts importers).
Proof.
  revert exts. induction importers as [| importer rest IH]; intros exts Hs; simpl; [done |].
  apply IH. by apply foldl_binary_insert_unique_sorted.
Qed.

Lemma importers_extensions_elem_of importers exts x :
  x ∈ foldl (fun exts importer => foldl binary_insert_unique exts importer) exts importers
  ↔ x ∈ exts ∨ ∃ importer, importer ∈ importers ∧ x ∈ importer.
Proof.
  revert exts. induction importers as [| importer rest IH]; intros exts; simpl.
  - split; [by left | intros [Hx | (i & Hi & _)]; [done | by apply elem_of_nil in Hi]].
  - rewrite IH, foldl_binary_insert_unique_elem_of. split.
    + intros [[Hx | Hx] | (i & Hi & Hx)]; [by left | right; exists importer; by rewrite elem_of_cons; auto |].
      right. exists i. rewrite elem_of_cons. auto.
    + intros [Hx | (i & Hi & Hx)]; [by left; left |].
      apply elem_of_cons in Hi as [-> | Hi]; [by left; right |].
      right. by exists i.
Qed.

(** X1.  The extension filters of the import dialog: an "All importable
    files" entry over the extensions of all importers, one entry per
    extension, and the entry for all files last.  The extensions come in strictly
    ascending order, each exactly once however many importers list it, and
    they are exactly the extensions some importer lists. *)
Theorem GetExtensionFilter_lists_each_extension_once (importers : list (list string)) (shorten : string -> string) :
  ∃ exts,
    GetExtensionFilter importers shorten =
      {| filter_description := "All importable files (" +:+ shorten (join ", " exts) +:+ ")";
         filter_extensions := exts |}
      :: ((fun ext => {| filter_description := "." +:+ ext +:+ " files"; filter_extensions := [ext] |}) <$> exts)
      ++ [ {| filter_description := "All Files (*.*)"; filter_extensions := ["*"] |} ]
    ∧ StronglySorted (fun a b => String.ltb a b = true) exts
    ∧ NoDup exts
    ∧ (∀ ext, ext ∈ exts ↔ ∃ importer, importer ∈ importers ∧ ext ∈ importer)
    ∧ length (GetExtensionFilter importers shorten) = (length exts + 2)%nat.
Proof.
  eexists. split; [reflexivity |].
  assert (Hs := importers_extensions_sorted importers [] ltac:(constructor)).
  split; [exact Hs |]. split; [by apply StronglySorted_string_lt_NoDup |]. split.
  - intros ext. rewrite importers_extensions_elem_of. split.
    + intros [Hx | Hx]; [by apply elem_of_nil in Hx | done].
    + by right.
  - unfold GetExtensionFilter. simpl. rewrite length_app, length_fmap. simpl. lia.
Qed.

End ImportDialog.

Section SelectedRows.
Import Strings AssetSystem CAssetBrowser_Selection.

(** ** The selected rows *)

Section SelectionFacts.
Context `{Conversions} `{StringConversions} `{EAssetModelRowType} `{Assets}.

Lemma ProcessSelection_foldl rows : forall s,
  foldl (fun selection index =>
           let type := wrap_int (GetType index) in
           if type =? eAssetModelRow_Asset then
             let pAsset := ToAsset index in
             if negb (pAsset =? 0) then
               {| selection_assets := selection_assets selection ++ [pAsset];
                  selection_folders := selection_folders selection;
                  selection_asserted := selection_asserted selection |}
             else selection
           else if type =? eAssetModelRow_Folder then
             {| selection_assets := selection_assets selection;
                selection_folders := selection_folders selection ++ [ToFolderPath index];
                selection_asserted := selection_asserted selection |}
           else
             {| selection_assets := selection_assets selection;
                selection_folders := selection_folders selection;
                selection_asserted := true |}) s rows
  = {| selection_assets := selection_assets s ++ (ToAsset <$> filter asset_row rows);
       selection_folders := selection_folders s ++ (ToFolderPath <$> filter folder_row rows);
       selection_asserted := selection_asserted s || bool_decide (Exists unknown_row rows) |}.
Proof.
  induction rows as [| index rest IH]; intros [assets folders asserted].
  - simpl. by rewrite !app_nil_r, orb_false_r.
  - cbn [foldl]. rewrite IH. clear IH. cbv zeta.
    destruct (Z.eqb_spec (wrap_int (GetType index)) eAssetModelRow_Asset) as [Ha | Ha].
    + destruct (Z.eqb_spec (ToAsset index) 0) as [Hp | Hp];
        cbn [negb selection_assets selection_folders selection_asserted].
      * rewrite filter_cons_False by (unfold asset_row; tauto).
        rewrite (filter_cons_False folder_row) by (unfold folder_row; tauto).
        f_equal. f_equal. apply bool_decide_ext. rewrite Exists_cons.
        split; [by right | intros [[Hn Hm] | Hrest]; [contradiction | done]].
      * rewrite filter_cons_True by done.
        rewrite (filter_cons_False folder_row) by (unfold folder_row; tauto).
        rewrite fmap_cons, <- app_assoc. cbn [app]. f_equal. f_equal.
        apply bool_decide_ext. rewrite Exists_cons.
        split; [by right | intros [[Hn Hm] | Hrest]; [contradiction | done]].
    + destruct (Z.eqb_spec (wrap_int (GetType index)) eAssetModelRow_Folder) as [Hf | Hf];
        cbn [negb selection_assets selection_folders selection_asserted].
      * rewrite filter_cons_False by (unfold asset_row; tauto).
        rewrite (filter_cons_True folder_row) by done.
        rewrite fmap_cons, <- app_assoc. cbn [app]. f_equal. f_equal.
        apply bool_decide_ext. rewrite Exists_cons.
        split; [by right | intros [[Hn Hm] | Hrest]; [contradiction | done]].
      * rewrite filter_cons_False by (unfold asset_row; tauto).
        rewrite (filter_cons_False folder_row) by (unfold folder_row; tauto).
        f_equal. rewrite (bool_decide_eq_true_2 (Exists unknown_row (index :: rest)))
          by (apply Exists_cons; by left).
        by rewrite orb_true_r.
Qed.

Lemma ProcessSelection_filter rows :
  ProcessSelection rows
  = {| selection_assets := ToAsset <$> filter asset_row rows;
       selection_folders := ToFolderPath <$> filter folder_row rows;
       selection_asserted := bool_decide (Exists unknown_row rows) |}.
Proof. unfold ProcessSelection. by rewrite ProcessSelection_foldl. Qed.

Lemma GetSelectedAssets_filter rows :
  GetSelectedAssets rows = ToAsset <$> filter asset_row rows.
Proof. unfold GetSelectedAssets. by rewrite ProcessSelection_filter. Qed.

Lemma GetSelectedAssets_nonnull rows : 0 ∉ GetSelectedAssets rows.
Proof.
  rewrite GetSelectedAssets_filter.
  intros (index & Hnull & [[_ Hp] _]%list_elem_of_filter)%list_elem_of_fmap.
  by apply Hp.
Qed.

(** X2.  ProcessSelection sorts the selected rows into assets and folders and
    keeps their order: the assets are those of the asset rows that carry an
    asset, the folders the paths of the folder rows; an asset row without an
    asset is skipped, so no null asset is ever collected, and the assertion
    is reached exactly when some row is neither an asset nor a folder. *)
Theorem ProcessSelection_sorts_rows (rows : list QModelIndex) :
  let selection := ProcessSelection rows in
  selection_assets selection = ToAsset <$> filter asset_row rows ∧
  selection_folders selection = ToFolderPath <$> filter folder_row rows ∧
  (selection_asserted selection = true ↔ Exists unknown_row rows) ∧
  (0 ∉ selection_assets selection) ∧
  (length (selection_assets selection) + length (selection_folders selection) <= length rows)%nat.
Proof.
  cbv zeta. rewrite ProcessSelection_filter. simpl.
  split; [done |]. split; [done |]. split; [apply bool_decide_eq_true |]. split.
  - rewrite <- GetSelectedAssets_filter. apply GetSelectedAssets_nonnull.
  - rewrite !length_fmap.
    induction rows as [| index rest IH]; simpl; [lia |].
    destruct (decide (asset_row index)) as [Ha | Ha].
    + rewrite filter_cons_True by done.
      rewrite (filter_cons_False folder_row) by (unfold asset_row, folder_row in *; tauto).
      simpl. lia.
    + rewrite filter_cons_False by done.
      destruct (decide (folder_row index)).
      * rewrite (filter_cons_True folder_row) by done. simpl. lia.
      * rewrite (filter_cons_False folder_row) by done. lia.
Qed.


Lemma OnActivated_asset_edited timer assets :
  omap edited (assets ≫= OnActivated_asset timer) = assets.
Proof.
  induction assets as [| a rest IH]; [done |].
  change ((a :: rest) ≫= OnActivated_asset timer)
    with (OnActivated_asset timer a ++ (rest ≫= OnActivated_asset timer)).
  rewrite omap_app, IH. by destruct timer.
Qed.

(** X3.  OnOpen reports success exactly when an asset is selected; it edits
    the selected assets, each once and in selection order, never a null
    asset, and apart from stopping the quick-edit timer it does nothing
    else. *)
Theorem OnOpen_edits_the_selected_assets (m_pQuickEditTimer : bool) (rows : list QModelIndex) :
  let assets := ToAsset <$> filter asset_row rows in
  let effects := (OnOpen m_pQuickEditTimer rows).2 in
  ((OnOpen m_pQuickEditTimer rows).1 = true ↔ Exists asset_row rows) ∧
  omap edited effects = assets ∧
  (0 ∉ omap edited effects) ∧
  Forall (fun e => e = QTimer_stop ∨ ∃ asset, e = CAsset_Edit asset) effects ∧
  (m_pQuickEditTimer = false -> effects = CAsset_Edit <$> assets).
Proof.
  cbv zeta. unfold OnOpen. rewrite GetSelectedAssets_filter.
  assert (Hempty : ToAsset <$> filter asset_row rows = [] ↔ ¬ Exists asset_row rows).
  { split.
    - intros Hnil%fmap_nil_inv [index [Hin Hrow]]%Exists_exists.
      assert (index ∈ filter asset_row rows) as Hf by (by apply list_elem_of_filter).
      rewrite Hnil in Hf. by apply elem_of_nil in Hf.
    - intros Hnone. destruct (filter asset_row rows) as [| index l] eqn:Hf; [done |].
      exfalso. apply Hnone. apply Exists_exists. exists index.
      assert (index ∈ filter asset_row rows) as [Hrow Hin]%list_elem_of_filter
        by (rewrite Hf; apply list_elem_of_here).
      done. }
  case_bool_decide as Hnil; simpl.
  - rewrite Hnil. split; [split; [done | intros Hex; by apply Hempty in Hnil] |].
    split; [reflexivity |]. split; [by intros ?%elem_of_nil |]. split; [constructor | done].
  - split.
    { split; [intros _ | done]. destruct (decide (Exists asset_row rows)) as [Hex | Hex]; [done |].
      by apply Hempty in Hex. }
    rewrite OnActivated_asset_edited. split; [done |]. split.
    { rewrite <- GetSelectedAssets_filter. apply GetSelectedAssets_nonnull. }
    split.
    + generalize (ToAsset <$> filter asset_row rows). intros assets.
      induction assets as [| a rest IH]; [constructor |].
      change ((a :: rest) ≫= OnActivated_asset m_pQuickEditTimer)
        with (OnActivated_asset m_pQuickEditTimer a ++ (rest ≫= OnActivated_asset m_pQuickEditTimer)).
      apply Forall_app. split; [| exact IH].
      unfold OnActivated_asset. destruct m_pQuickEditTimer; simpl.
      * constructor; [by left |]. constructor; [right; by exists a | constructor].
      * constructor; [right; by exists a | constructor].
    + intros ->. generalize (ToAsset <$> filter asset_row rows). intros assets.
      induction assets as [| a rest IH]; [done |].
      change ((a :: rest) ≫= OnActivated_asset false)
        with (OnActivated_asset false a ++ (rest ≫= OnActivated_asset false)).
      rewrite IH. done.
Qed.

Lemma OnDelete_run (w : World) (assets : list Z) (log : list Call) :
  ∃ dialog,
    is_confirmation dialog = true ∧
    OnDelete assets w log =
      (tt, log ++ dialog :: (if confirms w dialog then [CAssetManager_DeleteAssetsWithFiles assets] else [])).
Proof.
  unfold OnDelete, mbind, M_bind, ask, call_, call, mret, M_ret.
  destruct (HasAnyReverseDependencies w assets) eqn:Hdeps.
  - match goal with
    | |- context [ CAssetReverseDependenciesDialog_Execute ?a ?t1 ?t2 ?t3 ?q ?t ] =>
        exists (CAssetReverseDependenciesDialog_Execute a t1 t2 t3 q t)
    end.
    split; [reflexivity |]. simpl.
    destruct (ReverseDependenciesDialog_result w assets); by rewrite <- ?app_assoc.
  - match goal with
    | |- context [ CQuestionDialog_SQuestion ?t ?q ] => exists (CQuestionDialog_SQuestion t q)
    end.
    split; [reflexivity |]. simpl.
    case_bool_decide; by rewrite <- ?app_assoc.
Qed.

(** X4.  OnDelete() on the current selection always returns true.  With no
    asset selected it opens no dialog and deletes nothing; otherwise it asks
    for confirmation first, and what it deletes is exactly the selected
    assets: never an empty list, never a null asset. *)
Theorem OnDelete_selected_deletes_only_selected_assets (w : World) (rows : list QModelIndex) :
  let assets := ToAsset <$> filter asset_row rows in
  result (OnDelete_selected rows) w = true ∧
  (¬ Exists asset_row rows -> calls (OnDelete_selected rows) w = []) ∧
  (Exists asset_row rows ->
     ∃ dialog, is_confirmation dialog = true ∧
               calls (OnDelete_selected rows) w =
                 dialog :: (if confirms w dialog then [CAssetManager_DeleteAssetsWithFiles assets] else [])) ∧
  (forall deleted, CAssetManager_DeleteAssetsWithFiles deleted ∈ calls (OnDelete_selected rows) w ->
     deleted = assets ∧ deleted ≠ [] ∧ 0 ∉ deleted).
Proof.
  cbv zeta. unfold OnDelete_selected, OnDelete_selection. rewrite GetSelectedAssets_filter.
  assert (Hnonnull : 0 ∉ ToAsset <$> filter asset_row rows).
  { rewrite <- GetSelectedAssets_filter. apply GetSelectedAssets_nonnull. }
  destruct (ToAsset <$> filter asset_row rows) as [| a rest] eqn:Hassets.
  - assert (Hnone : ¬ Exists asset_row rows).
    { intros [index [Hin Hrow]]%Exists_exists.
      apply fmap_nil_inv in Hassets.
      assert (index ∈ filter asset_row rows) as Hf by (by apply list_elem_of_filter).
      rewrite Hassets in Hf. by apply elem_of_nil in Hf. }
    split; [reflexivity |]. split; [reflexivity |]. split; [done |].
    intros deleted Hin. by apply elem_of_nil in Hin.
  - destruct (OnDelete_run w (a :: rest) []) as (dialog & Hdialog & Hrun).
    unfold calls, result, run, mbind, M_bind, mret, M_ret. rewrite Hrun. simpl.
    split; [reflexivity |]. split.
    { intros Hnone. exfalso. apply Hnone. apply Exists_exists.
      assert (a ∈ ToAsset <$> filter asset_row rows) as Hin by (rewrite Hassets; apply list_elem_of_here).
      apply list_elem_of_fmap in Hin as (index & _ & [Hrow Hin]%list_elem_of_filter).
      by exists index. }
    split; [intros _; by exists dialog |].
    intros deleted [Hd | Hin]%elem_of_cons.
    + subst dialog. discriminate.
    + destruct (confirms w dialog); [| by apply elem_of_nil in Hin].
      apply list_elem_of_singleton in Hin. injection Hin as ->. done.
Qed.

End SelectionFacts.

End SelectedRows.

Section DependencyFilters.
Import Strings AssetSystem Private_AssetBrowser_Filters.


(** ** The dependency filters *)

Section FilterFacts.
Context `{Conversions} `{StringConversions} `{EAssetModelRowType} `{Assets}.

Lemma InvalidateFilter_loop_without_dependency_filters filters : forall i count ptr,
  Forall (fun filter => ¬ dependency_filter filter) filters ->
  InvalidateFilter_loop i filters count ptr = ptr.
Proof.
  induction filters as [| filter rest IH]; intros i count ptr Hnone; [done |].
  apply Forall_cons in Hnone as [Hhead Hrest]. simpl.
  destruct (IsEnabled filter) eqn:Hen; simpl; [| by apply IH].
  destruct (decide (GetAttribute filter = s_dependenciesAttribute)) as [Hattr | Hattr]; [| by apply IH].
  exfalso. apply Hhead. by split.
Qed.

Lemma InvalidateFilter_loop_some filters : forall i count ptr k,
  0 <= count ->
  count + Z.of_nat (length filters) <= INT_MAX ->
  InvalidateFilter_loop i filters count ptr = Some k ->
  (ptr = Some k ∧ Forall (fun filter => ¬ dependency_filter filter) filters) ∨
  (count = 0 ∧ ∃ j filter, k = (i + j)%nat ∧ only_dependency_filter filters j filter).
Proof.
  induction filters as [| filter rest IH]; intros i count ptr k Hcount Hbound Hrun.
  - left. by split.
  - simpl in Hrun. rewrite length_cons in Hbound.
    assert (Hshift : forall j other,
              only_dependency_filter rest j other -> ¬ dependency_filter filter ->
              only_dependency_filter (filter :: rest) (S j) other).
    { intros j other (Hat & Hdep & Huniq) Hhead. split; [done |]. split; [done |].
      intros [| j'] g Hg Hgdep; simpl in Hg.
      - injection Hg as <-. contradiction.
      - f_equal. by eapply Huniq. }
    destruct (IsEnabled filter) eqn:Hen; simpl in Hrun.
    + destruct (decide (GetAttribute filter = s_dependenciesAttribute)) as [Hattr | Hattr].
      * rewrite wrap_int_small in Hrun by (unfold INT_MIN, INT_MAX in *; lia).
        apply IH in Hrun as [[Hptr Hnone] | [Hzero _]]; [| lia | lia | lia].
        destruct (Z.eqb_spec (count + 1) 1) as [Hone | Hmore]; [| discriminate].
        injection Hptr as <-. right. split; [lia |].
        exists 0%nat, filter. split; [lia |]. split; [done |]. split; [by split |].
        intros [| j'] g Hg Hgdep; [done |]. simpl in Hg.
        exfalso. eapply Forall_forall in Hnone; [by apply Hnone |].
        by eapply list_elem_of_lookup_2.
      * apply IH in Hrun as [[Hptr Hnone] | [Hzero (j & other & -> & Honly)]]; [| | lia | lia].
        -- left. split; [done |]. constructor; [| done]. by intros [_ ?].
        -- right. split; [done |]. exists (S j), other. split; [lia |].
           apply Hshift; [done |]. by intros [_ ?].
    + apply IH in Hrun as [[Hptr Hnone] | [Hzero (j & other & -> & Honly)]]; [| | lia | lia].
      * left. split; [done |]. constructor; [| done]. intros [Hen' _]. congruence.
      * right. split; [done |]. exists (S j), other. split; [lia |].
        apply Hshift; [done |]. intros [Hen' _]. congruence.
Qed.

Lemma InvalidateFilter_loop_only filters : forall i ptr j filter,
  only_dependency_filter filters j filter ->
  InvalidateFilter_loop i filters 0 ptr = Some (i + j)%nat.
Proof.
  induction filters as [| head rest IH]; intros i ptr j filter (Hat & Hdep & Huniq); [done |].
  simpl. destruct (decide (dependency_filter head)) as [[Hen Hattr] | Hhead].
  - rewrite Hen. simpl. rewrite decide_True by done.
    assert (j = 0%nat) as -> by (symmetry; by eapply (Huniq 0%nat head)).
    change (wrap_int (0 + 1) =? 1) with true. cbv iota.
    rewrite InvalidateFilter_loop_without_dependency_filters; [f_equal; lia |].
    apply Forall_forall. intros g Hg Hgdep.
    apply list_elem_of_lookup_1 in Hg as [j' Hj'].
    by specialize (Huniq (S j') g Hj' Hgdep).
  - destruct j as [| j]; [simpl in Hat; injection Hat as ->; contradiction |].
    simpl in Hat.
    assert (Hrest : only_dependency_filter rest j filter).
    { split; [done |]. split; [done |]. intros j' g Hg Hgdep.
      specialize (Huniq (S j') g Hg Hgdep). lia. }
    replace (i + S j)%nat with (S i + j)%nat by lia.
    destruct (IsEnabled head) eqn:Hen; simpl; [| exact (IH (S i) ptr j filter Hrest)].
    destruct (decide (GetAttribute head = s_dependenciesAttribute)) as [Hattr | Hattr];
      [| exact (IH (S i) ptr j filter Hrest)].
    exfalso. apply Hhead. by split.
Qed.

Lemma InvalidateFilter_only m_filters i :
  Z.of_nat (length m_filters) <= INT_MAX ->
  InvalidateFilter m_filters = Some i ↔ ∃ filter, only_dependency_filter m_filters i filter.
Proof.
  intros Hlen. unfold InvalidateFilter. split.
  - intros [[? _] | [_ (j & filter & -> & Honly)]]%InvalidateFilter_loop_some; [done | | lia | lia].
    by exists filter.
  - intros [filter Honly]. by rewrite (InvalidateFilter_loop_only m_filters 0 None i filter).
Qed.

Lemma only_dependency_filter_count (filters : list CAttributeFilter) :
  length (filter dependency_filter filters) = 1%nat ↔
  ∃ i f, only_dependency_filter filters i f.
Proof.
  induction filters as [| head rest IH].
  - split; [done | intros (i & f & Hat & _); done].
  - destruct (decide (dependency_filter head)) as [Hhead | Hhead].
    + rewrite filter_cons_True by done. simpl. split.
      * intros Hnil. exists 0%nat, head. split; [done |]. split; [done |].
        intros [| j] g Hg Hgdep; [done |]. simpl in Hg. exfalso.
        assert (g ∈ filter dependency_filter rest) as Hin.
        { apply list_elem_of_filter. split; [done |]. by eapply list_elem_of_lookup_2. }
        destruct (filter dependency_filter rest); [by apply elem_of_nil in Hin | done].
      * intros (i & f & Hat & Hdep & Huniq). f_equal.
        destruct (filter dependency_filter rest) as [| g l] eqn:Hf; [done |]. exfalso.
        assert (g ∈ filter dependency_filter rest) as [Hgdep Hin]%list_elem_of_filter
          by (rewrite Hf; apply list_elem_of_here).
        apply list_elem_of_lookup_1 in Hin as [j Hj].
        pose proof (Huniq 0%nat head eq_refl Hhead) as Hfirst.
        pose proof (Huniq (S j) g Hj Hgdep) as Hlater. lia.
    + rewrite filter_cons_False by done. rewrite IH. split.
      * intros (i & f & Hat & Hdep & Huniq). exists (S i), f.
        split; [done |]. split; [done |].
        intros [| j] g Hg Hgdep; simpl in Hg; [injection Hg as <-; contradiction |].
        f_equal. by eapply Huniq.
      * intros ([| i] & f & Hat & Hdep & Huniq); simpl in Hat; [injection Hat as <-; contradiction |].
        exists i, f. split; [done |]. split; [done |].
        intros j g Hg Hgdep. specialize (Huniq (S j) g Hg Hgdep). lia.
Qed.

(** X5.  InvalidateFilter remembers a dependency filter exactly when the
    filter list has one and only one enabled filter on the dependencies
    attribute, and then it is that filter; with none or with several it
    remembers nothing.  The filters are counted in an int, which does not
    overflow for a list of at most INT_MAX filters. *)
Theorem InvalidateFilter_keeps_the_only_dependency_filter (m_filters : list CAttributeFilter) :
  Z.of_nat (length m_filters) <= INT_MAX ->
  (forall i, InvalidateFilter m_filters = Some i ↔ ∃ filter, only_dependency_filter m_filters i filter) ∧
  (InvalidateFilter m_filters = None ↔
     length (filter dependency_filter m_filters) ≠ 1%nat).
Proof.
  intros Hlen. split; [intros i; by apply InvalidateFilter_only |].
  rewrite only_dependency_filter_count. split.
  - intros Hnone (i & f & Honly).
    assert (InvalidateFilter m_filters = Some i) as Hsome by (apply InvalidateFilter_only; eauto).
    congruence.
  - intros Hnone. destruct (InvalidateFilter m_filters) as [i |] eqn:Hrun; [| done].
    exfalso. apply Hnone. exists i. by apply InvalidateFilter_only.
Qed.


(** X6.  The usage count column, read while the proxy model has set its
    detail context after InvalidateFilter: without exactly one enabled
    dependency filter it shows "n/a"; with exactly one it shows the count
    that filter's operator reports for the filter's value, or "n/a" when
    there is no operator, no use, or a count of zero (the result is
    undefined for an operator that is not a dependency operator).  For every role but
    the display role the column is empty. *)
Theorem usage_count_needs_the_only_dependency_filter (m_filters : list CAttributeFilter) (asset : Z) :
  Z.of_nat (length m_filters) <= INT_MAX ->
  let context := UsageCountAttributeContext m_filters (InvalidateFilter m_filters) in
  (length (filter dependency_filter m_filters) ≠ 1%nat ->
     context = None ∧
     usageCount_column context asset DisplayRole = Some (StringValue "n/a")) ∧
  (forall i filter, only_dependency_filter m_filters i filter ->
     context = Some filter ∧
     usageCount_column context asset DisplayRole =
       match GetOperator filter with
       | None => Some (StringValue "n/a")
       | Some op =>
           usageInfo ← GetUsageInfo op asset (QVariant_toString (GetFilterValue filter));
           Some (if usageInfo.1 && negb (usageInfo.2 =? 0) then IntValue usageInfo.2
                 else StringValue "n/a")
       end) ∧
  (forall role, role ≠ DisplayRole -> usageCount_column context asset role = Some NoValue).
Proof.
  intros Hlen. cbv zeta. split; [| split].
  - intros Hcount.
    assert (InvalidateFilter m_filters = None) as ->.
    { destruct (InvalidateFilter m_filters) as [i |] eqn:Hrun; [| done].
      exfalso. apply InvalidateFilter_only in Hrun as [f Honly]; [| done].
      apply Hcount. apply only_dependency_filter_count. eauto. }
    done.
  - intros i filter Honly.
    assert (InvalidateFilter m_filters = Some i) as -> by (apply InvalidateFilter_only; eauto).
    destruct Honly as (Hat & _ & _). unfold UsageCountAttributeContext. simpl. rewrite Hat.
    split; [done |]. unfold usageCount_column, GetValue.
    rewrite decide_False by (intros Hne; by apply Hne).
    destruct (GetOperator filter) as [op |]; [| done].
    destruct (GetUsageInfo op asset (QVariant_toString (GetFilterValue filter))) as [usageInfo |]; simpl; [| done].
    by destruct (usageInfo.1 && negb (usageInfo.2 =? 0)).
  - intros role Hrole. unfold usageCount_column. by rewrite decide_True.
Qed.

(** X7.  Whenever the usage count column shows a number for an asset, the
    dependency operator of the filter matches that asset and the number is
    not zero; the path must hold no NUL character, since GetUsageInfo passes
    it on as a C string and Match as a string.  Apart from that, and for
    every value, CUse and CUsedBy match when the filter value is invalid. *)
Theorem usage_count_agrees_with_Match :
  (forall (op : Operator) (filter : CAttributeFilter) (value : QVariant) (n : Z),
     let asset := value_intptr value in
     let path := QVariant_toString (GetFilterValue filter) in
     GetOperator filter = Some op ->
     isValid value = true ->
     asset ≠ 0 ->
     c_str path = path ->
     GetValue (Some filter) asset = Some (IntValue n) ->
     Match op value (GetFilterValue filter) = Some true ∧ n ≠ 0) ∧
  (forall (op : Operator) (value : QVariant),
     op = CUse ∨ op = CUsedBy -> Match op value QVInvalid = Some true).
Proof.
  split; [| by intros op value [-> | ->]].
  cbv zeta. intros op filter value n Hop Hvalid Hasset Hpath Hvalue.
  unfold GetValue in Hvalue. rewrite Hop in Hvalue.
  destruct op as [| | id]; simpl in Hvalue; [| | discriminate].
  - rewrite Hpath in Hvalue.
    destruct (CAsset_DoesAssetUse (value_intptr value) (QVariant_toString (GetFilterValue filter)))
      as [used count] eqn:Huse.
    simpl in Hvalue. destruct used; simpl in Hvalue; [| discriminate].
    destruct (Z.eqb_spec count 0) as [Hzero | Hcount]; simpl in Hvalue; [discriminate |].
    injection Hvalue as <-. split; [| done].
    unfold Match, CUse_Match. rewrite Hvalid.
    destruct (isValid (GetFilterValue filter)); simpl; [| done].
    destruct (Z.eqb_spec (value_intptr value) 0); [contradiction |]. by rewrite Huse.
  - rewrite Hpath in Hvalue.
    destruct (CAsset_IsAssetUsedBy (value_intptr value) (QVariant_toString (GetFilterValue filter)))
      as [used count] eqn:Huse.
    simpl in Hvalue. destruct used; simpl in Hvalue; [| discriminate].
    destruct (Z.eqb_spec count 0) as [Hzero | Hcount]; simpl in Hvalue; [discriminate |].
    injection Hvalue as <-. split; [| done].
    unfold Match, CUsedBy_Match. rewrite Hvalid.
    destruct (isValid (GetFilterValue filter)); simpl; [| done].
    destruct (Z.eqb_spec (value_intptr value) 0); [contradiction |]. by rewrite Huse.
Qed.

(** X8.  rowMatchesFilter rejects a row whose source index is invalid.  A
    folder row is accepted exactly when the deep filter accepts it and every
    enabled filter on the name attribute matches its display name: filters
    on other attributes and disabled filters play no part.  Every other row
    is left to the attribute filter proxy. *)
Theorem rowMatchesFilter_tests_folders_by_name `{SourceModel} (m_filters : list CAttributeFilter)
    (sourceRow : Z) (sourceParent : QModelIndex) :
  let index := sourceModel_index sourceRow eAssetColumns_Name sourceParent in
  let rowType := (toUInt (data index TypeCheckRole)).1 in
  (index_isValid index = false -> rowMatchesFilter m_filters sourceRow sourceParent = false) ∧
  (index_isValid index = true -> rowType = eAssetModelRow_Folder ->
     (rowMatchesFilter m_filters sourceRow sourceParent = true ↔
        QDeepFilterProxyModel_rowMatchesFilter sourceRow sourceParent = true ∧
        forall filter, filter ∈ m_filters -> name_filter filter ->
                       filter_Match filter (data index DisplayRole) = true) ∧
     rowMatchesFilter m_filters sourceRow sourceParent
     = rowMatchesFilter (filter name_filter m_filters) sourceRow sourceParent) ∧
  (index_isValid index = true -> rowType ≠ eAssetModelRow_Folder ->
     rowMatchesFilter m_filters sourceRow sourceParent
     = QAttributeFilterProxyModel_rowMatchesFilter m_filters sourceRow sourceParent).
Proof.
  cbv zeta. unfold rowMatchesFilter. split; [| split].
  - intros ->. done.
  - intros -> ->. rewrite Z.eqb_refl. simpl.
    set (index := sourceModel_index sourceRow eAssetColumns_Name sourceParent).
    set (test := fun filter : CAttributeFilter =>
                   if IsEnabled filter && bool_decide (GetAttribute filter = s_nameAttribute)
                   then filter_Match filter (data index DisplayRole) else true).
    assert (Hname : forall filter, name_filter filter ↔
              IsEnabled filter && bool_decide (GetAttribute filter = s_nameAttribute) = true).
    { intros filter. unfold name_filter. rewrite andb_true_iff, bool_decide_eq_true. done. }
    assert (Hall : forall filters : list CAttributeFilter,
              forallb test filters = true ↔
              forall filter, filter ∈ filters -> name_filter filter ->
                             filter_Match filter (data index DisplayRole) = true).
    { intros filters. rewrite forallb_forall. split.
      - intros Hf filter Hin Hn. specialize (Hf filter (proj1 (list_elem_of_In _ _) Hin)).
        unfold test in Hf. apply Hname in Hn. by rewrite Hn in Hf.
      - intros Hf filter Hin%list_elem_of_In. unfold test.
        destruct (IsEnabled filter && bool_decide (GetAttribute filter = s_nameAttribute)) eqn:Hn; [| done].
        apply Hf; [done | by apply Hname]. }
    destruct (QDeepFilterProxyModel_rowMatchesFilter sourceRow sourceParent).
    + split.
      * rewrite Hall. split; [by intros ? | by intros [_ ?]].
      * apply eq_true_iff_eq. rewrite !Hall. split.
        -- intros Hf filter [Hn Hin]%list_elem_of_filter _. by apply Hf.
        -- intros Hf filter Hin Hn. apply Hf; [| done]. by apply list_elem_of_filter.
    + split; [| done]. split; [done | by intros [? _]].
  - intros -> Htype. simpl. by destruct (Z.eqb_spec (toUInt (data (sourceModel_index sourceRow eAssetColumns_Name sourceParent) TypeCheckRole)).1 eAssetModelRow_Folder).
Qed.

End FilterFacts.

End DependencyFilters.

Section FilterWitnesses.
Import Strings AssetSystem Private_AssetBrowser_Filters.
#[local] Existing Instances Samples.conversions Samples.rowTypes MoreSamples.stringConversions MoreSamples.assets.

Lemma InvalidateFilter_keeps_the_only_dependency_filter_witness :
  InvalidateFilter MoreSamples.filters = Some 1%nat.
Proof.
  apply (proj1 (InvalidateFilter_keeps_the_only_dependency_filter MoreSamples.filters
                  ltac:(vm_compute; discriminate)) 1%nat).
  exists MoreSamples.usedByFilter. split; [reflexivity |]. split; [by split |].
  intros [| [| j]] other Hother [_ Hattribute]; [| reflexivity |].
  - injection Hother as <-. discriminate.
  - discriminate.
Defined.

Lemma usage_count_needs_the_only_dependency_filter_witness :
  usageCount_column
    (UsageCountAttributeContext MoreSamples.filters (InvalidateFilter MoreSamples.filters))
    4096 DisplayRole
  = Some (IntValue 3).
Proof.
  destruct (usage_count_needs_the_only_dependency_filter MoreSamples.filters 4096
              ltac:(vm_compute; discriminate)) as (_ & Honly & _).
  destruct (Honly 1%nat MoreSamples.usedByFilter) as [_ Hcolumn].
  - split; [reflexivity |]. split; [by split |].
    intros [| [| j]] other Hother [_ Hattribute]; [| reflexivity |].
    + injection Hother as <-. discriminate.
    + discriminate.
  - exact Hcolumn.
Defined.

Lemma usage_count_agrees_with_Match_witness :
  GetValue (Some MoreSamples.usedByFilter) 4096 = Some (IntValue 3) ∧
  Match CUsedBy (QVLongLong 4096) (GetFilterValue MoreSamples.usedByFilter) = Some true ∧
  3 ≠ 0.
Proof.
  split; [reflexivity |].
  apply (proj1 usage_count_agrees_with_Match CUsedBy MoreSamples.usedByFilter (QVLongLong 4096) 3);
    try reflexivity.
  vm_compute. discriminate.
Defined.

End FilterWitnesses.

Section RootFolder.
Import Strings AssetSystem Private_AssetBrowser_DragDrop.

(** ** Dragging into the root folder *)

Section DragDropFacts.
Context `{TView} `{CAssetFoldersModel}.

(** X9.  dropEvent hands a drop to the folders model, at the index of the
    root folder, exactly when the view's own handler has not accepted it, a
    root folder is assigned and no item lies under the cursor; it accepts the
    event if the model took the drop.  A drop the view accepted stays
    accepted.  dragEnterEvent and dragMoveEvent never drop anything, and
    without a root folder dragEnterEvent does not ask the folders model. *)
Theorem dropEvent_passes_unhandled_drops_to_the_root (view : ViewKind) (m_root : option QString) (pEvent : QDropEvent) :
  let handled := TView_BaseDropEvent view pEvent in
  let unhandled :=
    isAccepted handled = false ∧ m_root ≠ None ∧ indexAt_isValid view (pos handled) = false in
  let root := FindIndexForFolder (default "" m_root) in
  let passed_on :=
    CAssetFoldersModel_dropMimeData (mimeData handled) (dropAction handled)
      (index_row root) (index_column root) (QModelIndex_parent root) in
  let dropped :=
    dropMimeData (mimeData handled) (dropAction handled)
      (index_row root) (index_column root) (QModelIndex_parent root) in
  (unhandled ->
     (dropEvent view m_root pEvent).2 = [Base_dropEvent view pEvent; passed_on] ∧
     (dropEvent view m_root pEvent).1 = (if dropped then accept handled else handled)) ∧
  (¬ unhandled ->
     dropEvent view m_root pEvent = (handled, [Base_dropEvent view pEvent])) ∧
  (isAccepted handled = true -> isAccepted (dropEvent view m_root pEvent).1 = true) ∧
  Forall (fun e => is_folders_model_call e = false) (dragEnterEvent view None pEvent).2 ∧
  Forall (fun e => is_dropMimeData e = false) (dragEnterEvent view m_root pEvent).2 ∧
  Forall (fun e => is_dropMimeData e = false) (dragMoveEvent view m_root pEvent).2.
Proof.
  cbv zeta. unfold dropEvent, dragEnterEvent, dragMoveEvent, dragEnterMoveRoot, Processed.
  split; [| split; [| split; [| split; [| split]]]].
  - intros (-> & Hroot & ->). rewrite bool_decide_eq_false_2 by done. simpl. done.
  - intros Hnot.
    destruct (isAccepted (TView_BaseDropEvent view pEvent)) eqn:Hacc; simpl; [done |].
    case_bool_decide as Hroot; simpl; [done |].
    destruct (indexAt_isValid view (pos (TView_BaseDropEvent view pEvent))) eqn:Hat; simpl; [done |].
    exfalso. by apply Hnot.
  - intros Hacc. rewrite Hacc. simpl. exact Hacc.
  - rewrite bool_decide_eq_true_2 by done. rewrite orb_true_r. simpl. by repeat constructor.
  - destruct (negb _); repeat constructor.
  - destruct (negb _); repeat constructor.
Qed.

End DragDropFacts.

Section MoveFacts.
Context `{Assets}.

(** X10.  IsMovePossible holds exactly when the destination folder is not
    empty, does not start with '%', and is the folder of none of the assets
    (compared as C strings, after a slash is added); if a list of assets
    can be moved, so can any list of assets taken from it. *)
Theorem IsMovePossible_refuses_aliases_and_own_folder (assets : list Z) (destinationFolder : string) :
  (IsMovePossible assets destinationFolder = true ↔
     destinationFolder ≠ "" ∧
     (forall rest, destinationFolder ≠ String "%" rest) ∧
     forall pAsset, pAsset ∈ assets ->
       c_str (PathUtil_AddSlash destinationFolder) ≠ c_str (CAsset_GetFolder pAsset)) ∧
  (forall fewer, fewer ⊆ assets ->
     IsMovePossible assets destinationFolder = true -> IsMovePossible fewer destinationFolder = true).
Proof.
  assert (Hspec : forall assets,
            IsMovePossible assets destinationFolder = true ↔
            destinationFolder ≠ "" ∧
            (forall rest, destinationFolder ≠ String "%" rest) ∧
            forall pAsset, pAsset ∈ assets ->
              c_str (PathUtil_AddSlash destinationFolder) ≠ c_str (CAsset_GetFolder pAsset)).
  { clear assets. intros assets. unfold IsMovePossible.
    destruct destinationFolder as [| front rest]; [split; [done | by intros [? _]] |].
    destruct (Ascii.eqb_spec front "%") as [-> | Hfront].
    - split; [done |]. intros (_ & Halias & _). by destruct (Halias rest).
    - rewrite negb_true_iff. split.
      + intros Hnone. split; [done |]. split; [intros rest' [= ? _]; done |].
        intros pAsset Hin Heq.
        assert (existsb (fun pAsset => strcmp_equal (PathUtil_AddSlash (String front rest)) (CAsset_GetFolder pAsset)) assets = true) as Hex; [| congruence].
        apply existsb_exists. exists pAsset. split; [by apply list_elem_of_In |].
        unfold strcmp_equal. by apply String.eqb_eq.
      + intros (_ & _ & Hall).
        destruct (existsb _ assets) eqn:Hex; [| done].
        apply existsb_exists in Hex as (pAsset & Hin%list_elem_of_In & Heq).
        unfold strcmp_equal in Heq. apply String.eqb_eq in Heq. by destruct (Hall pAsset Hin). }
  split; [apply Hspec |].
  intros fewer Hsub. rewrite !Hspec. intros (Hne & Halias & Hall).
  split; [done |]. split; [done |]. intros pAsset Hin. apply Hall. by apply Hsub.
Qed.

End MoveFacts.

(** ** The root folder follows the folder selection *)

Section RootFolderFacts.
Context `{Conversions} `{ViewMode} `{Widgets} `{TView} `{CAssetFoldersModel}.

Lemma OnFolderSelectionChanged_roots selectedFolders b b' :
  OnFolderSelectionChanged selectedFolders b = inr b' ->
  view_root (m_detailsView b') = view_root (m_thumbnailView b') ∧
  view_root (m_detailsView b') =
    match selectedFolders with
    | [folder] => Some folder
    | _ => None
    end.
Proof.
  unfold OnFolderSelectionChanged, QVector_resize, QList_first.
  destruct selectedFolders as [| first [| second rest]].
  - simpl. discriminate.
  - simpl. destruct (m_dontPushNavHistory b); simpl;
      try (intros [= <-]; simpl; done);
      destruct (m_navigationIndex b <? count (m_navigationHistory b) - 1);
      try destruct (m_navigationIndex b + 1 <? 0); simpl;
      try discriminate; intros [= <-]; simpl; done.
  - replace (1 <? Z.of_nat (length (first :: second :: rest))) with true
      by (symmetry; apply Z.ltb_lt; simpl length; lia).
    simpl. destruct (m_dontPushNavHistory b); simpl;
      try (intros [= <-]; simpl; done);
      destruct (m_navigationIndex b <? count (m_navigationHistory b) - 1);
      try destruct (m_navigationIndex b + 1 <? 0); simpl;
      try discriminate; intros [= <-]; simpl; done.
Qed.

(** X11.  After a folder selection change the two asset views take drops
    into their root as follows: with several folders selected no root folder
    is assigned and a drop is left to the view alone; with one folder
    selected that folder is the root, and a drop the view did not accept
    outside any item goes to the folders model at that folder's index. *)
Theorem drops_into_the_root_follow_the_folder_selection
    (selectedFolders : QStringList) (b b' : CAssetBrowser) (view : ViewKind) (pEvent : QDropEvent) :
  OnFolderSelectionChanged selectedFolders b = inr b' ->
  let m_root :=
    match view with
    | DetailsView => view_root (m_detailsView b')
    | ThumbnailsView => view_root (m_thumbnailView b')
    end in
  let handled := TView_BaseDropEvent view pEvent in
  ((1 < length selectedFolders)%nat ->
     m_root = None ∧
     dropEvent view m_root pEvent = (handled, [Base_dropEvent view pEvent])) ∧
  (forall folder, selectedFolders = [folder] ->
     m_root = Some folder ∧
     (isAccepted handled = false -> indexAt_isValid view (pos handled) = false ->
        let root := FindIndexForFolder folder in
        (dropEvent view m_root pEvent).2 =
          [Base_dropEvent view pEvent;
           CAssetFoldersModel_dropMimeData (mimeData handled) (dropAction handled)
             (index_row root) (index_column root) (QModelIndex_parent root)])).
Proof.
  intros Hrun. apply OnFolderSelectionChanged_roots in Hrun as [Hsame Hroot].
  cbv zeta.
  assert (Hview : match view with
                  | DetailsView => view_root (m_detailsView b')
                  | ThumbnailsView => view_root (m_thumbnailView b')
                  end = match selectedFolders with [folder] => Some folder | _ => None end).
  { destruct view; congruence. }
  rewrite Hview. split.
  - intros Hlen. destruct selectedFolders as [| first [| second rest]]; simpl in Hlen; try lia.
    split; [done |]. unfold dropEvent, Processed. simpl. by rewrite orb_true_r.
  - intros folder ->. split; [done |]. intros Hacc Hat.
    unfold dropEvent, Processed. rewrite Hacc, Hat. simpl. done.
Qed.

End RootFolderFacts.

End RootFolder.

Section DragDropWitnesses.
Import Strings AssetSystem Private_AssetBrowser_DragDrop.
#[local] Existing Instances Samples.conversions Samples.viewModes Samples.widgets
  MoreSamples.tview MoreSamples.foldersModel.

Lemma drops_into_the_root_follow_the_folder_selection_witness :
  ∃ b', OnFolderSelectionChanged ["Assets/Objects"] Samples.browser = inr b' ∧
        view_root (m_thumbnailView b') = Some "Assets/Objects" ∧
        (dropEvent ThumbnailsView (view_root (m_thumbnailView b')) MoreSamples.drop).2
        = [Base_dropEvent ThumbnailsView MoreSamples.drop;
           CAssetFoldersModel_dropMimeData 8192 2 0 0 Samples.folderRow].
Proof.
  eexists. split; [vm_compute; reflexivity |].
  match goal with
  | |- context [m_thumbnailView ?b'] =>
      destruct (drops_into_the_root_follow_the_folder_selection
                  ["Assets/Objects"] Samples.browser b' ThumbnailsView MoreSamples.drop)
        as [_ Hone]; [vm_compute; reflexivity |]
  end.
  destruct (Hone "Assets/Objects" eq_refl) as [Hroot Hdrop].
  split; [exact Hroot |]. apply Hdrop; reflexivity.
Defined.

End DragDropWitnesses.

Section Breadcrumbs.
Import Strings AssetSystem CAssetBrowser_Breadcrumbs.

(** ** The breadcrumbs bar *)

Lemma string_app_nil_l (s : string) : "" +:+ s = s.
Proof. reflexivity. Qed.

Lemma string_app_cons (c : ascii) (s t : string) : String c s +:+ t = String c (s +:+ t).
Proof. reflexivity. Qed.

Lemma string_app_nil_r (s : string) : s +:+ "" = s.
Proof. induction s as [| c s IH]; [done |]. by rewrite string_app_cons, IH. Qed.

Lemma string_app_assoc (a b c : string) : (a +:+ b) +:+ c = a +:+ (b +:+ c).
Proof. induction a as [| x a IH]; [done |]. by rewrite !string_app_cons, IH. Qed.

Lemma string_take_all (s : string) : string_take (String.length s) s = s.
Proof. induction s as [| c s IH]; simpl; [done | by rewrite IH]. Qed.

Lemma string_drop_all (s : string) : string_drop (String.length s) s = "".
Proof. induction s as [| c s IH]; simpl; done. Qed.

Lemma string_drop_length (n : nat) : forall s : string,
  String.length (string_drop n s) = (String.length s - n)%nat.
Proof. induction n as [| n IH]; intros [| c s]; simpl; try done. Qed.

Lemma string_take_drop (n : nat) : forall s : string,
  string_take n s +:+ string_drop n s = s.
Proof.
  induction n as [| n IH]; intros [| c s]; simpl; try done.
  by rewrite string_app_cons, IH.
Qed.

Lemma string_take_add (n k : nat) : forall s : string,
  string_take (n + k) s = string_take n s +:+ string_take k (string_drop n s).
Proof.
  induction n as [| n IH]; intros s; simpl.
  - by destruct s.
  - destruct s as [| c s]; simpl; [by destruct k | by rewrite string_app_cons, IH].
Qed.

Lemma string_drop_add (n k : nat) : forall s : string,
  string_drop (n + k) s = string_drop k (string_drop n s).
Proof.
  induction n as [| n IH]; intros s; simpl.
  - done.
  - destruct s as [| c s]; simpl; [by destruct k | by rewrite IH].
Qed.

(** Where find_char finds [c], the string splits around it. *)
Lemma find_char_Some (c : ascii) (s : string) : forall k,
  find_char c s = Some k ->
  (k < String.length s)%nat ∧
  find_char c (string_take k s) = None ∧
  string_take (S k) s = string_take k s +:+ String c "" ∧
  s = string_take k s +:+ String c (string_drop (S k) s).
Proof.
  induction s as [| x s IH]; intros k; simpl; [done |].
  destruct (Ascii.eqb_spec x c) as [-> | Hne].
  - intros [= <-]. simpl. split; [lia |]. done.
  - destruct (find_char c s) as [k' |] eqn:Hfind; simpl; [| done].
    intros [= <-]. destruct (IH k' eq_refl) as (Hlt & Hnone & Htake & Hsplit).
    split; [lia |]. split; [| split].
    + simpl. destruct (Ascii.eqb_spec x c); [done |]. by rewrite Hnone.
    + change (string_take (S (S k')) (String x s)) with (String x (string_take (S k') s)).
      rewrite Htake. done.
    + change (string_take (S k') (String x s)) with (String x (string_take k' s)).
      by rewrite string_app_cons, <- Hsplit.
Qed.

Lemma crumbs_of_last (path : string) (rest : string) : forall before crumb,
  find_char "/" rest = None ->
  crumbs_of path before crumb rest = [(crumb +:+ rest, path)].
Proof.
  induction rest as [| c rest IH]; intros before crumb; simpl.
  - by rewrite string_app_nil_r.
  - destruct (Ascii.eqb c "/"); [done |].
    destruct (find_char "/" rest); [done |]. intros _.
    rewrite IH by done. by rewrite string_app_assoc.
Qed.

Lemma crumbs_of_next (path : string) (rest : string) : forall before crumb k,
  find_char "/" rest = Some k ->
  crumbs_of path before crumb rest
  = (crumb +:+ string_take k rest, before +:+ string_take k rest)
    :: crumbs_of path (before +:+ string_take k rest +:+ "/") "" (string_drop (S k) rest).
Proof.
  induction rest as [| c rest IH]; intros before crumb k; simpl; [done |].
  destruct (Ascii.eqb c "/").
  - intros [= <-]. simpl. by rewrite !string_app_nil_r.
  - destruct (find_char "/" rest) as [k' |]; simpl; [| done].
    intros [= <-]. rewrite (IH _ _ k') by done. simpl.
    by rewrite !string_app_assoc, !string_app_cons, !string_app_nil_l.
Qed.

Lemma indexOf_from (path : string) (cur : nat) :
  indexOf path "/" (Z.of_nat cur) =
    if (cur <? String.length path)%nat then
      match find_char "/" (string_drop cur path) with
      | Some k => Z.of_nat (cur + k)
      | None => -1
      end
    else -1.
Proof.
  unfold indexOf.
  replace (Z.of_nat cur <? 0) with false by (symmetry; apply Z.ltb_ge; lia).
  rewrite Nat2Z.id.
  destruct (Nat.ltb_spec cur (String.length path)) as [Hlt | Hge].
  - replace (Z.of_nat cur <? Z.of_nat (String.length path)) with true by (symmetry; apply Z.ltb_lt; lia).
    destruct (find_char "/" (string_drop cur path)); [f_equal; lia | done].
  - by replace (Z.of_nat cur <? Z.of_nat (String.length path)) with false by (symmetry; apply Z.ltb_ge; lia).
Qed.

Lemma mid_from (path : string) (cur n : nat) :
  (cur + n <= String.length path)%nat ->
  mid path (Z.of_nat cur) (Z.of_nat n) = string_take n (string_drop cur path).
Proof.
  intros Hle. unfold mid.
  replace (Z.of_nat (String.length path) <? Z.of_nat cur) with false by (symmetry; apply Z.ltb_ge; lia).
  replace (Z.of_nat cur <? 0) with false by (symmetry; apply Z.ltb_ge; lia).
  replace (Z.of_nat n <? 0) with false by (symmetry; apply Z.ltb_ge; lia).
  replace (Z.of_nat (String.length path) - Z.of_nat cur <? Z.of_nat n) with false
    by (symmetry; apply Z.ltb_ge; lia).
  simpl. by rewrite !Nat2Z.id.
Qed.

Lemma mid_rest (path : string) (cur : nat) :
  (cur <= String.length path)%nat ->
  mid path (Z.of_nat cur) (-1) = string_drop cur path.
Proof.
  intros Hle. unfold mid.
  replace (Z.of_nat (String.length path) <? Z.of_nat cur) with false by (symmetry; apply Z.ltb_ge; lia).
  replace (Z.of_nat cur <? 0) with false by (symmetry; apply Z.ltb_ge; lia).
  simpl. rewrite Nat2Z.id.
  replace (Z.to_nat (Z.of_nat (String.length path) - Z.of_nat cur))
    with (String.length (string_drop cur path)) by (rewrite string_drop_length; lia).
  apply string_take_all.
Qed.

Lemma mid_prefix (path : string) (n : nat) :
  (n <= String.length path)%nat -> mid path 0 (Z.of_nat n) = string_take n path.
Proof. intros Hle. by apply (mid_from path 0 n). Qed.

Lemma mid_all (path : string) : mid path 0 (-1) = path.
Proof. apply (mid_rest path 0). lia. Qed.

(** The loop, entered at a position of the path, adds the breadcrumbs
    [crumbs_of] lists for the rest of the path. *)
Lemma UpdateBreadcrumbsBar_loop_crumbs_of (path : string) (fuel : nat) : forall cur : nat,
  (cur <= String.length path)%nat ->
  (String.length path - cur < fuel)%nat ->
  UpdateBreadcrumbsBar_loop fuel path (Z.of_nat cur)
  = Some (crumbs_of path (string_take cur path) "" (string_drop cur path)).
Proof.
  induction fuel as [| fuel IH]; intros cur Hcur Hfuel; [lia |].
  cbn [UpdateBreadcrumbsBar_loop]. cbv zeta. rewrite indexOf_from.
  destruct (Nat.ltb_spec cur (String.length path)) as [Hlt | Hge].
  - destruct (find_char "/" (string_drop cur path)) as [k |] eqn:Hfind.
    + destruct (find_char_Some _ _ _ Hfind) as (Hk & _ & Htake & _).
      rewrite string_drop_length in Hk.
      replace (Z.of_nat (cur + k) =? -1) with false by (symmetry; apply Z.eqb_neq; lia).
      cbn [negb].
      replace (Z.of_nat (cur + k) - Z.of_nat cur) with (Z.of_nat k) by lia.
      replace (Z.of_nat (cur + k) + 1) with (Z.of_nat (cur + S k)) by lia.
      rewrite IH by lia. simpl.
      rewrite mid_from by lia.
      rewrite mid_prefix by lia.
      rewrite (crumbs_of_next path _ _ _ k Hfind). simpl.
      rewrite string_take_add, string_drop_add.
      f_equal. f_equal. f_equal.
      by rewrite (string_take_add cur (S k)), Htake.
    + simpl. rewrite mid_rest by lia. rewrite mid_all.
      by rewrite (crumbs_of_last path _ _ _ Hfind).
  - assert (cur = String.length path) as -> by lia.
    simpl. rewrite mid_rest by lia. rewrite mid_all.
    rewrite string_drop_all. done.
Qed.

Lemma join_singleton (sep x : string) : join sep [x] = x.
Proof. reflexivity. Qed.

Lemma join_cons (sep x y : string) (l : list string) :
  join sep (x :: y :: l) = x +:+ sep +:+ join sep (y :: l).
Proof.
  unfold join. simpl.
  assert (Hfold : forall (l : list string) (a b : string),
            foldl (fun acc y => acc +:+ sep +:+ y) (a +:+ b) l
            = a +:+ foldl (fun acc y => acc +:+ sep +:+ y) b l).
  { clear. induction l as [| z l IH]; intros a b; simpl; [done |].
    rewrite <- IH. by rewrite string_app_assoc. }
  rewrite Hfold. f_equal. apply (Hfold l sep y).
Qed.

#[local] Arguments join : simpl never.

Lemma crumbs_of_nonempty (path : string) (rest : string) : forall before crumb,
  crumbs_of path before crumb rest ≠ [].
Proof.
  induction rest as [| c rest IH]; intros before crumb; simpl; [done |].
  destruct (Ascii.eqb c "/"); [done | apply IH].
Qed.

Lemma crumbs_of_texts (path : string) (rest : string) : forall before crumb,
  join "/" (crumbs_of path before crumb rest).*1 = crumb +:+ rest.
Proof.
  induction rest as [| c rest IH]; intros before crumb; simpl.
  - by rewrite join_singleton, string_app_nil_r.
  - destruct (Ascii.eqb_spec c "/") as [-> | Hne].
    + destruct (crumbs_of path (before +:+ "/") "" rest) as [| [text data] tail] eqn:Htail;
        [by apply crumbs_of_nonempty in Htail |].
      rewrite fmap_cons, fmap_cons, join_cons, <- fmap_cons, <- Htail, IH. done.
    + rewrite IH. by rewrite string_app_assoc.
Qed.

Lemma crumbs_of_data (rest : string) : forall path prefix before crumb i text data,
  path = prefix +:+ crumb +:+ rest ->
  before = prefix +:+ crumb ->
  crumbs_of path before crumb rest !! i = Some (text, data) ->
  data = prefix +:+ join "/" (take (S i) (crumbs_of path before crumb rest).*1).
Proof.
  induction rest as [| c rest IH]; intros path prefix before crumb i text data Hpath Hbefore; simpl.
  - destruct i as [| i]; simpl; [| done]. intros [= <- <-].
    by rewrite join_singleton, Hpath, string_app_nil_r.
  - destruct (Ascii.eqb_spec c "/") as [-> | Hne].
    + destruct i as [| i]; simpl; [intros [= <- <-]; by rewrite join_singleton |].
      intros Hat.
      pose proof (IH path (before +:+ "/") (before +:+ "/") "" i text data) as Hdata.
      rewrite string_app_nil_r in Hdata.
      specialize (Hdata ltac:(by rewrite Hpath, Hbefore, !string_app_assoc) eq_refl Hat).
      rewrite Hdata.
      destruct (crumbs_of path (before +:+ "/") "" rest) as [| [text' data'] tail];
        [done |].
      simpl. rewrite join_cons, Hbefore, !string_app_assoc. done.
    + intros Hat. eapply (IH path prefix); [| | exact Hat].
      * by rewrite Hpath, !string_app_assoc.
      * by rewrite Hbefore, !string_app_assoc.
Qed.

Lemma crumbs_of_no_slash (path : string) (rest : string) : forall before crumb,
  find_char "/" crumb = None ->
  Forall (fun text => find_char "/" text = None) (crumbs_of path before crumb rest).*1.
Proof.
  assert (Hsnoc : forall (crumb : string) (c : ascii),
            find_char "/" crumb = None -> Ascii.eqb c "/" = false ->
            find_char "/" (crumb +:+ String c "") = None).
  { induction crumb as [| x crumb IH]; intros c; simpl.
    - by intros _ ->.
    - destruct (Ascii.eqb x "/"); [done |].
      destruct (find_char "/" crumb); [done |]. intros _ Hc. by rewrite IH. }
  induction rest as [| c rest IH]; intros before crumb Hcrumb; simpl.
  - by repeat constructor.
  - destruct (Ascii.eqb c "/") eqn:Hc.
    + rewrite fmap_cons. constructor; [done | by apply IH].
    + apply IH. by apply Hsnoc.
Qed.

Section BreadcrumbFacts.
Context `{Conversions} `{ViewMode} `{Widgets}.

(** X12.  The loop of UpdateBreadcrumbsBar ends, within one round per
    character of the path and one more, and leaves at least one breadcrumb.
    The texts of the breadcrumbs are the parts of the path between slashes:
    none holds a slash and joined by slashes they give the path back.  The
    data of each breadcrumb is the path up to and including its own part. *)
Theorem UpdateBreadcrumbsBar_splits_the_path (path : QString) (b : CAssetBrowser) :
  let crumbs := breadcrumbs (m_breadcrumbs (UpdateBreadcrumbsBar path b)) in
  UpdateBreadcrumbsBar_loop (S (String.length path)) path 0 = Some crumbs ∧
  crumbs ≠ [] ∧
  join "/" crumbs.*1 = path ∧
  Forall (fun text => find_char "/" text = None) crumbs.*1 ∧
  (forall i text data, crumbs !! i = Some (text, data) ->
                       data = join "/" (take (S i) crumbs.*1)).
Proof.
  cbv zeta.
  change (breadcrumbs (m_breadcrumbs (UpdateBreadcrumbsBar path b))) with (crumbs_of path "" "" path).
  split; [| split; [| split; [| split]]].
  - exact (UpdateBreadcrumbsBar_loop_crumbs_of path (S (String.length path)) 0 ltac:(lia) ltac:(lia)).
  - apply crumbs_of_nonempty.
  - by rewrite crumbs_of_texts.
  - by apply crumbs_of_no_slash.
  - intros i text data Hat.
    by rewrite (crumbs_of_data path path "" "" "" i text data eq_refl eq_refl Hat).
Qed.

End BreadcrumbFacts.

Section BreadcrumbHandlers.
Context `{StringConversions} `{CAssetFoldersModel} `{Paths}.

(** X13.  ValidatePath accepts a text exactly when OnBreadcrumbsTextChanged
    selects a folder for it.  The handler selects at most one folder, only at
    a valid index, and the index found for the text as typed wins over the
    one found after the current directory is removed from it. *)
Theorem ValidatePath_accepts_what_the_bar_selects (text : QString) :
  (ValidatePath text = true ↔ OnBreadcrumbsTextChanged text ≠ []) ∧
  (length (OnBreadcrumbsTextChanged text) <= 1)%nat ∧
  (forall index, CAssetFoldersView_SelectFolder index ∈ OnBreadcrumbsTextChanged text ->
                 index_isValid index = true) ∧
  (index_isValid (FindIndexForFolder_DisplayFolderPathRole text) = true ->
     OnBreadcrumbsTextChanged text
     = [CAssetFoldersView_SelectFolder (FindIndexForFolder_DisplayFolderPathRole text)]).
Proof.
  unfold ValidatePath, OnBreadcrumbsTextChanged. cbv zeta.
  destruct (index_isValid (FindIndexForFolder_DisplayFolderPathRole text)) eqn:Hfirst.
  - split; [done |]. split; [simpl; lia |]. split; [| done].
    intros index [= ->]%list_elem_of_singleton. done.
  - destruct (QString_contains (QDir_fromNativeSeparators text) (QDir_fromNativeSeparators QDir_currentPath));
      match goal with |- context [index_isValid ?i] =>
        destruct (index_isValid i) eqn:Hsecond
      end;
      (split; [done |]); (split; [simpl; lia |]); (split; [| done]); intros index Hin.
    all: try (apply list_elem_of_singleton in Hin; injection Hin as ->; done).
    all: by apply elem_of_nil in Hin.
Qed.

End BreadcrumbHandlers.

End Breadcrumbs.

Section NavigationHistory.
Import Strings AssetSystem CAssetBrowser_Events.

(** ** More on the navigation history *)

Section NavigationExtras.
Context `{Conversions} `{ViewMode} `{Widgets}.

(** X14.  OnNavForward, for a navigation index of at least -1: if an entry
    follows the current one in the history (and the folders view announces
    only non-empty selections while it serves the request), the index moves
    on by one, the history is unchanged, the folders view is asked to select
    the folders of that entry and the history is open for pushes again.  At the last entry,
    or with an empty history, it reads past the end of the history: there is
    no bounds check of its own. *)
Theorem OnNavForward_reads_the_next_entry (emitted : list QStringList) (b : CAssetBrowser) :
  -1 <= m_navigationIndex b ->
  (m_navigationIndex b < count (m_navigationHistory b) - 1 ->
   Forall (fun selectedFolders => selectedFolders ≠ []) emitted ->
   ∃ b' folders,
     OnNavForward emitted b = inr b' ∧
     m_navigationIndex b' = m_navigationIndex b + 1 ∧
     m_navigationHistory b' = m_navigationHistory b ∧
     m_navigationHistory b !! Z.to_nat (m_navigationIndex b + 1) = Some folders ∧
     folders_requests (m_foldersView b') = folders_requests (m_foldersView b) ++ [SelectFolders folders] ∧
     m_dontPushNavHistory b' = false) ∧
  (count (m_navigationHistory b) - 1 <= m_navigationIndex b ->
   OnNavForward emitted b
   = inl (QVector_index_out_of_range (m_navigationIndex b + 1) (count (m_navigationHistory b)))).
Proof.
  intros Hidx. split.
  - intros Hlt Hemitted. unfold OnNavForward. simpl.
    destruct (QVector_at_inr (m_navigationHistory b) (m_navigationIndex b + 1)) as (folders & Hat & Hlookup);
      [lia |].
    rewrite Hat. simpl.
    match goal with |- context [request (SelectFolders folders) emitted ?b0] =>
      destruct (request_spec (SelectFolders folders) emitted b0 Hemitted)
        as (b' & Hrun & Hpush' & Hhist' & Hidx' & Hview' & _);
        [reflexivity | simpl; lia |]
    end.
    simpl in *. exists (set_dontPushNavHistory false b'), folders.
    rewrite Hrun. simpl. rewrite Hidx', Hhist', Hview'. done.
  - intros Hge. unfold OnNavForward, QVector_at. simpl.
    replace (m_navigationIndex b + 1 <? Z.of_nat (length (m_navigationHistory b))) with false
      by (symmetry; apply Z.ltb_ge; unfold count in Hge; lia).
    by rewrite andb_false_r.
Qed.

(** X15.  Going back and then forward returns to where one was: from a state
    whose index lies within the history and is at least 0, with the folders
    view announcing at least one non-empty selection to each request, both
    calls succeed, and afterwards the index and the history are what they
    were and the history is open for pushes. *)
Theorem OnNavForward_undoes_OnNavBack (back forth : list QStringList) (b : CAssetBrowser) :
  nav_invariant b ->
  0 <= m_navigationIndex b ->
  Forall (fun selectedFolders => selectedFolders ≠ []) back ->
  Forall (fun selectedFolders => selectedFolders ≠ []) forth ->
  ∃ b1 b2,
    OnNavBack back b = inr b1 ∧
    OnNavForward forth b1 = inr b2 ∧
    m_navigationIndex b1 = m_navigationIndex b - 1 ∧
    m_navigationIndex b2 = m_navigationIndex b ∧
    m_navigationHistory b2 = m_navigationHistory b ∧
    m_dontPushNavHistory b2 = false.
Proof.
  intros Hinv Hnonneg Hback Hforth.
  destruct (OnNavBack_spec back b Hinv Hback)
    as (b1 & r & Hrun1 & Hpush1 & Hidx1 & Hhist1 & _).
  replace (0 <=? m_navigationIndex b) with true in Hidx1 by (symmetry; apply Z.leb_le; lia).
  unfold nav_invariant in Hinv.
  destruct (OnNavForward_spec forth b1) as (b2 & Hrun2 & Hpush2 & Hidx2 & Hhist2 & _);
    [rewrite Hidx1, Hhist1; lia | done |].
  exists b1, b2. rewrite Hidx2, Hhist2, Hidx1, Hhist1.
  repeat split; try done. lia.
Qed.

(** X16.  OnFolderSelectionChanged with an empty selection reads the first
    element of an empty list.  With a non-empty selection it succeeds and
    hands the selection to the folder filter model; the breadcrumbs bar is
    shown exactly when one folder is selected (then with the breadcrumbs of
    its pretty path) and the multiple-folders label otherwise (the
    breadcrumbs keep their content). *)
Theorem OnFolderSelectionChanged_needs_a_folder (selectedFolders : QStringList) (b : CAssetBrowser) :
  -1 <= m_navigationIndex b ->
  (selectedFolders = [] -> OnFolderSelectionChanged selectedFolders b = inl QList_first_on_empty) ∧
  (selectedFolders ≠ [] ->
   ∃ b',
     OnFolderSelectionChanged selectedFolders b = inr b' ∧
     acceptedFolders (m_pFolderFilterModel b') = selectedFolders ∧
     (breadcrumbs_visible (m_breadcrumbs b') = true ↔ length selectedFolders = 1%nat) ∧
     m_multipleFoldersLabel b' = negb (breadcrumbs_visible (m_breadcrumbs b')) ∧
     (forall folder, selectedFolders = [folder] ->
        breadcrumbs (m_breadcrumbs b')
        = crumbs_of (CAssetFoldersModel_GetPrettyPath folder) "" "" (CAssetFoldersModel_GetPrettyPath folder)) ∧
     ((1 < length selectedFolders)%nat ->
        breadcrumbs (m_breadcrumbs b') = breadcrumbs (m_breadcrumbs b))).
Proof.
  intros Hidx. split.
  - intros ->. reflexivity.
  - intros Hne. unfold OnFolderSelectionChanged, QVector_resize, QList_first, UpdateBreadcrumbsBar.
    destruct selectedFolders as [| first [| second rest]]; [done | |].
    + simpl. destruct (m_dontPushNavHistory b); simpl.
      * eexists. split; [reflexivity |]. simpl. repeat split; try done.
        -- by intros folder [= ->].
        -- lia.
      * replace (m_navigationIndex b + 1 <? 0) with false by (symmetry; apply Z.ltb_ge; lia).
        destruct (m_navigationIndex b <? count (m_navigationHistory b) - 1); simpl;
          (eexists; split; [reflexivity |]; simpl; repeat split; try done;
           [by intros folder [= ->] | lia]).
    + replace (1 <? Z.of_nat (length (first :: second :: rest))) with true
        by (symmetry; apply Z.ltb_lt; simpl length; lia).
      simpl. destruct (m_dontPushNavHistory b); simpl.
      * eexists. split; [reflexivity |]. simpl. repeat split; try done.
      * replace (m_navigationIndex b + 1 <? 0) with false by (symmetry; apply Z.ltb_ge; lia).
        destruct (m_navigationIndex b <? count (m_navigationHistory b) - 1); simpl;
          (eexists; split; [reflexivity |]; simpl; repeat split; done).
Qed.

End NavigationExtras.

End NavigationHistory.

Section NavigationWitnesses.
Import Strings AssetSystem CAssetBrowser_Events.
#[local] Existing Instances Samples.conversions Samples.viewModes Samples.widgets.

Lemma OnNavForward_reads_the_next_entry_witness :
  OnNavForward [] Samples.visited = inl (QVector_index_out_of_range 2 2).
Proof.
  apply (proj2 (OnNavForward_reads_the_next_entry [] Samples.visited
                  ltac:(vm_compute; discriminate))).
  vm_compute. discriminate.
Defined.

Lemma OnNavForward_undoes_OnNavBack_witness :
  ∃ b1 b2,
    OnNavBack [["Assets/Objects"]] Samples.visited = inr b1 ∧
    OnNavForward [["Assets/Textures"]] b1 = inr b2 ∧
    m_navigationIndex b2 = 1 ∧
    m_navigationHistory b2 = [["Assets/Objects"]; ["Assets/Textures"]].
Proof.
  destruct (OnNavForward_undoes_OnNavBack [["Assets/Objects"]] [["Assets/Textures"]] Samples.visited)
    as (b1 & b2 & Hback & Hforth & _ & Hindex & Hhistory & _).
  - vm_compute. split; discriminate.
  - vm_compute. discriminate.
  - repeat constructor; discriminate.
  - repeat constructor; discriminate.
  - exists b1, b2. split; [exact Hback |]. split; [exact Hforth |].
    split; [exact Hindex | exact Hhistory].
Defined.

Lemma OnFolderSelectionChanged_needs_a_folder_witness :
  OnFolderSelectionChanged [] Samples.browser = inl QList_first_on_empty.
Proof.
  apply (proj1 (OnFolderSelectionChanged_needs_a_folder [] Samples.browser
                  ltac:(vm_compute; discriminate))).
  reflexivity.
Defined.

End NavigationWitnesses.

Section ViewModes.
Import Strings AssetSystem CAssetBrowser_Events.

(** ** More on view modes and layouts *)


Section LayoutExtras.
Context `{Conversions} `{ViewMode} `{Widgets}.











Lemma UpdateModels_foldersView b : m_foldersView (UpdateModels b) = m_foldersView b.
Proof. unfold UpdateModels. repeat case_match; reflexivity. Qed.

Lemma SetViewMode_foldersView viewMode b : m_foldersView (SetViewMode viewMode b) = m_foldersView b.
Proof. unfold SetViewMode, CRY_ASSERT. repeat case_match; reflexivity. Qed.

Lemma SetRecursiveView_foldersView v b : m_foldersView (SetRecursiveView v b) = m_foldersView b.
Proof. unfold SetRecursiveView. case_match; [by rewrite UpdateModels_foldersView | reflexivity]. Qed.

Lemma SetRecursiveSearch_foldersView v b : m_foldersView (SetRecursiveSearch v b) = m_foldersView b.
Proof. unfold SetRecursiveSearch. case_match; [by rewrite UpdateModels_foldersView | reflexivity]. Qed.

(** One step of SetLayout seen through a member it may or may not restore. *)
Ltac member_step :=
  repeat match goal with
         | |- context [match ?x with _ => _ end] => destruct x
         end;
  simpl;
  rewrite ?SetViewMode_viewMode, ?SetViewMode_recursiveView, ?SetViewMode_recursiveSearch,
    ?SetViewMode_foldersView, ?SetRecursiveView_foldersView, ?SetRecursiveSearch_foldersView,
    ?(proj1 (SetRecursiveView_flags _ _)), ?(proj1 (proj2 (SetRecursiveView_flags _ _))),
    ?(proj2 (proj2 (SetRecursiveView_flags _ _))),
    ?(proj1 (SetRecursiveSearch_flags _ _)), ?(proj1 (proj2 (SetRecursiveSearch_flags _ _))),
    ?(proj2 (proj2 (SetRecursiveSearch_flags _ _)));
  first [eassumption | reflexivity].

(** X18.  SetLayout takes the view mode, the two recursion flags and the
    visibility of the folders tree from the state where the state holds
    them; a key the state lacks leaves the corresponding setting of the
    browser as it was. *)
Theorem SetLayout_restores_what_the_state_holds (state : QVariantMap) (b : CAssetBrowser) :
  let b' := SetLayout state b in
  m_viewMode b' =
    (if isValid (value state "viewMode") then toInt (value state "viewMode") else m_viewMode b) ∧
  m_recursiveView b' =
    (if isValid (value state "recursiveView") then toBool (value state "recursiveView")
     else m_recursiveView b) ∧
  m_recursiveSearch b' =
    (if isValid (value state "recursiveSearch") then toBool (value state "recursiveSearch")
     else m_recursiveSearch b) ∧
  folders_visible (m_foldersView b') =
    (if isValid (value state "showFolders") then toBool (value state "showFolders")
     else folders_visible (m_foldersView b)) ∧
  (state !! "viewMode" = None -> m_viewMode b' = m_viewMode b) ∧
  (state !! "recursiveView" = None -> m_recursiveView b' = m_recursiveView b) ∧
  (state !! "recursiveSearch" = None -> m_recursiveSearch b' = m_recursiveSearch b) ∧
  (state !! "showFolders" = None ->
     folders_visible (m_foldersView b') = folders_visible (m_foldersView b)).
Proof.
  cbv zeta.
  assert (Hmain :
    m_viewMode (SetLayout state b) =
      (if isValid (value state "viewMode") then toInt (value state "viewMode") else m_viewMode b) ∧
    m_recursiveView (SetLayout state b) =
      (if isValid (value state "recursiveView") then toBool (value state "recursiveView")
       else m_recursiveView b) ∧
    m_recursiveSearch (SetLayout state b) =
      (if isValid (value state "recursiveSearch") then toBool (value state "recursiveSearch")
       else m_recursiveSearch b) ∧
    folders_visible (m_foldersView (SetLayout state b)) =
      (if isValid (value state "showFolders") then toBool (value state "showFolders")
       else folders_visible (m_foldersView b))).
  { set (P := fun c : CAssetBrowser =>
                m_viewMode c =
                  (if isValid (value state "viewMode") then toInt (value state "viewMode") else m_viewMode b) ∧
                m_recursiveView c =
                  (if isValid (value state "recursiveView") then toBool (value state "recursiveView")
                   else m_recursiveView b) ∧
                m_recursiveSearch c =
                  (if isValid (value state "recursiveSearch") then toBool (value state "recursiveSearch")
                   else m_recursiveSearch b) ∧
                folders_visible (m_foldersView c) =
                  (if isValid (value state "showFolders") then toBool (value state "showFolders")
                   else folders_visible (m_foldersView b))).
    change (P (SetLayout state b)).
    cbv beta delta [SetLayout].
    repeat (step_let;
            repeat match goal with v := _ : QVariant |- _ => subst v end;
            try lazymatch goal with
              | y := _ : CAssetBrowser |- _ =>
                  let Hv := fresh "Hv" in
                  let Hr := fresh "Hr" in
                  let Hs := fresh "Hs" in
                  let Hf := fresh "Hf" in
                  let body := eval cbv delta [y] in y in
                  lazymatch body with
                  | (if isValid ?v then SetViewMode ?m ?b0 else ?b0) =>
                      assert (Hv : m_viewMode y = if isValid v then m else m_viewMode b0)
                        by (subst y; destruct (isValid v); [apply SetViewMode_viewMode | reflexivity])
                  | _ => eassert (Hv : m_viewMode y = _) by (subst y; member_step)
                  end;
                  lazymatch body with
                  | (if isValid ?v then SetRecursiveView ?m ?b0 else ?b0) =>
                      assert (Hr : m_recursiveView y = if isValid v then m else m_recursiveView b0)
                        by (subst y; destruct (isValid v);
                            [apply (proj1 (proj2 (SetRecursiveView_flags _ _))) | reflexivity])
                  | _ => eassert (Hr : m_recursiveView y = _) by (subst y; member_step)
                  end;
                  lazymatch body with
                  | (if isValid ?v then SetRecursiveSearch ?m ?b0 else ?b0) =>
                      assert (Hs : m_recursiveSearch y = if isValid v then m else m_recursiveSearch b0)
                        by (subst y; destruct (isValid v);
                            [apply (proj2 (proj2 (SetRecursiveSearch_flags _ _))) | reflexivity])
                  | _ => eassert (Hs : m_recursiveSearch y = _) by (subst y; member_step)
                  end;
                  lazymatch body with
                  | (if isValid ?v then set_foldersView _ ?b0 else ?b0) =>
                      assert (Hf : folders_visible (m_foldersView y)
                                   = if isValid v then toBool v else folders_visible (m_foldersView b0))
                        by (subst y; destruct (isValid v); reflexivity)
                  | _ => eassert (Hf : folders_visible (m_foldersView y) = _) by (subst y; member_step)
                  end;
                  clearbody y
              end).
    subst P. cbv beta. unfold UpdateNavigation. simpl.
    repeat match goal with
           | Heq : m_viewMode _ = _ |- _ => rewrite Heq; clear Heq
           | Heq : m_recursiveView _ = _ |- _ => rewrite Heq; clear Heq
           | Heq : m_recursiveSearch _ = _ |- _ => rewrite Heq; clear Heq
           | Heq : folders_visible _ = _ |- _ => rewrite Heq; clear Heq
           end.
    done. }
  destruct Hmain as (Hv & Hr & Hs & Hf).
  split; [exact Hv |]. split; [exact Hr |]. split; [exact Hs |]. split; [exact Hf |].
  unfold value in *.
  split; [intros Hk; by rewrite Hk in Hv |]. split; [intros Hk; by rewrite Hk in Hr |].
  split; [intros Hk; by rewrite Hk in Hs |]. intros Hk; by rewrite Hk in Hf.
Qed.

(** X19.  Whatever the state holds, SetLayout leaves an empty navigation
    history, the navigation index -1 and both navigation buttons
    disabled. *)
Theorem SetLayout_forgets_the_navigation_history (state : QVariantMap) (b : CAssetBrowser) :
  m_navigationHistory (SetLayout state b) = [] ∧
  m_navigationIndex (SetLayout state b) = -1 ∧
  m_backButton (SetLayout state b) = false ∧
  m_forwardButton (SetLayout state b) = false.
Proof.
  set (P := fun c : CAssetBrowser =>
              m_navigationHistory c = [] ∧ m_navigationIndex c = -1 ∧
              m_backButton c = false ∧ m_forwardButton c = false).
  change (P (SetLayout state b)).
  cbv beta delta [SetLayout].
  repeat (step_let; try match goal with y := _ : CAssetBrowser |- _ => clearbody y end).
  subst P. cbv beta. unfold UpdateNavigation. simpl. done.
Qed.

End LayoutExtras.

End ViewModes.

Section ViewModeWitnesses.
#[local] Existing Instances Samples.conversions Samples.viewModes Samples.widgets.

End ViewModeWitnesses.

Section AssetViews.
Import Strings AssetSystem CAssetBrowser_Events.

(** ** The two asset views *)

Section ViewFacts.
Context `{Conversions} `{ViewMode} `{Widgets}.

Lemma SetViewMode_some_view_visible viewMode b :
  some_view_visible b -> some_view_visible (SetViewMode viewMode b).
Proof.
  unfold some_view_visible, SetViewMode, CRY_ASSERT. intros Hb.
  repeat case_match; simpl; done.
Qed.

Lemma UpdateModels_views b :
  m_detailsView (UpdateModels b) = m_detailsView b ∧
  m_thumbnailView (UpdateModels b) = m_thumbnailView b.
Proof. unfold UpdateModels. repeat case_match; done. Qed.

Lemma SetRecursiveView_views v b :
  m_detailsView (SetRecursiveView v b) = m_detailsView b ∧
  m_thumbnailView (SetRecursiveView v b) = m_thumbnailView b.
Proof.
  unfold SetRecursiveView. case_match; [| done].
  by destruct (UpdateModels_views (set_recursiveView v b)).
Qed.

Lemma SetRecursiveSearch_views v b :
  m_detailsView (SetRecursiveSearch v b) = m_detailsView b ∧
  m_thumbnailView (SetRecursiveSearch v b) = m_thumbnailView b.
Proof.
  unfold SetRecursiveSearch. case_match; [| done].
  by destruct (UpdateModels_views (set_recursiveSearch v b)).
Qed.

Lemma SetLayout_some_view_visible state b :
  some_view_visible b -> some_view_visible (SetLayout state b).
Proof.
  intros Hb. cbv beta delta [SetLayout].
  repeat (step_let;
          try match goal with
            | y := _ : CAssetBrowser |- _ =>
                assert (some_view_visible y)
                  by (subst y;
                      repeat match goal with
                             | |- context [match ?x with _ => _ end] => destruct x
                             end;
                      first [ assumption
                            | by apply SetViewMode_some_view_visible
                            | by (unfold some_view_visible in *;
                                  rewrite ?(proj1 (SetRecursiveView_views _ _)),
                                    ?(proj2 (SetRecursiveView_views _ _)),
                                    ?(proj1 (SetRecursiveSearch_views _ _)),
                                    ?(proj2 (SetRecursiveSearch_views _ _)); simpl) ]);
                clearbody y
            end).
  unfold some_view_visible, UpdateNavigation in *. simpl. done.
Qed.

Lemma OnFolderSelectionChanged_visible selectedFolders b b' :
  OnFolderSelectionChanged selectedFolders b = inr b' ->
  view_visible (m_detailsView b') = view_visible (m_detailsView b) ∧
  view_visible (m_thumbnailView b') = view_visible (m_thumbnailView b).
Proof.
  unfold OnFolderSelectionChanged, QVector_resize, QList_first.
  destruct (1 <? Z.of_nat (length selectedFolders)); [| destruct selectedFolders; [discriminate |]];
    simpl; destruct (m_dontPushNavHistory b); simpl;
    try (intros [= <-]; simpl; done);
    destruct (m_navigationIndex b <? count (m_navigationHistory b) - 1);
    try destruct (m_navigationIndex b + 1 <? 0); simpl;
    try discriminate; intros [= <-]; simpl; done.
Qed.

Lemma deliver_visible emitted b b' :
  deliver emitted b = inr b' ->
  view_visible (m_detailsView b') = view_visible (m_detailsView b) ∧
  view_visible (m_thumbnailView b') = view_visible (m_thumbnailView b).
Proof.
  revert b. induction emitted as [| selectedFolders rest IH]; intros b; simpl.
  - by intros [= <-].
  - intros (b1 & Hb1 & Hrest)%Outcome_bind_inr.
    destruct (OnFolderSelectionChanged_visible _ _ _ Hb1) as [Hd Ht].
    destruct (IH _ Hrest) as [Hd' Ht']. split; congruence.
Qed.

Lemma request_visible r emitted b b' :
  request r emitted b = inr b' ->
  view_visible (m_detailsView b') = view_visible (m_detailsView b) ∧
  view_visible (m_thumbnailView b') = view_visible (m_thumbnailView b).
Proof. unfold request. intros Hrun. by destruct (deliver_visible _ _ _ Hrun). Qed.

Lemma dispatch_visible ev b b' :
  dispatch ev b = inr b' ->
  view_visible (m_detailsView b') = view_visible (m_detailsView b) ∧
  view_visible (m_thumbnailView b') = view_visible (m_thumbnailView b).
Proof.
  destruct ev as [selectedFolders | emitted | emitted]; simpl.
  - apply OnFolderSelectionChanged_visible.
  - unfold OnNavBack.
    intros (b1 & Hb1 & [= <-])%Outcome_bind_inr. simpl.
    revert Hb1. case_match.
    + intros Hreq. destruct (request_visible _ _ _ _ Hreq) as [Hd Ht].
      revert Hd Ht. by case_match.
    + intros (folders & _ & Hreq)%Outcome_bind_inr.
      destruct (request_visible _ _ _ _ Hreq) as [Hd Ht].
      revert Hd Ht. by case_match.
  - unfold OnNavForward.
    intros (folders & _ & (b1 & Hreq & [= <-])%Outcome_bind_inr)%Outcome_bind_inr. simpl.
    by destruct (request_visible _ _ _ _ Hreq).
Qed.

(** X20.  At every moment of the life of the browser at least one of the
    details view and the thumbnail view is shown: no sequence of view mode
    changes, recursion toggles, filter edits, folder tree toggles, restored
    layouts and navigation events hides both. *)
Theorem reachable_browser_shows_a_view (fresh : FreshWidgets) (b : CAssetBrowser) :
  reachable fresh b -> some_view_visible b.
Proof.
  unfold reachable. intros Hreach.
  eapply (rtc_ind_r (fun b => some_view_visible b)); [| | exact Hreach].
  - reflexivity.
  - intros b1 b2 _ Hstep IH. destruct Hstep.
    + by apply SetViewMode_some_view_visible.
    + unfold some_view_visible in *.
      by rewrite (proj1 (SetRecursiveView_views _ _)), (proj2 (SetRecursiveView_views _ _)).
    + unfold some_view_visible in *.
      by rewrite (proj1 (SetRecursiveSearch_views _ _)), (proj2 (SetRecursiveSearch_views _ _)).
    + exact IH.
    + unfold some_view_visible in *.
      by rewrite (proj1 (UpdateModels_views _)), (proj2 (UpdateModels_views _)).
    + exact IH.
    + by apply SetLayout_some_view_visible.
    + match goal with Hd : dispatch _ _ = inr _ |- _ =>
        destruct (dispatch_visible _ _ _ Hd) as [Hdv Htv]
      end.
      unfold some_view_visible in *. congruence.
Qed.

(** X21.  eventFilter consumes a mouse release exactly when it was a back or
    forward button release whose navigation button is enabled (the handler
    then ran as mouseReleaseEvent does, and the event is accepted); any other
    release leaves the browser unchanged and is passed on.  A resize only
    turns the folders splitter, horizontal when the browser is wider than
    high, and is passed on.  A tooltip event for one of the two views is
    consumed and shows or hides exactly one tooltip; events for other
    objects cause no tooltip call. *)
Theorem eventFilter_consumes_navigation_releases (indexUnderCursor : ViewKind -> QModelIndex)
    (width height : Z) (object : Watched) (emitted : list QStringList) (b : CAssetBrowser) :
  (forall button filtered,
     eventFilter indexUnderCursor width height object (MouseButtonRelease button) emitted b = inr filtered ->
     (filtered_result filtered = true ↔
        (button = BackButton ∧ m_backButton b = true) ∨
        (button = ForwardButton ∧ m_forwardButton b = true)) ∧
     filtered_accepted filtered = Some (filtered_result filtered) ∧
     mouseReleaseEvent button emitted b = inr (filtered_browser filtered) ∧
     (filtered_result filtered = false -> filtered_browser filtered = b) ∧
     filtered_effects filtered = []) ∧
  (forall button,
     mouseReleaseEvent_accepts button b = false ->
     ∃ filtered,
       eventFilter indexUnderCursor width height object (MouseButtonRelease button) emitted b = inr filtered ∧
       filtered_result filtered = false ∧ filtered_browser filtered = b) ∧
  (∃ filtered,
     eventFilter indexUnderCursor width height object Resize emitted b = inr filtered ∧
     filtered_result filtered = false ∧
     filtered_accepted filtered = None ∧
     filtered_browser filtered
     = set_foldersSplitter
         (setOrientation (if height <? width then Horizontal else Vertical) (m_foldersSplitter b)) b) ∧
  (forall event filtered,
     eventFilter indexUnderCursor width height Watched_other event emitted b = inr filtered ->
     filtered_effects filtered = []) ∧
  (object ≠ Watched_other ->
   ∃ filtered,
     eventFilter indexUnderCursor width height object ToolTip emitted b = inr filtered ∧
     filtered_result filtered = true ∧
     filtered_accepted filtered = Some true ∧
     filtered_browser filtered = b ∧
     length (filtered_effects filtered) = 1%nat).
Proof.
  split; [| split; [| split; [| split]]].
  - intros button filtered. unfold eventFilter, mouseReleaseEvent_accepts.
    intros (b' & Hrelease & [= <-])%Outcome_bind_inr. simpl.
    split; [| split; [done | split; [done | split; [| done]]]].
    + destruct button; simpl; split; try done.
      * intros Hb. left. done.
      * intros [[_ Hb] | [? _]]; done.
      * intros Hb. right. done.
      * intros [[? _] | [_ Hb]]; done.
      * intros [[? _] | [? _]]; done.
    + intros Hnot. unfold mouseReleaseEvent in Hrelease.
      destruct button; simpl in *; rewrite ?Hnot in Hrelease; by injection Hrelease as <-.
  - intros button Hnot. unfold eventFilter, mouseReleaseEvent, mouseReleaseEvent_accepts in *.
    destruct button; simpl in *; rewrite ?Hnot; simpl; eexists; (split; [reflexivity |]); done.
  - eexists. split; [reflexivity |]. done.
  - intros event filtered. unfold eventFilter.
    destruct event as [| button | |]; simpl.
    + by intros [= <-].
    + by intros (b' & Hrelease & [= <-])%Outcome_bind_inr.
    + by intros [= <-].
    + by intros [= <-].
  - intros Hobject. unfold eventFilter, tooltip.
    destruct object; [| | done]; eexists; (split; [reflexivity |]); simpl;
      repeat split; by case_match.
Qed.

End ViewFacts.

End AssetViews.

Section ViewWitnesses.
Import Strings AssetSystem CAssetBrowser_Events.
#[local] Existing Instances Samples.conversions Samples.viewModes Samples.widgets.

Lemma reachable_browser_shows_a_view_witness :
  some_view_visible (SetViewMode Details Samples.browser).
Proof.
  apply (reachable_browser_shows_a_view Samples.fresh).
  eapply rtc_l; [apply Step_SetViewMode | apply rtc_refl].
Defined.

End ViewWitnesses.

Section ContextMenus.
Import Strings AssetSystem Private_AssetBrowser_Filters CAssetBrowser_Selection CAssetBrowser_Menus.

(** ** Context menus *)

#[local] Set Warnings "-clear-no-such-hyp".

(** What one push_back does to a QMap whose keys ascend. *)
Lemma QMap_push_back_spec key asset (m : list (Z * list Z)) :
  StronglySorted Z.lt m.*1 ->
  StronglySorted Z.lt (QMap_push_back key asset m).*1 ∧
  (forall k, k ∈ (QMap_push_back key asset m).*1 ↔ k = key ∨ k ∈ m.*1) ∧
  (forall k v, (k, v) ∈ QMap_push_back key asset m ↔
     (k ≠ key ∧ (k, v) ∈ m) ∨
     (k = key ∧ ((∃ old, (key, old) ∈ m ∧ v = old ++ [asset]) ∨ ((key ∉ m.*1) ∧ v = [asset])))).
Proof.
  induction m as [| [k0 v0] rest IH]; intros Hsorted.
  - cbn. split; [repeat constructor |]. split.
    + intros k. rewrite list_elem_of_singleton, elem_of_nil. tauto.
    + intros k v. rewrite list_elem_of_singleton. setoid_rewrite elem_of_nil. naive_solver.
  - rewrite fmap_cons in Hsorted. apply StronglySorted_inv in Hsorted as [Hrest Hall].
    cbn [fst] in Hall.
    specialize (IH Hrest) as (IHs & IHk & IHv).
    assert (Hkeys : forall k v, (k, v) ∈ rest -> k ∈ rest.*1).
    { intros k v Hin. apply list_elem_of_fmap. by exists (k, v). }
    assert (Habove : forall k, k ∈ rest.*1 -> k0 < k).
    { intros k Hin. by eapply Forall_forall in Hall. }
    assert (Hnotin : k0 ∉ rest.*1).
    { intros Hin%Habove. lia. }
    cbn [QMap_push_back]. destruct (Z.ltb_spec key k0) as [Hlt | Hge]; cbv iota.
    + assert (key ∉ rest.*1) as Hfresh by (intros Hin%Habove; lia).
      assert (key ≠ k0) as Hne by lia.
      split; [| split].
      * rewrite !fmap_cons. cbn [fst]. constructor; [by constructor |].
        constructor; [done |]. eapply Forall_impl; [exact Hall |]. cbn beta. lia.
      * intros k. rewrite !fmap_cons, !elem_of_cons. cbn [fst]. tauto.
      * intros k v. rewrite !fmap_cons. cbn [fst]. rewrite !elem_of_cons.
        setoid_rewrite elem_of_cons. naive_solver.
    + destruct (Z.eqb_spec key k0) as [-> | Hne]; cbv iota.
      * split; [| split].
        -- rewrite !fmap_cons. cbn [fst]. by constructor.
        -- intros k. rewrite !fmap_cons, !elem_of_cons. cbn [fst]. tauto.
        -- intros k v. rewrite !fmap_cons. cbn [fst]. rewrite !elem_of_cons.
           setoid_rewrite elem_of_cons. naive_solver.
      * split; [| split].
        -- rewrite !fmap_cons. cbn [fst]. constructor; [done |].
           apply Forall_forall. intros k [-> | Hin]%IHk; [lia | by apply Habove].
        -- intros k. rewrite !fmap_cons, !elem_of_cons, IHk. cbn [fst]. tauto.
        -- intros k v. rewrite !fmap_cons. cbn [fst]. rewrite !elem_of_cons, IHv.
           setoid_rewrite elem_of_cons. naive_solver.
Qed.

Section MenuFacts.
Context `{Conversions} `{StringConversions} `{EAssetModelRowType} `{Assets} `{CAssetFoldersModel} `{CAbstractMenu}.

Lemma NotifyContextMenuCreation_added menu assets folders :
  ∃ named,
    NotifyContextMenuCreation menu assets folders
    = menu ++ named ++ [s_signalContextMenuRequested assets folders] ∧
    menu_actions named = [] ∧
    type_actions named = [] ∧
    (forall text created, CreateMenu text created ∉ named).
Proof.
  unfold NotifyContextMenuCreation. case_match.
  - eexists [_]. rewrite <- app_assoc. split; [reflexivity |]. split; [done |]. split; [done |].
    intros text created [Heq | Hin%elem_of_nil]%elem_of_cons; [discriminate | done].
  - exists []. split; [reflexivity |]. split; [done |]. split; [done |].
    intros text created Hin%elem_of_nil. done.
Qed.

(** The last call of a menu that ends in the notification. *)
Ltac last_is_notification :=
  repeat first [rewrite app_comm_cons | rewrite app_assoc]; apply last_snoc.

(** X22.  The context menu for folders.  With no folder at all the builder
    reads element 0 of an empty vector.  With several folders, or one that
    is read-only, the menu is left untouched and no notification is sent.
    For one writable folder the menu gets "Create folder", then "Delete" and
    "Rename" exactly when the folder is empty, then "Show in File Explorer"
    and "Generate Thumbnails", all for that folder, and the notification
    about the menu comes last. *)
Theorem BuildContextMenuForFolders_offers (folders : list string) (menu : list MenuCall) :
  (folders = [] -> BuildContextMenuForFolders folders menu = None) ∧
  ((1 < length folders)%nat -> BuildContextMenuForFolders folders menu = Some menu) ∧
  (forall folder, folders = [folder] -> IsReadOnlyFolder folder = true ->
     BuildContextMenuForFolders folders menu = Some menu) ∧
  (forall folder, folders = [folder] -> IsReadOnlyFolder folder = false ->
     ∃ added,
       BuildContextMenuForFolders folders menu = Some (menu ++ added) ∧
       menu_actions added =
         [("Create folder", Do_OnCreateFolder folder)]
         ++ (if IsEmptyFolder folder
             then [("Delete", Do_DeleteFolder folder); ("Rename", Do_OnRenameFolder folder)]
             else [])
         ++ [("Show in File Explorer", Do_OpenFolderWithShell folder);
             ("Generate Thumbnails", Do_GenerateThumbnailsAsync folder)] ∧
       last added = Some (s_signalContextMenuRequested [] [folder])).
Proof.
  split; [| split; [| split]].
  - intros ->. reflexivity.
  - intros Hlen. unfold BuildContextMenuForFolders.
    by replace (1 <? Z.of_nat (length folders)) with true by (symmetry; apply Z.ltb_lt; lia).
  - intros folder -> Hro. unfold BuildContextMenuForFolders. simpl. by rewrite Hro.
  - intros folder -> Hro. unfold BuildContextMenuForFolders. simpl. rewrite Hro.
    match goal with |- context [NotifyContextMenuCreation ?m ?a ?f] =>
      destruct (NotifyContextMenuCreation_added m a f) as (named & -> & Hactions & _)
    end.
    destruct (IsEmptyFolder folder); rewrite <- !app_assoc; simpl; eexists;
      (split; [reflexivity |]); unfold menu_actions in *; simpl;
      rewrite omap_app, Hactions; (split; [reflexivity |]); last_is_notification.
Qed.


Lemma QMap_push_back_nonempty key asset (m : list (Z * list Z)) :
  Forall (fun group => group.2 ≠ []) m ->
  Forall (fun group => group.2 ≠ []) (QMap_push_back key asset m).
Proof.
  induction 1 as [| [k v] rest Hv Hrest IH]; simpl.
  - by repeat constructor.
  - repeat case_match; repeat constructor; simpl in *; try done.
    by intros [_ ?]%app_eq_nil.
Qed.

Lemma assetsByType_nonempty assets :
  Forall (fun group => group.2 ≠ []) (assetsByType assets).
Proof.
  unfold assetsByType.
  assert (Hgen : forall m : list (Z * list Z),
            Forall (fun group => group.2 ≠ []) m ->
            Forall (fun group => group.2 ≠ [])
              (foldl (fun m asset => QMap_push_back (CAsset_GetType asset) asset m) m assets)).
  { induction assets as [| a rest IH]; intros m Hm; simpl; [done |].
    apply IH. by apply QMap_push_back_nonempty. }
  apply Hgen. constructor.
Qed.

Lemma AppendContextMenuActions_loop (groups : list (Z * list Z)) : forall menu : list MenuCall,
  Forall (fun group => group.2 ≠ []) groups ->
  foldl (fun menu '(pType, typed) =>
           if negb (Z.of_nat (length typed) =? 0) then menu ++ [AppendContextMenuActions pType typed]
           else menu) menu groups
  = menu ++ ((fun group => AppendContextMenuActions group.1 group.2) <$> groups).
Proof.
  induction groups as [| [pType typed] rest IH]; intros menu Hgroups; simpl.
  - by rewrite app_nil_r.
  - apply Forall_cons in Hgroups as [Htyped Hrest]. simpl in Htyped.
    replace (Z.of_nat (length typed) =? 0) with false
      by (symmetry; apply Z.eqb_neq; destruct typed; [done | simpl; lia]).
    simpl. rewrite IH by done. by rewrite <- app_assoc.
Qed.

Lemma type_actions_groups (groups : list (Z * list Z)) :
  type_actions ((fun group => AppendContextMenuActions group.1 group.2) <$> groups) = groups ∧
  menu_actions ((fun group => AppendContextMenuActions group.1 group.2) <$> groups) = [].
Proof.
  induction groups as [| [pType typed] rest [IHt IHa]]; [done |].
  rewrite fmap_cons. split.
  - change ((pType, typed)
            :: type_actions ((fun group => AppendContextMenuActions group.1 group.2) <$> rest)
            = (pType, typed) :: rest).
    by rewrite IHt.
  - exact IHa.
Qed.

(** The actions BuildContextMenuForAssets creates itself, and the groups it
    hands to the asset types. *)
Lemma BuildContextMenuForAssets_added assets folders menu :
  ∃ added,
    BuildContextMenuForAssets assets folders menu = menu ++ added ∧
    last added = Some (s_signalContextMenuRequested assets folders) ∧
    type_actions added = assetsByType assets ∧
    menu_actions added =
      (if canReimport assets then [("Reimport", Do_OnReimport assets)] else [])
      ++ (if negb (isReadOnly assets) then [("Delete", Do_OnDelete assets)] else [])
      ++ (if isModified assets
          then [("Save", Do_Save assets); ("Discard Changes", Do_DiscardChanges assets)] else [])
      ++ match assets with
         | [front] =>
             [("Rename", Do_OnRenameAsset front);
              ("Show in File Explorer", Do_OpenInExplorer front);
              ("Show Assets that use '" +:+ CAsset_GetName front +:+ "'", Do_FilterDependencies CUse front);
              ("Show Assets used by '" +:+ CAsset_GetName front +:+ "'", Do_FilterDependencies CUsedBy front)]
         | _ => []
         end.
Proof.
  unfold BuildContextMenuForAssets. cbv zeta.
  rewrite AppendContextMenuActions_loop by apply assetsByType_nonempty.
  destruct (type_actions_groups (assetsByType assets)) as [Htypes Hnone].
  match goal with |- context [NotifyContextMenuCreation ?m ?a ?f] =>
    destruct (NotifyContextMenuCreation_added m a f) as (named & -> & Hactions & Hnamed & _)
  end.
  set (groups := (fun group => AppendContextMenuActions group.1 group.2) <$> assetsByType assets) in *.
  destruct (canReimport assets), (isReadOnly assets), (isModified assets);
    destruct assets as [| front [| second rest]];
    unfold AppendFilterDependenciesActions; simpl;
    rewrite <- ?app_assoc; simpl; eexists;
    (split; [reflexivity |]);
    (split; [last_is_notification |]);
    unfold type_actions, menu_actions in *; simpl;
    rewrite ?omap_app, ?Htypes, ?Hnone, ?Hactions, ?Hnamed; simpl;
    rewrite ?app_nil_r; done.
Qed.

(** X23.  The context menu for assets only adds to the menu, and the
    notification with the assets and folders comes last.  "Reimport" is
    offered exactly when some asset is of an imported type, writable and has
    a source file; "Delete" exactly when no asset is read-only and the file
    of the first asset is on disk (the files of the other assets are not
    looked at); "Save" and "Discard Changes" exactly when some asset is
    modified; "Rename" exactly when one asset is selected. *)
Theorem BuildContextMenuForAssets_offers (assets : list Z) (folders : list string) (menu : list MenuCall) :
  ∃ added,
    BuildContextMenuForAssets assets folders menu = menu ++ added ∧
    last added = Some (s_signalContextMenuRequested assets folders) ∧
    (("Reimport", Do_OnReimport assets) ∈ menu_actions added ↔
       ∃ asset, asset ∈ assets ∧ CAssetType_IsImported (CAsset_GetType asset) = true ∧
                CAsset_IsReadOnly asset = false ∧ CAsset_HasSourceFile asset = true) ∧
    (("Delete", Do_OnDelete assets) ∈ menu_actions added ↔
       (forall asset, asset ∈ assets -> CAsset_IsReadOnly asset = false) ∧
       (forall front rest, assets = front :: rest ->
          ICryPak_IsFileExist_OnDisk (CAsset_GetFile front 0) = true)) ∧
    (("Save", Do_Save assets) ∈ menu_actions added ↔
       ∃ asset, asset ∈ assets ∧ CAsset_IsModified asset = true) ∧
    (("Discard Changes", Do_DiscardChanges assets) ∈ menu_actions added ↔
       ∃ asset, asset ∈ assets ∧ CAsset_IsModified asset = true) ∧
    (forall asset, ("Rename", Do_OnRenameAsset asset) ∈ menu_actions added ↔ assets = [asset]).
Proof.
  destruct (BuildContextMenuForAssets_added assets folders menu) as (added & Hrun & Hlast & _ & Hactions).
  exists added. split; [exact Hrun |]. split; [exact Hlast |]. rewrite Hactions. clear Hrun Hlast Hactions.
  assert (Hreimport : canReimport assets = true ↔
            ∃ asset, asset ∈ assets ∧ CAssetType_IsImported (CAsset_GetType asset) = true ∧
                     CAsset_IsReadOnly asset = false ∧ CAsset_HasSourceFile asset = true).
  { unfold canReimport. rewrite existsb_exists. split.
    - intros (asset & Hin%list_elem_of_In & [[Hi Hr%negb_true_iff]%andb_true_iff Hs]%andb_true_iff).
      by exists asset.
    - intros (asset & Hin%list_elem_of_In & Hi & Hr & Hs). exists asset.
      split; [done |]. by rewrite Hi, Hr, Hs. }
  assert (Hdelete : isReadOnly assets = false ↔
            (forall asset, asset ∈ assets -> CAsset_IsReadOnly asset = false) ∧
            (forall front rest, assets = front :: rest ->
               ICryPak_IsFileExist_OnDisk (CAsset_GetFile front 0) = true)).
  { unfold isReadOnly. destruct assets as [| front rest].
    - split; [| done]. intros _. split; [by intros ? ?%elem_of_nil | done].
    - rewrite <- not_true_iff_false, existsb_exists. split.
      + intros Hnone. split.
        * intros asset Hin. destruct (CAsset_IsReadOnly asset) eqn:Hro; [| done].
          exfalso. apply Hnone. exists asset. split; [by apply list_elem_of_In |]. by rewrite Hro.
        * intros ? ? [= <- <-].
          destruct (ICryPak_IsFileExist_OnDisk (CAsset_GetFile front 0)) eqn:Hfile; [done |].
          exfalso. apply Hnone. exists front. split; [by left |]. by rewrite orb_true_r.
      + intros [Hro Hfile] (asset & Hin%list_elem_of_In & Hbad).
        rewrite (Hro asset Hin), (Hfile front rest eq_refl) in Hbad. done. }
  assert (Hmodified : isModified assets = true ↔
            ∃ asset, asset ∈ assets ∧ CAsset_IsModified asset = true).
  { unfold isModified. rewrite existsb_exists. split.
    - intros (asset & Hin%list_elem_of_In & Hm). by exists asset.
    - intros (asset & Hin%list_elem_of_In & Hm). by exists asset. }
  rewrite <- Hreimport, <- Hdelete, <- Hmodified. clear Hreimport Hdelete Hmodified.
  destruct (canReimport assets), (isReadOnly assets), (isModified assets);
    destruct assets as [| front [| second rest]]; simpl;
    repeat split; intros; try done;
    repeat match goal with
           | Hin : _ ∈ [] |- _ => by apply elem_of_nil in Hin
           | Hin : _ ∈ _ :: _ |- _ => apply elem_of_cons in Hin as [Hin | Hin]; try discriminate
           | Heq : (_, _) = (_, _) |- _ => injection Heq as Heq; subst
           | Heq : _ :: _ = _ :: _ |- _ => injection Heq as Heq; subst
           end;
    try done; try congruence;
    repeat first [ apply list_elem_of_here | apply list_elem_of_further ].
Qed.


Lemma assetsByType_spec (assets : list Z) :
  StronglySorted Z.lt (assetsByType assets).*1 ∧
  (forall pType typed, (pType, typed) ∈ assetsByType assets ↔
     typed ≠ [] ∧ typed = filter (fun asset => CAsset_GetType asset = pType) assets).
Proof.
  unfold assetsByType.
  induction assets as [| asset assets IH] using rev_ind.
  - simpl. split; [constructor |]. intros pType typed. split; [by intros ?%elem_of_nil | by intros [? ->]].
  - rewrite foldl_app. simpl. destruct IH as [IHs IHv].
    set (m := foldl (fun m asset => QMap_push_back (CAsset_GetType asset) asset m) [] assets) in *.
    destruct (QMap_push_back_spec (CAsset_GetType asset) asset m IHs) as (Hs & Hk & Hv).
    split; [exact Hs |]. intros pType typed. rewrite Hv, filter_app. clear Hv Hs.
    assert (Hkeys : forall k, k ∈ m.*1 ↔ filter (fun asset => CAsset_GetType asset = k) assets ≠ []).
    { intros k. split.
      - intros ([k' v] & -> & Hin)%list_elem_of_fmap. simpl. apply IHv in Hin as [Hne <-]. done.
      - intros Hne. apply list_elem_of_fmap.
        exists (k, filter (fun asset => CAsset_GetType asset = k) assets). split; [done |].
        by apply IHv. }
    destruct (decide (CAsset_GetType asset = pType)) as [<- | Hother].
    + rewrite filter_cons_True by done. rewrite filter_nil. split.
      * intros [[Hne _] | [_ [(old & [Hold ->]%IHv & ->) | [Hnot ->]]]]; [done | |].
        -- split; [by intros [_ ?]%app_eq_nil | done].
        -- split; [done |].
           destruct (filter (fun a => CAsset_GetType a = CAsset_GetType asset) assets) eqn:Hf; [done |].
           exfalso. apply Hnot. apply Hkeys. by rewrite Hf.
      * intros [_ ->]. right. split; [done |].
        destruct (filter (fun a => CAsset_GetType a = CAsset_GetType asset) assets) as [| a l] eqn:Hf.
        -- right. split; [| done]. intros Hin%Hkeys. by rewrite Hf in Hin.
        -- left. exists (a :: l). split; [| done]. apply IHv. by rewrite Hf.
    + rewrite filter_cons_False by done. rewrite filter_nil, app_nil_r. split.
      * intros [[_ Hin%IHv] | [Heq _]]; [done | congruence].
      * intros Hin. left. split; [congruence | by apply IHv].
Qed.

(** X24.  The context menu for assets asks each asset type once, in ascending
    order of the types, to append its actions, with exactly the assets of
    that type in selection order; types without an asset are not asked, and
    every asset is handed to its own type. *)
Theorem BuildContextMenuForAssets_hands_each_asset_to_its_type (assets : list Z) (folders : list string)
    (menu : list MenuCall) :
  ∃ added,
    BuildContextMenuForAssets assets folders menu = menu ++ added ∧
    StronglySorted Z.lt (type_actions added).*1 ∧
    (forall pType typed, (pType, typed) ∈ type_actions added ↔
       typed ≠ [] ∧ typed = filter (fun asset => CAsset_GetType asset = pType) assets) ∧
    (forall asset, asset ∈ assets ->
       ∃ typed, (CAsset_GetType asset, typed) ∈ type_actions added ∧ asset ∈ typed).
Proof.
  destruct (BuildContextMenuForAssets_added assets folders menu) as (added & Hrun & _ & Htypes & _).
  exists added. split; [exact Hrun |]. rewrite Htypes.
  destruct (assetsByType_spec assets) as [Hsorted Hgroups].
  split; [exact Hsorted |]. split; [exact Hgroups |].
  intros asset Hin.
  exists (filter (fun a => CAsset_GetType a = CAsset_GetType asset) assets).
  assert (asset ∈ filter (fun a => CAsset_GetType a = CAsset_GetType asset) assets) as Hf
    by (by apply list_elem_of_filter).
  split; [| exact Hf]. apply Hgroups. split; [| done].
  intros Hnil. rewrite Hnil in Hf. by apply elem_of_nil in Hf.
Qed.

(** X25.  Which menu CreateContextMenu builds.  Selected assets give the
    assets menu.  Otherwise, in the folders view, the folders menu is built
    for the folders selected in the folders view, whatever folder rows the
    asset views have selected; outside it, selected folder rows give the
    folders menu, and an empty selection gives the menu for emptiness, or no
    entries at all in the recursive view.  The one case without a defined
    menu is a folders menu or a menu for emptiness built while the folders
    view has no folder selected. *)
Theorem CreateContextMenu_needs_a_folder_for_its_folder_menus (isFolderView : bool)
    (selectedRows : list QModelIndex) (foldersViewSelection : QStringList) (m_recursiveView : bool) :
  let assets := selection_assets (ProcessSelection selectedRows) in
  let folders := selection_folders (ProcessSelection selectedRows) in
  (CreateContextMenu isFolderView selectedRows foldersViewSelection m_recursiveView = None ↔
     assets = [] ∧ foldersViewSelection = [] ∧
     (isFolderView = true ∨ (folders = [] ∧ m_recursiveView = false))) ∧
  (assets ≠ [] ->
     CreateContextMenu isFolderView selectedRows foldersViewSelection m_recursiveView
     = Some (BuildContextMenuForAssets assets folders [])) ∧
  (assets = [] -> folders ≠ [] -> isFolderView = false ->
     CreateContextMenu isFolderView selectedRows foldersViewSelection m_recursiveView
     = BuildContextMenuForFolders folders []) ∧
  (assets = [] -> isFolderView = true ->
     CreateContextMenu isFolderView selectedRows foldersViewSelection m_recursiveView
     = BuildContextMenuForFolders foldersViewSelection []) ∧
  (assets = [] -> folders = [] -> isFolderView = false -> m_recursiveView = false ->
     CreateContextMenu isFolderView selectedRows foldersViewSelection m_recursiveView
     = BuildContextMenuForEmptiness foldersViewSelection []) ∧
  (assets = [] -> folders = [] -> isFolderView = false -> m_recursiveView = true ->
     CreateContextMenu isFolderView selectedRows foldersViewSelection m_recursiveView = Some []).
Proof.
  cbv zeta. unfold CreateContextMenu. cbv zeta.
  assert (Hfolders : forall (folders : list string) menu,
            BuildContextMenuForFolders folders menu = None ↔ folders = []).
  { intros folders menu. unfold BuildContextMenuForFolders.
    destruct folders as [| first [| second rest]]; simpl; [done | |].
    - split; [| done]. by case_match.
    - replace (1 <? Z.of_nat (S (S (length rest)))) with true by (symmetry; apply Z.ltb_lt; lia).
      done. }
  assert (Hemptiness : forall (folders : list string) menu,
            BuildContextMenuForEmptiness folders menu = None ↔ folders = []).
  { intros folders menu. unfold BuildContextMenuForEmptiness.
    destruct folders as [| first rest]; simpl; done. }
  destruct (selection_assets (ProcessSelection selectedRows)) as [| asset assets] eqn:Hassets;
    destruct (selection_folders (ProcessSelection selectedRows)) as [| folder folders] eqn:Hsel;
    destruct isFolderView, m_recursiveView; simpl;
    rewrite ?Hfolders, ?Hemptiness;
    repeat split; try done; try tauto; try (intros; tauto);
    try (intros (? & ? & [? | [? ?]]); done).
Qed.

(** X26.  The context menu for an empty selection.  With no folder selected
    in the folders view the builder reads element 0 of an empty vector.
    Otherwise it only adds to the menu, and the notification, with no assets
    and the selected folders, comes last.  With several folders selected, or
    a first folder that is read-only, it adds no action and no submenu.  For
    one writable folder it adds "Create folder", "Import", "Show in File
    Explorer" and "Generate Thumbnails", and a submenu "New..." with one
    action per asset type that can be created, in the order of the asset
    manager's types, named after the type and set to begin the creation of
    an asset of that type. *)
Theorem BuildContextMenuForEmptiness_offers (selectedFolders : list string) (menu : list MenuCall) :
  (selectedFolders = [] -> BuildContextMenuForEmptiness selectedFolders menu = None) ∧
  (forall folder rest, selectedFolders = folder :: rest ->
     ∃ added,
       BuildContextMenuForEmptiness selectedFolders menu = Some (menu ++ added) ∧
       last added = Some (s_signalContextMenuRequested [] selectedFolders) ∧
       (rest ≠ [] ∨ IsReadOnlyFolder folder = true ->
          menu_actions added = [] ∧ forall text created, CreateMenu text created ∉ added) ∧
       (rest = [] -> IsReadOnlyFolder folder = false ->
          menu_actions added =
            [("Create folder", Do_OnCreateFolder folder);
             ("Import", Do_OnImport);
             ("Show in File Explorer", Do_OnOpenInExplorer folder);
             ("Generate Thumbnails", Do_GenerateThumbnailsAsync folder)] ∧
          ∃ created,
            CreateMenu "New..." created ∈ added ∧
            (fun a => (action_text a, action_trigger a)) <$> created
            = (fun pAssetType => (CAssetType_GetUiTypeName pAssetType, Do_BeginCreateAsset pAssetType))
                <$> filter (fun pAssetType => CAssetType_CanBeCreated pAssetType = true) GetAssetTypes)).
Proof.
  split; [by intros -> |].
  intros folder rest ->. unfold BuildContextMenuForEmptiness.
  cbn [lookup list_lookup mbind option_bind].
  match goal with |- context [NotifyContextMenuCreation ?m ?a ?f] =>
    destruct (NotifyContextMenuCreation_added m a f) as (named & -> & Hactions & _ & Hnamed)
  end.
  destruct ((Z.of_nat (length (folder :: rest)) =? 1) && negb (IsReadOnlyFolder folder)) eqn:Hone.
  - apply andb_true_iff in Hone as [Hlen Hro]. apply Z.eqb_eq in Hlen.
    apply negb_true_iff in Hro.
    assert (rest = []) as -> by (destruct rest; [done | simpl in Hlen; lia]).
    rewrite <- !app_assoc. eexists. split; [reflexivity |].
    split; [cbn [app]; last_is_notification |].
    split; [intros [? | ?]; congruence |].
    intros _ _. split.
    + unfold menu_actions in *. simpl. rewrite omap_app, Hactions. reflexivity.
    + eexists. split.
      * cbn [app]. do 2 apply list_elem_of_further. apply list_elem_of_here.
      * unfold FillCreateAssetMenu. generalize GetAssetTypes. intros types.
        match goal with |- context [omap ?g types] => set (f := g) end.
        induction types as [| pAssetType types IH]; [done |].
        change (omap f (pAssetType :: types))
          with (match f pAssetType with Some a => a :: omap f types | None => omap f types end).
        unfold f at 1. destruct (CAssetType_CanBeCreated pAssetType) eqn:Hcreate; cbn [negb].
        -- rewrite filter_cons_True by done. rewrite !fmap_cons, IH. reflexivity.
        -- rewrite filter_cons_False by congruence. exact IH.
  - rewrite <- !app_assoc. eexists. split; [reflexivity |].
    split; [cbn [app]; last_is_notification |].
    split.
    + intros _. split.
      * unfold menu_actions in *. simpl. rewrite omap_app, Hactions. reflexivity.
      * intros text created. cbn [app]. rewrite elem_of_cons, elem_of_app, list_elem_of_singleton.
        intros [? | [Hin | ?]]; try discriminate. by eapply Hnamed.
    + intros -> Hro. rewrite Hro in Hone. discriminate.
Qed.

Section ReimportFacts.

(** X27.  OnReimport reimports exactly the assets of an imported type that
    are not read-only, each once and in order, and does nothing else; when
    the context menu offers "Reimport", at least one asset is reimported. *)
Theorem OnReimport_reimports_what_the_menu_promises (assets : list Z) :
  omap reimported (OnReimport assets)
  = filter (fun asset => CAssetType_IsImported (CAsset_GetType asset) = true ∧
                         CAsset_IsReadOnly asset = false) assets ∧
  Forall (fun e => ∃ asset, e = CAsset_Reimport asset) (OnReimport assets) ∧
  (canReimport assets = true -> OnReimport assets ≠ []).
Proof.
  unfold OnReimport. split; [| split].
  - induction assets as [| asset rest IH]; [done |].
    change ((asset :: rest) ≫= ?f) with (f asset ++ (rest ≫= f)).
    rewrite omap_app, IH.
    destruct (CAssetType_IsImported (CAsset_GetType asset)) eqn:Hi,
             (CAsset_IsReadOnly asset) eqn:Hr; simpl.
    + rewrite filter_cons_False; [done | intros [? ?]; congruence].
    + by rewrite filter_cons_True.
    + rewrite filter_cons_False; [done | intros [? ?]; congruence].
    + rewrite filter_cons_False; [done | intros [? ?]; congruence].
  - induction assets as [| asset rest IH]; [constructor |].
    change ((asset :: rest) ≫= ?f) with (f asset ++ (rest ≫= f)).
    apply Forall_app. split; [| exact IH].
    case_match; repeat constructor. by exists asset.
  - unfold canReimport. intros (asset & Hin & [Hi _]%andb_true_iff)%existsb_exists.
    apply andb_true_iff in Hi as [Hi Hr'].
    apply list_elem_of_In in Hin. apply list_elem_of_split in Hin as (before & after & ->).
    rewrite bind_app. intros [_ Hnil]%app_eq_nil.
    change ((asset :: after) ≫= ?f) with (f asset ++ (after ≫= f)) in Hnil.
    cbv beta in Hnil. rewrite Hi, Hr' in Hnil. simpl in Hnil. done.
Qed.

End ReimportFacts.

End MenuFacts.

End ContextMenus.
